(** * Student expense tracker: the expense screen and its store

    A shallow embedding of [App.js] (the schema the provider creates) and of
    [ExpenseScreen.js] (the screen's state, its three statements against the
    [expenses] table, the week and month filters, the two aggregates, the
    edit form and the texts of a render), followed by the properties the
    specification states about them and by further properties of the code.

    Conventions of the embedding:
    - a JavaScript number is an IEEE 754 binary64 value, taken from the
      Standard Library's [SpecFloat] at precision 53 and maximal exponent
      1024 (round to nearest, ties to even);
    - a JavaScript string is a [string]; a character stands for one code
      unit below 256;
    - a time value is a number of milliseconds since the epoch, in [Z]; the
      host's local time zone is a fixed offset [tza] (no daylight saving);
    - an object literal used as a map is the list of its own properties, in
      creation order, over the properties it inherits from
      [Object.prototype];
    - the database is the table's columns, its rows and the autoincrement
      counter; a statement either changes it or is rejected with an error;
    - the [useState] cells of the component are the fields of one record,
      and the [async] functions are actions of a state-and-rejection monad
      that also logs every call made on the database handle;
    - a render is the texts it shows: the rows of the list and the summary
      box, without layout or style; the controls the JSX binds are the
      events of the screen, each with the handler it is bound to;
    - the text of a number ([toString], [toFixed]) is computed on the exact
      value of the number, with integer arithmetic. *)

From Stdlib Require Import ZArith List String Ascii Bool Lia Permutation Sorted.
From Stdlib Require Import Floats.
Import ListNotations.

Local Open Scope string_scope.
Local Open Scope list_scope.
Local Open Scope Z_scope.

(** ** JavaScript numbers *)

Module JSNumber.

Definition prec : Z := 53.
Definition emax : Z := 1024.

Definition num : Type := spec_float.

Definition NaN : num := S754_nan.
Definition zero : num := S754_zero false.

(** [x + y] on numbers. *)
Definition add (x y : num) : num := SFadd prec emax x y.

(** [isNaN(x)] for a number [x]. *)
Definition isNaN (x : num) : bool :=
  match x with S754_nan => true | _ => false end.

(** [x <= y] and [x < y]: false as soon as one side is NaN. *)
Definition leb (x y : num) : bool := SFleb x y.
Definition ltb (x y : num) : bool := SFltb x y.

(** [!x] for a number [x]: the falsy numbers are the two zeros and NaN. *)
Definition falsy (x : num) : bool :=
  match x with
  | S754_zero _ | S754_nan => true
  | _ => false
  end.

(** The number nearest to the integer [n]. *)
Definition ofZ (n : Z) : num := binary_normalize prec emax n 0 false.

(** The number nearest to [(-1)^neg * m * 10^e] for a natural [m]: an
    integer is rounded as it is, a proper decimal fraction through the
    correctly rounded quotient of [m] by the power of ten. *)
Definition of_decimal (neg : bool) (m : Z) (e : Z) : num :=
  match m with
  | Z0 => S754_zero neg
  | Zneg _ => NaN
  | Zpos _ =>
      if 0 <=? e then
        binary_normalize prec emax ((if neg then Z.opp m else m) * 10 ^ e) 0 false
      else
        let '(q, e', l) := SFdiv_core_binary prec emax m 0 (10 ^ (- e)) 0 in
        binary_round_aux prec emax neg q e' l
  end.

End JSNumber.

(** ** JavaScript strings *)

Module JSString.

Definition code (c : ascii) : Z := Z.of_N (N_of_ascii c).

(** White space and line terminators among the code units below 256:
    TAB, LF, VT, FF, CR, SP and NBSP. *)
Definition is_space (c : ascii) : bool :=
  let n := code c in
  ((9 <=? n) && (n <=? 13)) || (n =? 32) || (n =? 160).

Definition is_digit (c : ascii) : bool :=
  let n := code c in (48 <=? n) && (n <=? 57).

Definition digit (c : ascii) : Z := code c - 48.

Fixpoint trimStart (s : string) : string :=
  match s with
  | String c r => if is_space c then trimStart r else s
  | EmptyString => EmptyString
  end.

Fixpoint rev_onto (s acc : string) : string :=
  match s with
  | String c r => rev_onto r (String c acc)
  | EmptyString => acc
  end.

Definition rev (s : string) : string := rev_onto s EmptyString.

Definition trimEnd (s : string) : string := rev (trimStart (rev s)).

(** [s.trim()] *)
Definition trim (s : string) : string := trimEnd (trimStart s).

(** [!s] for a string: only the empty string is falsy. *)
Definition falsy (s : string) : bool :=
  match s with EmptyString => true | _ => false end.

(** The longest run of decimal digits at the head of [s]: its value from
    the accumulator [acc], its length and the rest of [s]. *)
Fixpoint digits (s : string) (acc : Z) (n : Z) : Z * Z * string :=
  match s with
  | String c r =>
      if is_digit c then digits r (10 * acc + digit c) (n + 1)
      else (acc, n, s)
  | EmptyString => (acc, n, s)
  end.

(** A leading sign: whether it is a minus, and the rest. *)
Definition sign (s : string) : bool * string :=
  match s with
  | String "+" r => (false, r)
  | String "-" r => (true, r)
  | _ => (false, s)
  end.

End JSString.

(** ** [parseFloat] *)

Module Global.
Import JSNumber JSString.

(** The exponent part [e], [E] with an optional sign and at least one
    digit; without one the literal ends before the indicator. *)
Definition exponent (s : string) : Z :=
  match s with
  | String c r =>
      if (code c =? 101) || (code c =? 69) then
        let '(neg, r') := sign r in
        let '(v, n, _) := digits r' 0 0 in
        if n =? 0 then 0 else if neg then - v else v
      else 0
  | EmptyString => 0
  end.

(** [parseFloat(s)]: leading white space is skipped, the longest prefix
    that is a decimal literal is read and anything after it is ignored;
    NaN when there is no such prefix. *)
Definition parseFloat (s : string) : num :=
  let '(neg, u) := sign (trimStart s) in
  if prefix "Infinity" u then S754_infinity neg
  else
    let '(ip, ni, r1) := digits u 0 0 in
    let '(m, nf, r2) :=
      match r1 with
      | String "." r => digits r ip 0
      | _ => (ip, 0, r1)
      end in
    if (ni =? 0) && (nf =? 0) then NaN
    else of_decimal neg m (exponent r2 - nf).

End Global.

(** ** Time values and [Date] *)

Module JSDate.
Import JSString.

Definition msPerDay : Z := 86400000.

Definition Day (t : Z) : Z := t / msPerDay.
Definition TimeWithinDay (t : Z) : Z := t mod msPerDay.

Definition DaysInYear (y : Z) : Z :=
  if negb (y mod 4 =? 0) then 365
  else if negb (y mod 100 =? 0) then 366
  else if negb (y mod 400 =? 0) then 365
  else 366.

Definition DayFromYear (y : Z) : Z :=
  365 * (y - 1970) + (y - 1969) / 4 - (y - 1901) / 100 + (y - 1601) / 400.

(** The largest year that starts on or before [t]: the mean length of a
    year gives an estimate that is off by at most one. *)
Definition YearFromTime (t : Z) : Z :=
  let d := Day t in
  let y := 1970 + (400 * d) / 146097 in
  if d <? DayFromYear y then y - 1
  else if DayFromYear (y + 1) <=? d then y + 1
  else y.

Definition LeapOfYear (y : Z) : Z := if DaysInYear y =? 366 then 1 else 0.
Definition InLeapYear (t : Z) : Z := LeapOfYear (YearFromTime t).

Definition DayWithinYear (t : Z) : Z := Day t - DayFromYear (YearFromTime t).

(** The day within the year on which month [m] (0 = January) starts. *)
Definition FirstDayOfMonth (m leap : Z) : Z :=
  match m with
  | 0 => 0
  | 1 => 31
  | 2 => 59 + leap
  | 3 => 90 + leap
  | 4 => 120 + leap
  | 5 => 151 + leap
  | 6 => 181 + leap
  | 7 => 212 + leap
  | 8 => 243 + leap
  | 9 => 273 + leap
  | 10 => 304 + leap
  | _ => 334 + leap
  end.

Definition MonthOfDay (d leap : Z) : Z :=
  if d <? 31 then 0
  else if d <? 59 + leap then 1
  else if d <? 90 + leap then 2
  else if d <? 120 + leap then 3
  else if d <? 151 + leap then 4
  else if d <? 181 + leap then 5
  else if d <? 212 + leap then 6
  else if d <? 243 + leap then 7
  else if d <? 273 + leap then 8
  else if d <? 304 + leap then 9
  else if d <? 334 + leap then 10
  else 11.

Definition MonthFromTime (t : Z) : Z :=
  MonthOfDay (DayWithinYear t) (InLeapYear t).

Definition DateFromTime (t : Z) : Z :=
  DayWithinYear t - FirstDayOfMonth (MonthFromTime t) (InLeapYear t) + 1.

(** Sunday is 0; the epoch was a Thursday. *)
Definition WeekDay (t : Z) : Z := (Day t + 4) mod 7.

(** [MakeDay(year, month, date)]: months outside 0..11 carry into the
    year, dates outside the month carry into the neighbouring months. *)
Definition MakeDay (year month date : Z) : Z :=
  let ym := year + month / 12 in
  let mn := month mod 12 in
  DayFromYear ym + FirstDayOfMonth mn (LeapOfYear ym) + date - 1.

Definition MakeDate (day time : Z) : Z := day * msPerDay + time.

(** A [Date] holds a time value or NaN (an invalid date). *)
Definition Date : Type := option Z.

Definition TimeClip (t : Z) : Date :=
  if Z.abs t <=? 8640000000000000 then Some t else None.

Section LocalTime.
(** The offset of local time from UTC, in milliseconds. *)
Variable tza : Z.

Definition LocalTime (t : Z) : Z := t + tza.
Definition UTC (t : Z) : Z := t - tza.

Definition getDate (t : Z) : Z := DateFromTime (LocalTime t).
Definition getDay (t : Z) : Z := WeekDay (LocalTime t).
Definition getFullYear (t : Z) : Z := YearFromTime (LocalTime t).
Definition getMonth (t : Z) : Z := MonthFromTime (LocalTime t).

(** [d.setDate(date)] on a valid date [t]: the local day of the month
    is replaced, the local time of day is kept. *)
Definition setDate (t : Z) (date : Z) : Date :=
  let l := LocalTime t in
  TimeClip (UTC (MakeDate (MakeDay (YearFromTime l) (MonthFromTime l) date)
                          (TimeWithinDay l))).

(** [new Date(year, month, date)]: local midnight of that day; a year
    from 0 to 99 counts from 1900. *)
Definition newDate (year month date : Z) : Date :=
  let yr := if (0 <=? year) && (year <=? 99) then 1900 + year else year in
  TimeClip (UTC (MakeDate (MakeDay yr month date) 0)).
End LocalTime.

(** Comparison of two dates by their time values; NaN compares false. *)
Definition geb (a b : Date) : bool :=
  match a, b with Some x, Some y => y <=? x | _, _ => false end.
Definition leb (a b : Date) : bool :=
  match a, b with Some x, Some y => x <=? y | _, _ => false end.

(** *** The date part of [toISOString] *)

Definition digit_char (n : Z) : ascii := ascii_of_N (Z.to_N (48 + n mod 10)).

(** The last [w] decimal digits of the natural [n]. *)
Fixpoint pad (w : nat) (n : Z) (acc : string) : string :=
  match w with
  | O => acc
  | S w' => pad w' (n / 10) (String (digit_char n) acc)
  end.

Definition isoYear (y : Z) : string :=
  if (0 <=? y) && (y <=? 9999) then pad 4 y ""
  else String (if y <? 0 then "-"%char else "+"%char) (pad 6 (Z.abs y) "").

(** [d.toISOString().split('T')[0]] for a valid time value: the UTC
    calendar date, as year, month and day joined by hyphens. *)
Definition isoDate (t : Z) : string :=
  (isoYear (YearFromTime t) ++ "-" ++ pad 2 (MonthFromTime t + 1) ""
     ++ "-" ++ pad 2 (DateFromTime t) "")%string.

(** *** [new Date(s)] for a date-only string *)

(** Exactly [w] digits at the head of [s]: their value and the rest. *)
Fixpoint fixed_digits (w : nat) (s : string) (acc : Z) : option (Z * string) :=
  match w with
  | O => Some (acc, s)
  | S w' =>
      match s with
      | String c r =>
          if is_digit c then fixed_digits w' r (10 * acc + digit c) else None
      | EmptyString => None
      end
  end.

(** A hyphen and two digits, or nothing when the string ends here. *)
Definition field (s : string) (dflt : Z) : option (Z * string) :=
  match s with
  | EmptyString => Some (dflt, s)
  | String "-" r => fixed_digits 2 r 0
  | _ => None
  end.

Definition parse_year (s : string) : option (Z * string) :=
  match s with
  | String "+" r => fixed_digits 6 r 0
  | String "-" r =>
      match fixed_digits 6 r 0 with
      | Some (0, _) => None
      | Some (y, r') => Some (- y, r')
      | None => None
      end
  | _ => fixed_digits 4 s 0
  end.

(** The length of month [m] of year [y], for [m] from 1 to 12. *)
Definition DaysInMonth (y m : Z) : Z :=
  if m =? 12 then 31
  else FirstDayOfMonth m (LeapOfYear y) - FirstDayOfMonth (m - 1) (LeapOfYear y).

(** [new Date(s)] for the date-only forms of the interchange format
    ([YYYY], [YYYY-MM], [YYYY-MM-DD], the year also as a sign and six
    digits): midnight UTC of that day. A field out of range gives an
    invalid date. Strings of any other shape are read as invalid here; the
    screen itself only ever stores the date part of [toISOString]. *)
Definition parse (s : string) : Date :=
  match parse_year s with
  | Some (y, r1) =>
      match field r1 1 with
      | Some (m, r2) =>
          match field r2 1 with
          | Some (d, EmptyString) =>
              if (1 <=? m) && (m <=? 12) && (1 <=? d) && (d <=? DaysInMonth y m)
              then TimeClip (MakeDate (MakeDay y (m - 1) d) 0)
              else None
          | _ => None
          end
      | None => None
      end
  | None => None
  end.

End JSDate.

(** ** [Number.prototype.toString] and [toFixed] *)

Module NumberPrototype.
Import JSNumber JSString JSDate.

(** The value [m * 2^e] of a positive finite number, as a fraction. *)
Definition numerator (m : positive) (e : Z) : Z := Zpos m * 2 ^ Z.max e 0.
Definition denominator (e : Z) : Z := 2 ^ Z.max (- e) 0.

Fixpoint count_digits (fuel : nat) (n : Z) : Z :=
  match fuel with
  | O => 1
  | S fuel' => if n <? 10 then 1 else 1 + count_digits fuel' (n / 10)
  end.

(** The number of decimal digits of a natural number (one for 0). *)
Definition ndigits (n : Z) : Z := count_digits (Z.to_nat (Z.log2 n)) n.

(** The decimal digits of a natural number, and a run of [w] zeros. *)
Definition decimal (n : Z) : string := pad (Z.to_nat (ndigits n)) n "".
Definition zeros (w : Z) : string := pad (Z.to_nat w) 0 "".

(** The [n] with [10^(n-1) <= a / b < 10^n], for positive [a] and [b]. *)
Definition magnitude (a b : Z) : Z :=
  if b <=? a then ndigits (a / b)
  else 1 - ndigits ((b + a - 1) / a - 1).

(** [a / b] divided by [10^p], as a fraction. *)
Definition scaled (a b p : Z) : Z * Z :=
  (a * 10 ^ Z.max (- p) 0, b * 10 ^ Z.max p 0).

(** Whether the decimal [s * 10^p] is read as the number [m * 2^e]. *)
Definition reads (m : positive) (e : Z) (s p : Z) : bool :=
  match of_decimal false s p with
  | S754_finite false m' e' => (Zpos m' =? Zpos m) && (e' =? e)
  | _ => false
  end.

(** The decimal of [k] digits that is read as [m * 2^e], if there is one:
    of the two decimals of [k] digits around the value, the one that is read
    as it; the nearer one, and on a tie the even one, when both are. *)
Definition candidate (m : positive) (e : Z) (k : Z) : option (Z * Z) :=
  let a := numerator m e in
  let b := denominator e in
  let p := magnitude a b - k in
  let '(f, g) := scaled a b p in
  let lo := (f / g, p) in
  let hi := if f / g + 1 =? 10 ^ k then (10 ^ (k - 1), p + 1) else (f / g + 1, p) in
  let nearer_lo := (2 * (f mod g) <? g) || ((2 * (f mod g) =? g) && Z.even (f / g)) in
  match reads m e (fst lo) (snd lo), reads m e (fst hi) (snd hi) with
  | true, true => Some (if nearer_lo then lo else hi)
  | true, false => Some lo
  | false, true => Some hi
  | false, false => None
  end.

Fixpoint search (fuel : nat) (m : positive) (e : Z) (k : Z) : option (Z * Z) :=
  match fuel with
  | O => None
  | S fuel' =>
      match candidate m e k with
      | Some c => Some c
      | None => search fuel' m e (k + 1)
      end
  end.

(** All the digits of the value: [m * 2^e = expansion m e * 10^(min e 0)]. *)
Definition expansion (m : positive) (e : Z) : Z :=
  Zpos m * 2 ^ Z.max e 0 * 5 ^ Z.max (- e) 0.

(** The shortest decimal [s * 10^p] that is read as [m * 2^e]: the number
    of digits grows from one until a decimal is read as the value, which all
    the digits of the value are. *)
Definition shortest (m : positive) (e : Z) : Z * Z :=
  match search (Z.to_nat (ndigits (expansion m e))) m e 1 with
  | Some c => c
  | None => (expansion m e, Z.min e 0)
  end.

(** The text of the decimal [s * 10^p]: with [k] the number of digits of
    [s] and [n = p + k], plain digits when [0 < n <= 21], a fraction with
    leading zeros when [-6 < n <= 0], and the exponent form otherwise. *)
Definition format (s p : Z) : string :=
  let k := ndigits s in
  let n := p + k in
  if (k <=? n) && (n <=? 21) then (decimal s ++ zeros (n - k))%string
  else if (0 <? n) && (n <=? 21) then
    (pad (Z.to_nat n) (s / 10 ^ (k - n)) "" ++ "." ++ pad (Z.to_nat (k - n)) s "")%string
  else if (-6 <? n) && (n <=? 0) then ("0." ++ zeros (- n) ++ decimal s)%string
  else
    let x := ((if (n - 1 <? 0)%Z then "e-" else "e+") ++ decimal (Z.abs (n - 1)))%string in
    if k =? 1 then (decimal s ++ x)%string
    else (pad 1 (s / 10 ^ (k - 1)) "" ++ "." ++ pad (Z.to_nat (k - 1)) s "" ++ x)%string.

(** [x.toString()] *)
Definition toString (x : num) : string :=
  match x with
  | S754_nan => "NaN"
  | S754_zero _ => "0"
  | S754_infinity neg => if neg then "-Infinity" else "Infinity"
  | S754_finite neg m e =>
      ((if neg then "-" else "") ++ format (fst (shortest m e)) (snd (shortest m e)))%string
  end.

(** [x.toFixed(d)] for [d] from 0 to 100: the decimal with [d] digits after
    the point that is nearest to [x], the larger one on a tie; [toString]
    for a number that is not finite or is at least 10^21 in size. *)
Definition toFixed (x : num) (d : Z) : string :=
  match x with
  | S754_nan | S754_infinity _ => toString x
  | S754_zero _ => if d =? 0 then "0" else ("0." ++ zeros d)%string
  | S754_finite neg m e =>
      let a := numerator m e in
      let b := denominator e in
      if 10 ^ 21 * b <=? a then toString x
      else
        let n := (2 * a * 10 ^ d + b) / (2 * b) in
        ((if neg then "-" else "")
         ++ (if (d =? 0)%Z then decimal n
             else decimal (n / 10 ^ d) ++ "." ++ pad (Z.to_nat d) n ""))%string
  end.

End NumberPrototype.

(** ** The [expenses] table *)

(** A row of the table as the screen reads it: [e.id], [e.amount],
    [e.category], [e.note] (null when absent) and [e.date]. *)
Module Expense.
Record t : Type := make {
  id : Z;
  amount : JSNumber.num;
  category : string;
  note : option string;
  date : string
}.
End Expense.

Module SQLite.
Import JSNumber.

(** A column: its name, whether it is declared [NOT NULL], and whether a
    row gets a value for it when an [INSERT] does not name it (a declared
    default, or the integer primary key the engine numbers itself). *)
Record column : Type := {
  col_name : string;
  col_notnull : bool;
  col_default : bool
}.

Record database : Type := {
  table : option (list column);   (* the columns of [expenses], once created *)
  rows : list Expense.t;          (* in insertion order *)
  sequence : Z                    (* the largest id ever handed out *)
}.

(** A database file that has just been created. *)
Definition fresh : database := {| table := None; rows := []; sequence := 0 |}.

(** The four statements of the application, with their bound values. *)
Inductive statement : Type :=
| CreateTable (cols : list column)
    (* CREATE TABLE IF NOT EXISTS expenses (...) *)
| Insert (amount : num) (category : string) (note : option string) (date : string)
    (* INSERT INTO expenses (amount, category, note, date) VALUES (?, ?, ?, ?) *)
| Update (amount : num) (category : string) (note : option string) (id : Z)
    (* UPDATE expenses SET amount = ?, category = ?, note = ? WHERE id = ? *)
| Delete (id : Z).
    (* DELETE FROM expenses WHERE id = ? *)

Inductive error : Type :=
| NoSuchTable
| NoSuchColumn (c : string)
| NotNullFailed (c : string).

Definition has_column (cols : list column) (c : string) : bool :=
  existsb (fun k => (col_name k =? c)%string) cols.

(** The first of the names [cs] that is not a column. *)
Fixpoint missing (cols : list column) (cs : list string) : option string :=
  match cs with
  | [] => None
  | c :: cs' => if has_column cols c then missing cols cs' else Some c
  end.

(** The first [NOT NULL] column left null, where [vals] tells for each
    column the statement names whether the value bound to it is null, and
    [unnamed] tells whether a column the statement does not name ends up
    null. *)
Fixpoint null_column (unnamed : column -> bool) (cols : list column)
    (vals : list (string * bool)) : option string :=
  match cols with
  | [] => None
  | k :: cols' =>
      let null :=
        match find (fun v => (fst v =? col_name k)%string) vals with
        | Some v => snd v
        | None => unnamed k
        end in
      if col_notnull k && null then Some (col_name k)
      else null_column unnamed cols' vals
  end.

Definition is_none {A} (o : option A) : bool :=
  match o with None => true | Some _ => false end.

(** The values the screen binds to [amount], [category] and [note]: a NaN
    is bound as null, and so is an absent note. *)
Definition bound (amount : num) (note : option string) : list (string * bool) :=
  [("amount", isNaN amount); ("category", false); ("note", is_none note)].

Definition max_id (rs : list Expense.t) : Z :=
  fold_right (fun r m => Z.max (Expense.id r) m) 0 rs.

Definition set_fields (amount : num) (category : string) (note : option string)
    (id : Z) (r : Expense.t) : Expense.t :=
  if Expense.id r =? id
  then Expense.make (Expense.id r) amount category note (Expense.date r)
  else r.

(** One statement against the database: the database afterwards, or the
    error the engine raises (the database is then left as it was). *)
Definition run (s : statement) (d : database) : error + database :=
  match s, table d with
  | CreateTable cols, None =>
      inr {| table := Some cols; rows := rows d; sequence := sequence d |}
  | CreateTable _, Some _ => inr d
  | _, None => inl NoSuchTable
  | Insert amount category note date, Some cols =>
      match missing cols ["amount"; "category"; "note"; "date"] with
      | Some c => inl (NoSuchColumn c)
      | None =>
          match null_column (fun k => negb (col_default k)) cols
                  (("date", false) :: bound amount note) with
          | Some c => inl (NotNullFailed c)
          | None =>
              let id := Z.max (sequence d) (max_id (rows d)) + 1 in
              inr {| table := Some cols;
                     rows := rows d ++ [Expense.make id amount category note date];
                     sequence := id |}
          end
      end
  | Update amount category note id, Some cols =>
      match missing cols ["amount"; "category"; "note"; "id"] with
      | Some c => inl (NoSuchColumn c)
      | None =>
          match
            (if existsb (fun r => Expense.id r =? id) (rows d)
             then null_column (fun _ => false) cols (bound amount note)
             else None)
          with
          | Some c => inl (NotNullFailed c)
          | None =>
              inr {| table := Some cols;
                     rows := map (set_fields amount category note id) (rows d);
                     sequence := sequence d |}
          end
      end
  | Delete id, Some cols =>
      match missing cols ["id"] with
      | Some c => inl (NoSuchColumn c)
      | None =>
          inr {| table := Some cols;
                 rows := filter (fun r => negb (Expense.id r =? id)) (rows d);
                 sequence := sequence d |}
      end
  end.

Fixpoint insert_desc (r : Expense.t) (rs : list Expense.t) : list Expense.t :=
  match rs with
  | [] => [r]
  | r' :: rs' =>
      if Expense.id r' <? Expense.id r then r :: rs
      else r' :: insert_desc r rs'
  end.

Definition order_by_id_desc (rs : list Expense.t) : list Expense.t :=
  fold_right insert_desc [] rs.

(** [SELECT * FROM expenses ORDER BY id DESC] *)
Definition select_all (d : database) : error + list Expense.t :=
  match table d with
  | None => inl NoSuchTable
  | Some cols =>
      match missing cols ["id"] with
      | Some c => inl (NoSuchColumn c)
      | None => inr (order_by_id_desc (rows d))
      end
  end.

End SQLite.

(** ** [App.js] *)

Module App.
Import SQLite.

(** The columns [onInit] declares: [id INTEGER PRIMARY KEY AUTOINCREMENT],
    [title TEXT NOT NULL], [amount REAL NOT NULL], [date TEXT NOT NULL]. *)
Definition schema : list column :=
  [ {| col_name := "id"; col_notnull := false; col_default := true |};
    {| col_name := "title"; col_notnull := true; col_default := false |};
    {| col_name := "amount"; col_notnull := true; col_default := false |};
    {| col_name := "date"; col_notnull := true; col_default := false |} ].

(** [onInit]: the one statement run when the provider opens the database. *)
Definition onInit (d : database) : error + database := run (CreateTable schema) d.

End App.

(** ** Plain objects used as maps *)

Module JSObject.
Import JSNumber.

(** What reading a property of an object literal can give here: nothing,
    a number, a string (its text is not tracked; the strings that arise
    are concatenations and never empty), or an object or function. *)
Inductive value : Type :=
| Undefined
| Num (x : num)
| Str
| Obj.

(** The own properties of an object created by [{}], oldest first. *)
Definition t : Type := list (string * value).

Definition empty : t := [].

(** The properties every object literal inherits from [Object.prototype]:
    eleven functions and the accessor [__proto__]. *)
Definition inherited : list string :=
  [ "constructor"; "hasOwnProperty"; "isPrototypeOf"; "propertyIsEnumerable";
    "toLocaleString"; "toString"; "valueOf"; "__proto__";
    "__defineGetter__"; "__defineSetter__"; "__lookupGetter__";
    "__lookupSetter__" ].

Definition own (o : t) (k : string) : option value :=
  match find (fun p => (fst p =? k)%string) o with
  | Some p => Some (snd p)
  | None => None
  end.

(** [o[k]]: the own property, else the inherited one, else undefined. *)
Definition get (o : t) (k : string) : value :=
  match own o k with
  | Some v => v
  | None => if existsb (String.eqb k) inherited then Obj else Undefined
  end.

Fixpoint put (o : t) (k : string) (v : value) : t :=
  match o with
  | [] => [(k, v)]
  | p :: o' => if (fst p =? k)%string then (k, v) :: o' else p :: put o' k v
  end.

(** [o[k] = v] for a number or string [v]: an own property is created or
    overwritten, except that the key [__proto__] reaches the inherited
    setter, which ignores a value that is not an object. *)
Definition set (o : t) (k : string) (v : value) : t :=
  if (k =? "__proto__")%string then o else put o k v.

(** [!v] *)
Definition not (v : value) : bool :=
  match v with
  | Undefined => true
  | Num x => falsy x
  | Str => false
  | Obj => false
  end.

(** [v + w]: numbers are added; as soon as one side is a string, an
    object or a function the result is a string. *)
Definition plus (v w : value) : value :=
  match v, w with
  | Num x, Num y => Num (add x y)
  | Undefined, Num _ | Num _, Undefined | Undefined, Undefined => Num NaN
  | _, _ => Str
  end.

(** Whether a key is an array index: the decimal digits, without a leading
    zero, of a whole number up to 2^32 - 2; and that number. *)
Definition index (k : string) : option Z :=
  match k with
  | EmptyString => None
  | String c r =>
      let '(v, n, rest) := JSString.digits k 0 0 in
      if negb (JSString.falsy rest) then None
      else if (JSString.code c =? 48) && negb (JSString.falsy r) then None
      else if v <=? 4294967294 then Some v
      else None
  end.

Fixpoint insert_index (p : Z * (string * value)) (l : list (Z * (string * value)))
    : list (Z * (string * value)) :=
  match l with
  | [] => [p]
  | q :: l' => if fst p <? fst q then p :: l else q :: insert_index p l'
  end.

(** The own properties whose key is an array index, with that index. *)
Definition indexed (o : t) : list (Z * (string * value)) :=
  flat_map (fun p => match index (fst p) with Some i => [(i, p)] | None => [] end) o.

(** [Object.entries(o)]: the properties whose key is an array index come
    first, by ascending index, then the others in creation order. *)
Definition entries (o : t) : list (string * value) :=
  map snd (fold_right insert_index [] (indexed o))
  ++ List.filter (fun p => match index (fst p) with Some _ => false | None => true end) o.

End JSObject.

(** ** [ExpenseScreen.js] *)

Module ExpenseScreen.
Import JSNumber JSString Global JSDate SQLite.

(** A call made on the database handle [db]. *)
Inductive call : Type :=
| RunAsync (s : statement)
| GetAllAsync.

(** The database behind the handle, the calls made on it so far (oldest
    first), and the state cells of the component. *)
Record state : Type := {
  db : database;
  calls : list call;
  expenses : list Expense.t;
  filter : string;
  amount : string;
  category : string;
  note : string;
  editingId : option Z
}.

(** The component as first rendered over the database [d]. *)
Definition initial (d : database) : state :=
  {| db := d; calls := []; expenses := []; filter := "all";
     amount := ""; category := ""; note := ""; editingId := None |}.

(** *** Actions: state passing with rejection *)

Inductive outcome (A : Type) : Type :=
| Returned (a : A)
| Rejected (e : error).
Arguments Returned {A} a.
Arguments Rejected {A} e.

Definition action (A : Type) : Type := state -> outcome A * state.

Definition ret {A} (a : A) : action A := fun s => (Returned a, s).

Definition bind {A B} (m : action A) (k : A -> action B) : action B :=
  fun s =>
    match m s with
    | (Returned a, s') => k a s'
    | (Rejected e, s') => (Rejected e, s')
    end.

Notation "x <- m ;; k" := (bind m (fun x => k))
  (at level 61, m at next level, right associativity).
Notation "m ;; k" := (bind m (fun _ => k))
  (at level 61, right associativity).

(** The value of a state cell in the current render. *)
Definition read {A} (cell : state -> A) : action A := fun s => (Returned (cell s), s).

(** A call that is not awaited: whether it is rejected is lost. *)
Definition detached (m : action unit) : action unit :=
  fun s => (Returned tt, snd (m s)).

Definition setExpenses (v : list Expense.t) : action unit :=
  fun s => (Returned tt,
    {| db := db s; calls := calls s; expenses := v; filter := filter s;
       amount := amount s; category := category s; note := note s;
       editingId := editingId s |}).

Definition setFilter (v : string) : action unit :=
  fun s => (Returned tt,
    {| db := db s; calls := calls s; expenses := expenses s; filter := v;
       amount := amount s; category := category s; note := note s;
       editingId := editingId s |}).

Definition setAmount (v : string) : action unit :=
  fun s => (Returned tt,
    {| db := db s; calls := calls s; expenses := expenses s; filter := filter s;
       amount := v; category := category s; note := note s;
       editingId := editingId s |}).

Definition setCategory (v : string) : action unit :=
  fun s => (Returned tt,
    {| db := db s; calls := calls s; expenses := expenses s; filter := filter s;
       amount := amount s; category := v; note := note s;
       editingId := editingId s |}).

Definition setNote (v : string) : action unit :=
  fun s => (Returned tt,
    {| db := db s; calls := calls s; expenses := expenses s; filter := filter s;
       amount := amount s; category := category s; note := v;
       editingId := editingId s |}).

Definition setEditingId (v : option Z) : action unit :=
  fun s => (Returned tt,
    {| db := db s; calls := calls s; expenses := expenses s; filter := filter s;
       amount := amount s; category := category s; note := note s;
       editingId := v |}).

(** The handle: the call is logged, then the statement runs. *)
Definition called (c : call) (d : database) (s : state) : state :=
  {| db := d; calls := calls s ++ [c]; expenses := expenses s; filter := filter s;
     amount := amount s; category := category s; note := note s;
     editingId := editingId s |}.

Definition runAsync (q : statement) : action unit :=
  fun s =>
    match run q (db s) with
    | inr d => (Returned tt, called (RunAsync q) d s)
    | inl e => (Rejected e, called (RunAsync q) (db s) s)
    end.

Definition getAllAsync : action (list Expense.t) :=
  fun s =>
    match select_all (db s) with
    | inr rs => (Returned rs, called GetAllAsync (db s) s)
    | inl e => (Rejected e, called GetAllAsync (db s) s)
    end.

(** *** The component's functions *)

(** [getToday], called at the instant [now]. *)
Definition getToday (now : Z) : string := isoDate now.

Definition loadExpenses : action unit :=
  rows <- getAllAsync ;;
  setExpenses rows.

Definition resetForm : action unit :=
  setAmount "" ;;
  setCategory "" ;;
  setNote "" ;;
  setEditingId None.

Definition saveExpense (now : Z) : action unit :=
  amount <- read amount ;;
  category <- read category ;;
  note <- read note ;;
  editingId <- read editingId ;;
  let amountNumber := parseFloat amount in
  if isNaN amountNumber || JSNumber.leb amountNumber zero then ret tt
  else if JSString.falsy (trim category) then ret tt
  else
    let trimmedCategory := trim category in
    let trimmedNote :=
      if JSString.falsy (trim note) then None else Some (trim note) in
    match editingId with
    | None =>
        let today := getToday now in
        runAsync (Insert amountNumber trimmedCategory trimmedNote today)
    | Some id =>
        runAsync (Update amountNumber trimmedCategory trimmedNote id)
    end ;;
    resetForm ;;
    detached loadExpenses.

Definition deleteExpense (id : Z) : action unit :=
  runAsync (Delete id) ;;
  detached loadExpenses.

Section Render.
(** The instant of the render and the offset of local time. *)
Variables (now tza : Z).
Variable s : state.

Definition today : Date := Some now.

Definition startOfWeek : Date :=
  setDate tza now (getDate tza now - getDay tza now).

Definition startOfMonth : Date :=
  newDate tza (getFullYear tza now) (getMonth tza now) 1.

Definition within (start : Date) (e : Expense.t) : bool :=
  let d := parse (Expense.date e) in
  JSDate.geb d start && JSDate.leb d today.

Definition getFilteredExpenses : list Expense.t :=
  if (filter s =? "week")%string then
    List.filter (within startOfWeek) (expenses s)
  else if (filter s =? "month")%string then
    List.filter (within startOfMonth) (expenses s)
  else expenses s.

Definition getTotalSpending : num :=
  let filtered := getFilteredExpenses in
  fold_left (fun sum e => add sum (Expense.amount e)) filtered zero.

Definition getTotalsByCategory : JSObject.t :=
  let filtered := getFilteredExpenses in
  fold_left
    (fun totals e =>
       let c := Expense.category e in
       let totals :=
         if JSObject.not (JSObject.get totals c)
         then JSObject.set totals c (JSObject.Num zero)
         else totals in
       JSObject.set totals c
         (JSObject.plus (JSObject.get totals c) (JSObject.Num (Expense.amount e))))
    filtered JSObject.empty.
End Render.

(** *** The rest of the component *)

Import NumberPrototype.

(** The effect of the first render, [useEffect(() => { loadExpenses(); }, [])]:
    the load is started and not awaited. *)
Definition mount : action unit := detached loadExpenses.

(** [startEditing(item)] *)
Definition startEditing (item : Expense.t) : action unit :=
  setEditingId (Some (Expense.id item)) ;;
  setAmount (toString (Expense.amount item)) ;;
  setCategory (Expense.category item) ;;
  setNote (match Expense.note item with
           | Some t => if JSString.falsy t then "" else t
           | None => ""
           end).

(** [currentFilterLabel] *)
Definition currentFilterLabel (s : state) : string :=
  if (filter s =? "all")%string then "All"
  else if (filter s =? "week")%string then "This Week"
  else "This Month".

(** *** The texts of a render *)

(** [v.toFixed(2)] on the value of a property: a type error unless the value
    is a number. *)
Definition toFixed2 (v : JSObject.value) : option string :=
  match v with
  | JSObject.Num x => Some (toFixed x 2)
  | _ => None
  end.

(** The texts of one row of the list, from [renderExpense]: the amount, the
    category, the note when there is one, and the date. *)
Record row : Type := {
  row_amount : string;
  row_category : string;
  row_note : option string;
  row_date : string
}.

Definition renderExpense (item : Expense.t) : row :=
  {| row_amount := ("$" ++ toFixed (Expense.amount item) 2)%string;
     row_category := Expense.category item;
     row_note := match Expense.note item with
                 | Some t => if JSString.falsy t then None else Some t
                 | None => None
                 end;
     row_date := Expense.date item |}.

(** The lines of the summary under "By Category": the category and the
    text of its total, or nothing at all when building a line fails. *)
Fixpoint categoryLines (l : list (string * JSObject.value)) : option (list (string * string)) :=
  match l with
  | [] => Some []
  | (cat, total) :: l' =>
      match toFixed2 total, categoryLines l' with
      | Some text, Some lines => Some ((cat, ("$" ++ text)%string) :: lines)
      | _, _ => None
      end
  end.

(** The texts of the summary box: the filter label, the total, and the
    lines by category. *)
Record summary : Type := {
  summary_label : string;
  summary_total : string;
  summary_lines : list (string * string)
}.

Section Texts.
Variables (now tza : Z).
Variable s : state.

Definition renderSummary : option summary :=
  match categoryLines (JSObject.entries (getTotalsByCategory now tza s)) with
  | Some lines =>
      Some {| summary_label := currentFilterLabel s;
              summary_total := ("$" ++ toFixed (getTotalSpending now tza s) 2)%string;
              summary_lines := lines |}
  | None => None
  end.

(** The rows of the list. *)
Definition renderList : list row := map renderExpense (getFilteredExpenses now tza s).
End Texts.

(** *** The controls of the screen *)

(** What the user can do, as the JSX binds it: type into one of the three
    inputs, press one of the three filter buttons, press the submit button,
    press "Cancel Edit", press "Edit" or the cross on a row. *)
Inductive event : Type :=
| ChangeAmount (text : string)
| ChangeCategory (text : string)
| ChangeNote (text : string)
| PressAll
| PressWeek
| PressMonth
| PressSave
| PressCancel
| PressEdit (item : Expense.t)
| PressDelete (item : Expense.t).

(** The handler of an event that happens at the instant [now]. *)
Definition handler (now : Z) (ev : event) : action unit :=
  match ev with
  | ChangeAmount text => setAmount text
  | ChangeCategory text => setCategory text
  | ChangeNote text => setNote text
  | PressAll => setFilter "all"
  | PressWeek => setFilter "week"
  | PressMonth => setFilter "month"
  | PressSave => saveExpense now
  | PressCancel => resetForm
  | PressEdit item => startEditing item
  | PressDelete item => deleteExpense (Expense.id item)
  end.

(** Whether the control of an event is on the screen as rendered at [now]:
    "Cancel Edit" only in edit mode, "Edit" and the cross only on the rows
    of the filtered view. *)
Definition offered (now tza : Z) (s : state) (ev : event) : Prop :=
  match ev with
  | PressCancel => editingId s <> None
  | PressEdit item | PressDelete item => In item (getFilteredExpenses now tza s)
  | _ => True
  end.

End ExpenseScreen.

(** * Vocabulary of the properties *)

Import JSNumber JSString Global JSDate SQLite ExpenseScreen.

(** ** Forms, submits and sample data *)

(** The state after the user has typed [a], [c] and [n] into the three
    inputs (each change calls the setter of its cell). *)
Definition typed (a c n : string) (s : state) : state :=
  snd ((setAmount a ;; setCategory c ;; setNote n) s).

(** The statement a submit sends once the form has passed validation. *)
Definition submitted (now : Z) (s : state) : statement :=
  let a := parseFloat (amount s) in
  let c := trim (category s) in
  let n := if JSString.falsy (trim (note s)) then None else Some (trim (note s)) in
  match editingId s with
  | None => Insert a c n (getToday now)
  | Some id => Update a c n id
  end.

(** The raw amount parses as a positive number. *)
Definition parses_positive (a : string) : bool := JSNumber.ltb zero (parseFloat a).

(** The form passes the two checks of [saveExpense]. *)
Definition valid (s : state) : bool :=
  parses_positive (amount s) && negb (JSString.falsy (trim (category s))).

(** The number of writes among the calls made on the handle. *)
Definition writes (cs : list call) : nat :=
  List.length (List.filter (fun c => match c with RunAsync _ => true | GetAllAsync => false end) cs).

(** The state once [resetForm] has cleared the form. *)
Definition cleared (s : state) : state := snd (resetForm s).

(** The state once [loadExpenses] has settled. *)
Definition reloaded (s : state) : state := snd (loadExpenses s).

(** A table with the five columns the statements of the screen name. *)
Definition ledger : list column :=
  [ {| col_name := "id"; col_notnull := false; col_default := true |};
    {| col_name := "amount"; col_notnull := true; col_default := false |};
    {| col_name := "category"; col_notnull := true; col_default := false |};
    {| col_name := "note"; col_notnull := false; col_default := false |};
    {| col_name := "date"; col_notnull := true; col_default := false |} ].

(** A database with that table and the rows [rs]. *)
Definition ledger_with (rs : list Expense.t) : database :=
  {| table := Some ledger; rows := rs; sequence := max_id rs |}.

(** Three rows to try the operations on. *)
Definition sample_rows : list Expense.t :=
  [ Expense.make 1 (ofZ 10) "Food" None "2024-01-07";
    Expense.make 2 (ofZ 20) "Books" (Some "term two") "2024-01-08";
    Expense.make 3 (ofZ 5) "Food" None "2024-01-09" ].

(** A render of the list [l] under the filter mode [mode]. *)
Definition showing (mode : string) (l : list Expense.t) : state :=
  snd ((setExpenses l ;; setFilter mode) (initial fresh)).

(** ** Edits *)

(** The number of rows of [l] with the id [i]. *)
Definition count_id (i : Z) (l : list Expense.t) : nat :=
  List.length (List.filter (fun r => Expense.id r =? i) l).

(** How an edit of the record [i] relates a row [r] to the row [r'] that
    takes its place: id and date stay; a row with another id stays as a
    whole; the row [i] gets the three submitted fields. *)
Definition edited (i : Z) (a : num) (c : string) (n : option string)
    (r r' : Expense.t) : Prop :=
  Expense.id r' = Expense.id r
  /\ Expense.date r' = Expense.date r
  /\ (Expense.id r <> i -> r' = r)
  /\ (Expense.id r = i ->
      Expense.amount r' = a /\ Expense.category r' = c /\ Expense.note r' = n).

(** The state in which the record [i] is being edited and the form holds
    [a], [c] and [n]. *)
Definition editing (i : Z) (a c n : string) (s : state) : state :=
  snd ((setEditingId (Some i) ;; setAmount a ;; setCategory c ;; setNote n) s).

(** ** Dates *)

(** The local calendar date at the instant [now], in the same form. *)
Definition localDate (tza now : Z) : string := isoDate (LocalTime tza now).




(** 2024-01-07T15:00:00Z, a Sunday afternoon. *)
Definition sunday_3pm : Z := 1704639600000.

(** 2024-01-10T15:00:00Z, a Wednesday afternoon. *)
Definition wednesday_3pm : Z := 1704898800000.

(** ** Binary64 values *)

(** [q] shifted left by [k] binary places. *)
Definition shl (q : positive) (k : Z) : positive :=
  match k with Zpos d => Pos.iter xO q d | _ => q end.

(** The binary64 representation of a positive integer of at most 53 bits:
    the mantissa is brought to 53 bits. *)
Definition canon (q : positive) : num :=
  S754_finite false (shl q (53 - Zpos (digits2_pos q))) (Zpos (digits2_pos q) - 53).

(** The mantissa [m] with no bit shifted out so far. *)
Definition exact (m : positive) : shr_record :=
  {| shr_m := Zpos m; shr_r := false; shr_s := false |}.

(** A positive number: plus infinity, or a finite one above zero whose
    exponent is not below the smallest exponent of the format. *)
Definition pos_ok (x : num) : Prop :=
  match x with
  | S754_infinity false => True
  | S754_finite false _ e => -1074 <= e
  | _ => False
  end.

(** ** Totals *)

(** The step of [getTotalsByCategory]: what the body of its [forEach] does
    to [totals] for the record [e]. *)
Definition tally (totals : JSObject.t) (e : Expense.t) : JSObject.t :=
  let c := Expense.category e in
  let totals :=
    if JSObject.not (JSObject.get totals c)
    then JSObject.set totals c (JSObject.Num zero)
    else totals in
  JSObject.set totals c
    (JSObject.plus (JSObject.get totals c) (JSObject.Num (Expense.amount e))).

(** [Object.values(o)], and the sum of a list of values from 0, as
    [reduce((sum, v) => sum + v, 0)] computes it. *)
Definition values (o : JSObject.t) : list JSObject.value := map snd o.

Definition sum_values (vs : list JSObject.value) : JSObject.value :=
  fold_left JSObject.plus vs (JSObject.Num zero).

(** The entry of a list of keyed entries under the key [c], and the list
    with that entry set to [x] (in place, or at the end when it is new):
    [JSObject.own] and [JSObject.put] for entries of any type. *)
Definition entry {A} (o : list (string * A)) (c : string) : option A :=
  match find (fun p => (fst p =? c)%string) o with
  | Some p => Some (snd p)
  | None => None
  end.

Fixpoint set_entry {A} (o : list (string * A)) (c : string) (x : A) : list (string * A) :=
  match o with
  | [] => [(c, x)]
  | p :: o' => if (fst p =? c)%string then (c, x) :: o' else p :: set_entry o' c x
  end.

(** Totals that are numbers, as an object. *)
Definition as_object (fo : list (string * num)) : JSObject.t :=
  map (fun p => (fst p, JSObject.Num (snd p))) fo.

(** The total a category is at when its next record is tallied: an absent
    or falsy total counts from 0. *)
Definition start (t : option num) : num :=
  match t with
  | Some x => if JSNumber.falsy x then zero else x
  | None => zero
  end.

(** The amounts of the records of [l] in category [c], in the order of the
    list, and their sum from 0, added from left to right. *)
Definition amounts_of (c : string) (l : list Expense.t) : list num :=
  map Expense.amount (List.filter (fun e => (Expense.category e =? c)%string) l).

Definition sum_from (x : num) (l : list num) : num := fold_left add l x.

(** Totals whose values are whole numbers, kept as integers. *)
Definition ztotals : Type := list (string * Z).

Definition embed (zo : ztotals) : JSObject.t :=
  as_object (map (fun p => (fst p, ofZ (snd p))) zo).

(** The sum of a list of integers, and of the values of integer totals. *)
Definition zsum (l : list Z) : Z := fold_right Z.add 0 l.

Definition ztotal (zo : ztotals) : Z := zsum (map snd zo).

(** Every record of [l] has a positive whole amount, the whole number
    [n e] for the record [e], and a category that is not the name of an
    inherited property. *)
Definition whole (n : Expense.t -> Z) (l : list Expense.t) : Prop :=
  forall e, In e l ->
    0 < n e /\ Expense.amount e = ofZ (n e)
    /\ ~ In (Expense.category e) JSObject.inherited.

(** Some record of [l] is in category [c]. *)
Definition occurs (c : string) (l : list Expense.t) : bool :=
  existsb (fun e => (Expense.category e =? c)%string) l.

(** ** The store and the list *)

Definition ids (l : list Expense.t) : list Z := map Expense.id l.

(** The ids of the rows are distinct and none is above the counter. *)
Definition keyed (d : database) : Prop :=
  NoDup (ids (rows d)) /\ forall r, In r (rows d) -> Expense.id r <= sequence d.

(** Every record of the list has an id at least as large as the records
    after it. *)
Definition newest_first (l : list Expense.t) : Prop :=
  StronglySorted (fun a b => Expense.id b <= Expense.id a) l.

(** The table has the columns [cols] and the list in memory is what a load
    would give: the stored rows, newest first. *)
Definition synced (cols : list column) (s : state) : Prop :=
  table (db s) = Some cols /\ expenses s = order_by_id_desc (rows (db s)).

(** The form cells of two states agree. *)
Definition same_form (s s' : state) : Prop :=
  amount s' = amount s /\ category s' = category s /\ note s' = note s
  /\ editingId s' = editingId s.

(** ** Stored text *)

(** A text that is not empty and that [trim] leaves as it is. *)
Definition trimmed (t : string) : Prop := t <> "" /\ trim t = t.

(** A row as the screen writes them: the amount is above zero, the category
    is trimmed, the note is absent or trimmed, and the date is the date part
    of [toISOString] for some instant within the range of [Date]. *)
Definition tidy (r : Expense.t) : Prop :=
  JSNumber.ltb zero (Expense.amount r) = true
  /\ trimmed (Expense.category r)
  /\ match Expense.note r with Some t => trimmed t | None => True end
  /\ exists t, Z.abs t <= 8640000000000000 /\ Expense.date r = isoDate t.

(** ** Months *)


(** ** Totals and their texts *)

(** The own keys of an object. *)
Definition keys (o : JSObject.t) : list string := map fst o.

(** Every record of [l] has the whole number [n e], not negative, as its
    amount. *)
Definition whole_amounts (n : Expense.t -> Z) (l : list Expense.t) : Prop :=
  forall e, In e l -> 0 <= n e /\ Expense.amount e = ofZ (n e).

(** Every total is a number, except under the name of an inherited
    property, where it is a string. *)
Definition typed_totals (o : JSObject.t) : Prop :=
  forall c v, In (c, v) o ->
    if existsb (String.eqb c) JSObject.inherited then v = JSObject.Str
    else exists x, v = JSObject.Num x.

(** ** Sessions *)

(** The states the screen goes through on a host at the offset [tza], from
    its first render over the database [d0]: the first load, then any
    events, each at an instant within the range of [Date] and each on a
    control the render at that instant offers. A handler that ends rejected
    leaves the state it had reached. *)
Inductive reachable (tza : Z) (d0 : database) : state -> Prop :=
| reach_mount : reachable tza d0 (snd (mount (initial d0)))
| reach_event (s : state) (now : Z) (ev : event) :
    reachable tza d0 s ->
    Z.abs now <= 8640000000000000 ->
    offered now tza s ev ->
    reachable tza d0 (snd (handler now ev s)).

(** * Properties *)

(** ** Validation and the calls of a submit *)

Lemma not_positive_iff (x : num) :
  isNaN x || JSNumber.leb x zero = negb (JSNumber.ltb zero x).
Proof.
  destruct x as [[|]|[|]| |[|] m e]; reflexivity.
Qed.

Lemma saveExpense_invalid (now : Z) (s : state) :
  valid s = false -> saveExpense now s = (Returned tt, s).
Proof.
  unfold valid, parses_positive, saveExpense, bind, read. intros H.
  rewrite not_positive_iff.
  destruct (JSNumber.ltb zero (parseFloat (amount s))); simpl in *; [|reflexivity].
  destruct (JSString.falsy (trim (category s))); simpl in *; [reflexivity|discriminate].
Qed.

Lemma saveExpense_valid (now : Z) (s : state) :
  valid s = true ->
  saveExpense now s
  = (runAsync (submitted now s) ;; resetForm ;; detached loadExpenses) s.
Proof.
  unfold valid, parses_positive, saveExpense, submitted, bind, read. intros H.
  rewrite not_positive_iff.
  apply andb_true_iff in H as [H1 H2]. rewrite H1. simpl.
  apply negb_true_iff in H2. rewrite H2.
  destruct (editingId s); reflexivity.
Qed.

Lemma bind_returned {A B} (m : action A) (k : A -> action B) s a s' :
  m s = (Returned a, s') -> bind m k s = k a s'.
Proof. unfold bind. intros ->. reflexivity. Qed.

Lemma bind_rejected {A B} (m : action A) (k : A -> action B) s e s' :
  m s = (Rejected e, s') -> bind m k s = (Rejected e, s').
Proof. unfold bind. intros ->. reflexivity. Qed.

Lemma resetForm_returns (s : state) : resetForm s = (Returned tt, cleared s).
Proof. reflexivity. Qed.

Lemma reloaded_keeps (s : state) :
  db (reloaded s) = db s /\ calls (reloaded s) = calls s ++ [GetAllAsync]
  /\ filter (reloaded s) = filter s.
Proof.
  unfold reloaded, loadExpenses, bind, getAllAsync.
  destruct (select_all (db s)); repeat split.
Qed.

Lemma reloaded_expenses (s : state) (rs : list Expense.t) :
  select_all (db s) = inr rs -> expenses (reloaded s) = rs.
Proof.
  unfold reloaded, loadExpenses, bind, getAllAsync. intros ->. reflexivity.
Qed.

Lemma writes_app (cs cs' : list call) : writes (cs ++ cs') = (writes cs + writes cs')%nat.
Proof. unfold writes. rewrite filter_app, length_app. reflexivity. Qed.

(** What a submit that passes validation does, by the outcome of its one
    statement. *)
Lemma saveExpense_accepted (now : Z) (s : state) (d : database) :
  valid s = true -> run (submitted now s) (db s) = inr d ->
  saveExpense now s
  = (Returned tt, reloaded (cleared (called (RunAsync (submitted now s)) d s))).
Proof.
  intros Hv Hr. rewrite (saveExpense_valid _ _ Hv).
  erewrite bind_returned by (unfold runAsync; rewrite Hr; reflexivity).
  erewrite bind_returned by apply resetForm_returns.
  reflexivity.
Qed.

Lemma saveExpense_rejected (now : Z) (s : state) (e : error) :
  valid s = true -> run (submitted now s) (db s) = inl e ->
  saveExpense now s = (Rejected e, called (RunAsync (submitted now s)) (db s) s).
Proof.
  intros Hv Hr. rewrite (saveExpense_valid _ _ Hv).
  apply bind_rejected. unfold runAsync. rewrite Hr. reflexivity.
Qed.

Lemma deleteExpense_accepted (id : Z) (s : state) (d : database) :
  run (Delete id) (db s) = inr d ->
  deleteExpense id s = (Returned tt, reloaded (called (RunAsync (Delete id)) d s)).
Proof.
  intros Hr. unfold deleteExpense.
  erewrite bind_returned by (unfold runAsync; rewrite Hr; reflexivity).
  reflexivity.
Qed.

(** C3. A submit whose raw amount does not parse as a positive number, or
    whose raw category is empty once trimmed, returns with the state as it
    was: no call has been made on the handle and the database and the list
    in memory are unchanged. A submit that passes both checks makes exactly
    one write on the handle. *)
Theorem submit_validation_and_writes (now : Z) (s : state) :
  (parses_positive (amount s) = false -> saveExpense now s = (Returned tt, s))
  /\ (trim (category s) = "" -> saveExpense now s = (Returned tt, s))
  /\ (valid s = true ->
      writes (calls (snd (saveExpense now s))) = S (writes (calls s))).
Proof.
  split; [|split].
  - intros H. apply saveExpense_invalid. unfold valid. rewrite H. reflexivity.
  - intros H. apply saveExpense_invalid. unfold valid. rewrite H.
    apply andb_false_r.
  - intros Hv. destruct (run (submitted now s) (db s)) as [e|d] eqn:Hr.
    + rewrite (saveExpense_rejected _ _ _ Hv Hr). simpl.
      rewrite writes_app. change (writes [RunAsync _]) with 1%nat. lia.
    + rewrite (saveExpense_accepted _ _ _ Hv Hr). simpl.
      destruct (reloaded_keeps (cleared (called (RunAsync (submitted now s)) d s)))
        as (_ & -> & _).
      simpl. rewrite !writes_app.
      change (writes [RunAsync _]) with 1%nat.
      change (writes [GetAllAsync]) with 0%nat. lia.
Qed.

Lemma submit_validation_and_writes_witness :
  saveExpense 0 (typed "twelve" "Food" "" (initial (ledger_with [])))
    = (Returned tt, typed "twelve" "Food" "" (initial (ledger_with [])))
  /\ saveExpense 0 (typed "-3" "Food" "" (initial (ledger_with [])))
    = (Returned tt, typed "-3" "Food" "" (initial (ledger_with [])))
  /\ saveExpense 0 (typed "12.5" "   " "" (initial (ledger_with [])))
    = (Returned tt, typed "12.5" "   " "" (initial (ledger_with [])))
  /\ writes (calls (snd (saveExpense 0 (typed "12.5" "Food" "lunch" (initial (ledger_with []))))))
    = 1%nat.
Proof.
  split; [|split; [|split]].
  - apply (proj1 (submit_validation_and_writes 0 _)). reflexivity.
  - apply (proj1 (submit_validation_and_writes 0 _)). reflexivity.
  - apply (proj1 (proj2 (submit_validation_and_writes 0 _))). reflexivity.
  - exact (proj2 (proj2 (submit_validation_and_writes 0
             (typed "12.5" "Food" "lunch" (initial (ledger_with [])))))
           eq_refl).
Defined.

(** ** Deleting *)

Lemma has_id_missing (cols : list column) :
  has_column cols "id" = true -> missing cols ["id"] = None.
Proof. intros H. simpl. rewrite H. reflexivity. Qed.

Lemma run_delete (id : Z) (d : database) (cols : list column) :
  table d = Some cols -> has_column cols "id" = true ->
  run (Delete id) d
  = inr {| table := Some cols;
           rows := List.filter (fun r => negb (Expense.id r =? id)) (rows d);
           sequence := sequence d |}.
Proof.
  intros Ht Hid. unfold run. rewrite Ht. cbv iota beta.
  rewrite (has_id_missing _ Hid). reflexivity.
Qed.

Lemma select_all_ok (d : database) (cols : list column) :
  table d = Some cols -> has_column cols "id" = true ->
  select_all d = inr (order_by_id_desc (rows d)).
Proof.
  intros Ht Hid. unfold select_all. rewrite Ht, (has_id_missing _ Hid).
  reflexivity.
Qed.

Lemma filter_idem {A} (f : A -> bool) (l : list A) :
  List.filter f (List.filter f l) = List.filter f l.
Proof.
  induction l as [|x l IH]; simpl; [reflexivity|].
  destruct (f x) eqn:E; simpl; rewrite ?E, IH; reflexivity.
Qed.

Lemma filter_all {A} (f : A -> bool) (l : list A) :
  (forall x, In x l -> f x = true) -> List.filter f l = l.
Proof.
  induction l as [|x l IH]; simpl; intros H; [reflexivity|].
  rewrite (H x (or_introl eq_refl)), IH; auto.
Qed.

(** C8. On a database whose table has the [id] column, deleting an id ends
    without error and leaves in the store exactly the rows with another id
    (all of them when no row has that id); deleting the same id again ends
    without error too and changes neither the stored rows nor the list in
    memory. *)
Theorem delete_removes_and_is_idempotent (id : Z) (s : state) (cols : list column) :
  table (db s) = Some cols -> has_column cols "id" = true ->
  let s1 := snd (deleteExpense id s) in
  let s2 := snd (deleteExpense id s1) in
  fst (deleteExpense id s) = Returned tt
  /\ rows (db s1) = List.filter (fun r => negb (Expense.id r =? id)) (rows (db s))
  /\ (forall r, In r (rows (db s1)) <-> In r (rows (db s)) /\ Expense.id r <> id)
  /\ ((forall r, In r (rows (db s)) -> Expense.id r <> id) -> rows (db s1) = rows (db s))
  /\ expenses s1 = order_by_id_desc (rows (db s1))
  /\ fst (deleteExpense id s1) = Returned tt
  /\ rows (db s2) = rows (db s1)
  /\ expenses s2 = expenses s1.
Proof.
  intros Ht Hid s1 s2.
  set (keep := fun r => negb (Expense.id r =? id)).
  set (d1 := {| table := Some cols; rows := List.filter keep (rows (db s));
                sequence := sequence (db s) |}).
  assert (R1 : run (Delete id) (db s) = inr d1) by (apply run_delete; assumption).
  assert (S1 : select_all d1 = inr (order_by_id_desc (rows d1)))
    by (apply (select_all_ok d1 cols); [reflexivity|assumption]).
  pose proof (deleteExpense_accepted _ _ _ R1) as Q1.
  assert (D1 : db s1 = d1) by (unfold s1; rewrite Q1; apply reloaded_keeps).
  assert (E1 : expenses s1 = order_by_id_desc (rows d1))
    by (unfold s1; rewrite Q1; apply reloaded_expenses; exact S1).
  assert (R2 : run (Delete id) (db s1) = inr d1).
  { rewrite D1, (run_delete id d1 cols eq_refl Hid). unfold d1. simpl.
    fold keep. rewrite filter_idem. reflexivity. }
  pose proof (deleteExpense_accepted _ _ _ R2) as Q2.
  assert (D2 : db s2 = d1) by (unfold s2; rewrite Q2; apply reloaded_keeps).
  assert (E2 : expenses s2 = order_by_id_desc (rows d1))
    by (unfold s2; rewrite Q2; apply reloaded_expenses; exact S1).
  rewrite Q1, Q2, D1, D2, E1, E2. simpl rows. simpl fst.
  assert (K : forall r, keep r = true <-> Expense.id r <> id).
  { intros r. unfold keep. rewrite negb_true_iff. apply Z.eqb_neq. }
  split; [reflexivity|]. split; [reflexivity|].
  split; [intros r; rewrite filter_In, K; tauto|].
  split; [intros H; apply filter_all; intros r Hr; apply K, H, Hr|].
  repeat split; reflexivity.
Qed.

Lemma delete_removes_and_is_idempotent_witness :
  let s := initial (ledger_with sample_rows) in
  map Expense.id (rows (db (snd (deleteExpense 2 s)))) = [1; 3]
  /\ rows (db (snd (deleteExpense 2 (snd (deleteExpense 2 s)))))
     = rows (db (snd (deleteExpense 2 s)))
  /\ rows (db (snd (deleteExpense 7 s))) = sample_rows.
Proof.
  intros s.
  destruct (delete_removes_and_is_idempotent 2 s ledger eq_refl eq_refl)
    as (_ & H1 & _ & _ & _ & _ & H2 & _).
  destruct (delete_removes_and_is_idempotent 7 s ledger eq_refl eq_refl)
    as (_ & _ & _ & H3 & _).
  split; [|split].
  - rewrite H1. reflexivity.
  - exact H2.
  - apply H3. intros r Hr.
    repeat (destruct Hr as [<-|Hr]; [simpl; lia|]). destruct Hr.
Defined.

(** ** The filter modes *)

(** C10. With any filter mode other than ['week'] and ['month'] the
    filtered view is the list in memory itself, in the same order. *)
Theorem other_modes_show_everything (now tza : Z) (s : state) :
  filter s <> "week" -> filter s <> "month" ->
  getFilteredExpenses now tza s = expenses s.
Proof.
  intros Hw Hm. unfold getFilteredExpenses.
  destruct (String.eqb_spec (filter s) "week") as [E|_]; [contradiction|].
  destruct (String.eqb_spec (filter s) "month") as [E|_]; [contradiction|].
  reflexivity.
Qed.

Lemma other_modes_show_everything_witness :
  getFilteredExpenses 1704639600000 0 (showing "all" sample_rows) = sample_rows
  /\ getFilteredExpenses 1704639600000 0 (showing "year" sample_rows) = sample_rows.
Proof.
  split.
  - apply (other_modes_show_everything _ _ (showing "all" sample_rows));
      discriminate.
  - apply (other_modes_show_everything _ _ (showing "year" sample_rows));
      discriminate.
Defined.

(** ** Creating on the table of [App.js] *)

(** C1. On the database that [onInit] has just set up, the statement of a
    create names the columns [category] and [note], which that table lacks:
    the submit of "12.5", "Food", "lunch" is rejected, nothing is stored, and
    a load afterwards shows no record. *)
Theorem create_on_fresh_store_is_rejected (now : Z) :
  exists d,
    App.onInit fresh = inr d
    /\ let s := typed "12.5" "Food" "lunch" (initial d) in
       editingId s = None
       /\ fst (saveExpense now s) = Rejected (NoSuchColumn "category")
       /\ rows (db (snd (saveExpense now s))) = []
       /\ expenses (reloaded (snd (saveExpense now s))) = [].
Proof.
  eexists. split; [reflexivity|]. intros s.
  assert (Hv : valid s = true) by reflexivity.
  assert (Hr : run (submitted now s) (db s) = inl (NoSuchColumn "category")).
  { unfold submitted. generalize (getToday now). intros today. reflexivity. }
  rewrite (saveExpense_rejected _ _ _ Hv Hr).
  repeat split.
Qed.

(** ** Editing *)

Lemma set_fields_id a c n i r : Expense.id (set_fields a c n i r) = Expense.id r.
Proof. unfold set_fields. destruct (Expense.id r =? i); reflexivity. Qed.

Lemma set_fields_edited a c n i r : edited i a c n r (set_fields a c n i r).
Proof.
  unfold edited, set_fields.
  destruct (Z.eqb_spec (Expense.id r) i) as [E|E]; simpl; repeat split; auto;
    intros; contradiction.
Qed.

Lemma map_edited a c n i l : Forall2 (edited i a c n) l (map (set_fields a c n i) l).
Proof.
  induction l as [|r l IH]; simpl; constructor; auto using set_fields_edited.
Qed.

Section OrderById.
Variable f : Expense.t -> Expense.t.
Hypothesis f_id : forall r, Expense.id (f r) = Expense.id r.

Lemma insert_desc_map r l : insert_desc (f r) (map f l) = map f (insert_desc r l).
Proof.
  induction l as [|r' l IH]; simpl; [reflexivity|].
  rewrite !f_id. destruct (Expense.id r' <? Expense.id r); simpl; [reflexivity|].
  rewrite IH. reflexivity.
Qed.

Lemma order_by_id_desc_map l :
  order_by_id_desc (map f l) = map f (order_by_id_desc l).
Proof.
  induction l as [|r l IH]; simpl; [reflexivity|].
  unfold order_by_id_desc in *. rewrite IH. apply insert_desc_map.
Qed.

Lemma count_id_map i l : count_id i (map f l) = count_id i l.
Proof.
  unfold count_id. induction l as [|r l IH]; simpl; [reflexivity|].
  rewrite f_id. destruct (Expense.id r =? i); simpl; rewrite IH; reflexivity.
Qed.
End OrderById.

Lemma count_id_insert_desc i r l :
  count_id i (insert_desc r l) = count_id i (r :: l).
Proof.
  unfold count_id. induction l as [|r' l IH]; simpl; [reflexivity|].
  destruct (Expense.id r' <? Expense.id r); simpl; [reflexivity|].
  simpl in IH.
  destruct (Expense.id r' =? i), (Expense.id r =? i); simpl in *; rewrite IH;
    reflexivity.
Qed.

Lemma count_id_order i l : count_id i (order_by_id_desc l) = count_id i l.
Proof.
  induction l as [|r l IH]; [reflexivity|].
  change (order_by_id_desc (r :: l)) with (insert_desc r (order_by_id_desc l)).
  rewrite count_id_insert_desc. unfold count_id in *. simpl.
  destruct (Expense.id r =? i); simpl; rewrite IH; reflexivity.
Qed.

Lemma missing_has (cols : list column) (cs : list string) (c : string) :
  missing cols cs = None -> In c cs -> has_column cols c = true.
Proof.
  induction cs as [|c' cs IH]; simpl; [tauto|].
  destruct (has_column cols c') eqn:E; [|discriminate].
  intros H [->|Hc]; auto.
Qed.

Lemma run_update_inv a c n i d d' :
  run (Update a c n i) d = inr d' ->
  rows d' = map (set_fields a c n i) (rows d)
  /\ exists cols, table d' = Some cols /\ has_column cols "id" = true.
Proof.
  unfold run. destruct (table d) as [cols|]; [|discriminate].
  destruct (missing cols ["amount"; "category"; "note"; "id"]) eqn:M; [discriminate|].
  match goal with |- context [match ?x with Some _ => _ | None => _ end] =>
    destruct x; [discriminate|] end.
  intros [= <-]. simpl. split; [reflexivity|].
  exists cols. split; [reflexivity|].
  apply (missing_has _ _ _ M). simpl. tauto.
Qed.

(** C7. After a submit that has a target id, passes validation and is
    accepted by the store, every stored row has the id and the date it had;
    a row with another id is untouched, the rows with the target id carry
    the submitted amount, category and note; the reloaded list in memory is
    related in the same way to what a reload would have shown before, and it
    holds as many records with the target id as the store did (exactly one
    when the store had one). *)
Theorem edit_preserves_identity (now i : Z) (s s' : state) :
  editingId s = Some i -> valid s = true ->
  saveExpense now s = (Returned tt, s') ->
  let a := parseFloat (amount s) in
  let c := trim (category s) in
  let n := if JSString.falsy (trim (note s)) then None else Some (trim (note s)) in
  Forall2 (edited i a c n) (rows (db s)) (rows (db s'))
  /\ Forall2 (edited i a c n) (order_by_id_desc (rows (db s))) (expenses s')
  /\ count_id i (expenses s') = count_id i (rows (db s)).
Proof.
  intros He Hv Hs a c n.
  assert (Q : submitted now s = Update a c n i)
    by (unfold submitted; rewrite He; reflexivity).
  destruct (run (submitted now s) (db s)) as [e|d] eqn:Hr.
  { rewrite (saveExpense_rejected _ _ _ Hv Hr) in Hs. discriminate. }
  rewrite (saveExpense_accepted _ _ _ Hv Hr) in Hs.
  injection Hs as <-.
  set (s1 := cleared (called (RunAsync (submitted now s)) d s)).
  assert (D1 : db s1 = d) by reflexivity.
  rewrite Q in Hr. destruct (run_update_inv _ _ _ _ _ _ Hr) as (Hrows & cols & Ht & Hid).
  destruct (reloaded_keeps s1) as (Hd & _).
  rewrite (reloaded_expenses s1 _ (select_all_ok _ _ Ht Hid)), Hd, D1, Hrows.
  split; [apply map_edited|].
  rewrite (order_by_id_desc_map _ (set_fields_id a c n i)).
  split; [apply map_edited|].
  rewrite (count_id_map _ (set_fields_id a c n i)). apply count_id_order.
Qed.

Lemma edit_preserves_identity_witness :
  let s := editing 3 "7.25" " Snacks " " " (initial (ledger_with sample_rows)) in
  let s' := snd (saveExpense 1704639600000 s) in
  count_id 3 (expenses s') = 1%nat
  /\ Forall2 (edited 3 (parseFloat "7.25") "Snacks" None) sample_rows (rows (db s')).
Proof.
  intros s s'.
  destruct (edit_preserves_identity 1704639600000 3 s s' eq_refl eq_refl eq_refl)
    as (H1 & _ & H3).
  split; [exact H3 | exact H1].
Defined.

(** ** The date of a new record *)

Lemma run_insert_inv a c n t d d' :
  run (Insert a c n t) d = inr d' ->
  exists id,
    rows d' = rows d ++ [Expense.make id a c n t]
    /\ forall r, In r (rows d) -> Expense.id r < id.
Proof.
  unfold run. destruct (table d) as [cols|]; [|discriminate].
  destruct (missing cols ["amount"; "category"; "note"; "date"]); [discriminate|].
  match goal with |- context [match ?x with Some _ => _ | None => _ end] =>
    destruct x; [discriminate|] end.
  intros [= <-]. simpl. eexists. split; [reflexivity|].
  intros r Hr. enough (Expense.id r <= max_id (rows d)) by lia.
  clear -Hr. induction (rows d) as [|r' l IH]; simpl in *; [contradiction|].
  destruct Hr as [->|Hr]; [lia|]. specialize (IH Hr). lia.
Qed.

(** What an accepted create stores: one new row at the end, with a larger
    id than every row before it, holding the parsed amount, the trimmed
    category, the note and, as its date, the UTC calendar date of the
    instant of the call. *)
Lemma create_appends_row (now : Z) (s s' : state) :
  editingId s = None -> valid s = true ->
  saveExpense now s = (Returned tt, s') ->
  exists id,
    rows (db s')
    = rows (db s)
      ++ [Expense.make id (parseFloat (amount s)) (trim (category s))
            (if JSString.falsy (trim (note s)) then None else Some (trim (note s)))
            (isoDate now)]
    /\ forall r, In r (rows (db s)) -> Expense.id r < id.
Proof.
  intros He Hv Hs.
  destruct (run (submitted now s) (db s)) as [e|d] eqn:Hr.
  { rewrite (saveExpense_rejected _ _ _ Hv Hr) in Hs. discriminate. }
  rewrite (saveExpense_accepted _ _ _ Hv Hr) in Hs. injection Hs as <-.
  destruct (reloaded_keeps (cleared (called (RunAsync (submitted now s)) d s)))
    as (-> & _).
  unfold submitted in Hr. rewrite He in Hr.
  apply run_insert_inv in Hr. exact Hr.
Qed.

(** C6. At 2024-01-08T01:00:00Z on a host five hours behind UTC it is still
    the evening of 7 January; a create submitted then is accepted and the
    row it stores is dated 2024-01-08, the UTC date, not the local one. *)
Theorem create_date_is_utc_not_local :
  let now := 1704675600000 in
  let tza := -18000000 in
  let s := typed "12.5" "Food" "lunch" (initial (ledger_with [])) in
  fst (saveExpense now s) = Returned tt
  /\ map Expense.date (rows (db (snd (saveExpense now s)))) = ["2024-01-08"]
  /\ localDate tza now = "2024-01-07".
Proof. repeat split. Qed.

(** ** Calendar facts *)

Ltac divs := Z.to_euclidean_division_equations; lia.

Lemma YearFromTime_spec (t : Z) :
  DayFromYear (YearFromTime t) <= Day t < DayFromYear (YearFromTime t + 1).
Proof.
  unfold YearFromTime, DayFromYear. generalize (Day t). intros d.
  repeat match goal with
         | |- context [if ?b then _ else _] => destruct b eqn:?
         end; divs.
Qed.

Lemma DaysInYear_spec (y : Z) : DayFromYear (y + 1) - DayFromYear y = DaysInYear y.
Proof.
  unfold DaysInYear, DayFromYear.
  destruct (Z.eqb_spec (y mod 4) 0), (Z.eqb_spec (y mod 100) 0),
    (Z.eqb_spec (y mod 400) 0); cbn [negb]; cbv iota; divs.
Qed.

Lemma LeapOfYear_cases (y : Z) :
  (LeapOfYear y = 0 /\ DaysInYear y = 365) \/ (LeapOfYear y = 1 /\ DaysInYear y = 366).
Proof.
  unfold LeapOfYear, DaysInYear.
  destruct (y mod 4 =? 0), (y mod 100 =? 0), (y mod 400 =? 0); simpl; auto.
Qed.

Lemma DayWithinYear_range (t : Z) : 0 <= DayWithinYear t < 365 + InLeapYear t.
Proof.
  unfold DayWithinYear, InLeapYear.
  pose proof (YearFromTime_spec t). pose proof (DaysInYear_spec (YearFromTime t)).
  destruct (LeapOfYear_cases (YearFromTime t)) as [[-> ?]|[-> ?]]; lia.
Qed.

Lemma MonthOfDay_spec (d l : Z) :
  0 <= d < 365 + l -> 0 <= l <= 1 ->
  let m := MonthOfDay d l in
  0 <= m <= 11
  /\ FirstDayOfMonth m l <= d
  /\ d - FirstDayOfMonth m l + 1
     <= (if m =? 11 then 31 else FirstDayOfMonth (m + 1) l - FirstDayOfMonth m l).
Proof.
  intros Hd Hl. unfold MonthOfDay.
  assert (L : l = 0 \/ l = 1) by lia. clear Hl.
  destruct L as [-> | ->];
    repeat match goal with
           | |- context [if ?a <? ?b then _ else _] => destruct (Z.ltb_spec a b)
           end; simpl in *; lia.
Qed.

Lemma InLeapYear_range (t : Z) : 0 <= InLeapYear t <= 1.
Proof.
  unfold InLeapYear. destruct (LeapOfYear_cases (YearFromTime t)) as [[-> _]|[-> _]]; lia.
Qed.

Lemma MonthFromTime_range (t : Z) : 0 <= MonthFromTime t <= 11.
Proof.
  apply (MonthOfDay_spec _ _ (DayWithinYear_range t) (InLeapYear_range t)).
Qed.

Lemma DateFromTime_range (t : Z) :
  1 <= DateFromTime t <= DaysInMonth (YearFromTime t) (MonthFromTime t + 1).
Proof.
  destruct (MonthOfDay_spec _ _ (DayWithinYear_range t) (InLeapYear_range t))
    as (Hm & Hlo & Hhi).
  fold (MonthFromTime t) in *. unfold DateFromTime, DaysInMonth.
  fold (InLeapYear t).
  replace (MonthFromTime t + 1 - 1) with (MonthFromTime t) by lia.
  destruct (Z.eqb_spec (MonthFromTime t) 11) as [E|E];
    destruct (Z.eqb_spec (MonthFromTime t + 1) 12) as [E'|E']; lia.
Qed.

(** The day number is recovered from the calendar fields: this is what makes
    [setDate(getDate() - k)] step back by exactly [k] days. *)
Lemma MakeDay_fields (t k : Z) :
  MakeDay (YearFromTime t) (MonthFromTime t) (DateFromTime t - k) = Day t - k.
Proof.
  pose proof (MonthFromTime_range t) as Hm.
  unfold MakeDay, DateFromTime, DayWithinYear.
  replace (MonthFromTime t / 12) with 0 by divs.
  replace (MonthFromTime t mod 12) with (MonthFromTime t) by divs.
  rewrite Z.add_0_r. fold (InLeapYear t). lia.
Qed.


Lemma Day_decompose (t : Z) : Day t * msPerDay + TimeWithinDay t = t.
Proof. unfold Day, TimeWithinDay, msPerDay. divs. Qed.

Lemma TimeWithinDay_range (t : Z) : 0 <= TimeWithinDay t < msPerDay.
Proof. unfold TimeWithinDay, msPerDay. divs. Qed.


(** *** Reading back the date part of [toISOString] *)

Lemma digit_char_digit (n : Z) :
  is_digit (digit_char n) = true /\ digit (digit_char n) = n mod 10.
Proof.
  unfold digit_char.
  assert (H : 0 <= n mod 10 < 10) by divs.
  assert (C : n mod 10 = 0 \/ n mod 10 = 1 \/ n mod 10 = 2 \/ n mod 10 = 3
              \/ n mod 10 = 4 \/ n mod 10 = 5 \/ n mod 10 = 6 \/ n mod 10 = 7
              \/ n mod 10 = 8 \/ n mod 10 = 9) by lia.
  repeat destruct C as [C|C]; rewrite C; split; reflexivity.
Qed.

Lemma parse_year_unsigned (c : ascii) (r : string) :
  is_digit c = true -> parse_year (String c r) = fixed_digits 4 (String c r) 0.
Proof.
  destruct c as [[] [] [] [] [] [] [] []]; try discriminate; reflexivity.
Qed.

Ltac read_digits :=
  cbn [pad append fixed_digits];
  repeat rewrite (proj1 (digit_char_digit _));
  repeat rewrite (proj2 (digit_char_digit _)).

Lemma fixed_digits_2 (n : Z) (r : string) :
  0 <= n <= 99 -> fixed_digits 2 (pad 2 n "" ++ r) 0 = Some (n, r).
Proof. intros H. read_digits. do 2 f_equal. divs. Qed.

Lemma fixed_digits_4 (n : Z) (r : string) :
  0 <= n <= 9999 -> fixed_digits 4 (pad 4 n "" ++ r) 0 = Some (n, r).
Proof. intros H. read_digits. do 2 f_equal. divs. Qed.

Lemma fixed_digits_6 (n : Z) (r : string) :
  0 <= n <= 999999 -> fixed_digits 6 (pad 6 n "" ++ r) 0 = Some (n, r).
Proof. intros H. read_digits. do 2 f_equal. divs. Qed.

Lemma parse_year_iso (y : Z) (r : string) :
  -999999 <= y <= 999999 -> parse_year (isoYear y ++ r) = Some (y, r).
Proof.
  intros H. unfold isoYear.
  destruct (Z.leb_spec 0 y); destruct (Z.leb_spec y 9999); cbn [andb].
  - rewrite <- (fixed_digits_4 y r) by lia.
    cbn [pad append]. apply parse_year_unsigned, digit_char_digit.
  - destruct (Z.ltb_spec y 0); [lia|].
    cbn [append parse_year]. rewrite Z.abs_eq by lia.
    apply fixed_digits_6. lia.
  - destruct (Z.ltb_spec y 0); [|lia].
    change (parse_year (String "-" (pad 6 (Z.abs y) "") ++ r))
      with (match fixed_digits 6 (pad 6 (Z.abs y) "" ++ r) 0 with
            | Some (0, _) => None
            | Some (v, r') => Some (- v, r')
            | None => None
            end).
    rewrite fixed_digits_6 by lia.
    destruct (Z.abs y) eqn:E; try lia; f_equal; f_equal; lia.
  - lia.
Qed.

Lemma field_pad (n dflt : Z) (r : string) :
  0 <= n <= 99 -> field (String "-" (pad 2 n "" ++ r)) dflt = Some (n, r).
Proof. intros H. apply fixed_digits_2. exact H. Qed.

Lemma append_empty (a : string) : (a ++ "")%string = a.
Proof. induction a as [|x a IH]; simpl; [reflexivity|]. rewrite IH. reflexivity. Qed.

Lemma YearFromTime_bound (t : Z) :
  Z.abs t <= 8640000000000000 -> -999999 <= YearFromTime t <= 999999.
Proof.
  intros H. pose proof (YearFromTime_spec t) as Hy.
  assert (-100000000 <= Day t <= 100000000) by (unfold Day, msPerDay; divs).
  unfold DayFromYear in Hy. divs.
Qed.

(** A time value within the range of [Date], written as the date part of
    [toISOString] and read back by [new Date], gives midnight UTC of the same
    day. *)
Theorem parse_isoDate (t : Z) :
  Z.abs t <= 8640000000000000 -> parse (isoDate t) = Some (Day t * msPerDay).
Proof.
  intros Ht. unfold parse, isoDate.
  pose proof (MonthFromTime_range t) as Hm.
  pose proof (DateFromTime_range t) as Hd.
  assert (Hd31 : DaysInMonth (YearFromTime t) (MonthFromTime t + 1) <= 31).
  { unfold DaysInMonth.
    destruct (LeapOfYear_cases (YearFromTime t)) as [[-> _]|[-> _]];
      assert (M : MonthFromTime t = 0 \/ MonthFromTime t = 1 \/ MonthFromTime t = 2
                  \/ MonthFromTime t = 3 \/ MonthFromTime t = 4 \/ MonthFromTime t = 5
                  \/ MonthFromTime t = 6 \/ MonthFromTime t = 7 \/ MonthFromTime t = 8
                  \/ MonthFromTime t = 9 \/ MonthFromTime t = 10 \/ MonthFromTime t = 11)
        by lia;
      repeat destruct M as [M|M]; rewrite M; simpl; lia. }
  rewrite parse_year_iso by (apply YearFromTime_bound; exact Ht).
  cbn [append]. rewrite field_pad by lia.
  cbn [append]. rewrite <- (append_empty (pad 2 (DateFromTime t) "")).
  rewrite field_pad by lia.
  replace ((1 <=? MonthFromTime t + 1) && (MonthFromTime t + 1 <=? 12)
           && (1 <=? DateFromTime t)
           && (DateFromTime t <=? DaysInMonth (YearFromTime t) (MonthFromTime t + 1)))
    with true
    by (symmetry; repeat (apply andb_true_iff; split); apply Z.leb_le; lia).
  replace (MonthFromTime t + 1 - 1) with (MonthFromTime t) by lia.
  pose proof (MakeDay_fields t 0) as K. rewrite Z.sub_0_r in K. rewrite K.
  unfold MakeDate, TimeClip. rewrite Z.sub_0_r, Z.add_0_r.
  destruct (Z.leb_spec (Z.abs (Day t * msPerDay)) 8640000000000000) as [_|B];
    [reflexivity|].
  exfalso. unfold Day, msPerDay in B. divs.
Qed.

(** ** The week filter *)






(** C5. On a Sunday afternoon (host on UTC) a record dated today is absent
    from the week view: the start of the week keeps the time of day, and the
    date of the record is read as midnight. On the first of a month, on a
    host five hours behind UTC, a record dated today is absent from the
    month view as well: its date is read as midnight UTC, which there is
    still the evening of the day before. *)
Theorem record_dated_today_is_filtered_out :
  (let now := sunday_3pm in
   let e := Expense.make 1 (ofZ 10) "Food" None (getToday now) in
   Expense.date e = "2024-01-07"
   /\ getFilteredExpenses now 0 (showing "week" [e]) = []
   /\ getFilteredExpenses now 0 (showing "month" [e]) = [e])
  /\ (let now := 1706799600000 in
      let tza := -18000000 in
      let e := Expense.make 1 (ofZ 10) "Food" None (getToday now) in
      Expense.date e = "2024-02-01"
      /\ localDate tza now = "2024-02-01"
      /\ getFilteredExpenses now tza (showing "month" [e]) = []).
Proof. repeat split. Qed.

(** ** Whole numbers add exactly *)

Lemma iter_xO_add (a b d : positive) :
  (Pos.iter xO a d + Pos.iter xO b d = Pos.iter xO (a + b) d)%positive.
Proof.
  induction d as [|d IH] using Pos.peano_ind.
  - reflexivity.
  - rewrite !Pos.iter_succ, <- IH. reflexivity.
Qed.

Lemma digits_iter_xO (q d : positive) :
  digits2_pos (Pos.iter xO q d) = (digits2_pos q + d)%positive.
Proof.
  induction d as [|d IH] using Pos.peano_ind.
  - simpl. rewrite Pos.add_1_r. reflexivity.
  - rewrite Pos.iter_succ. simpl. rewrite IH, Pos.add_succ_r. reflexivity.
Qed.

Lemma digits_shl (q : positive) (k : Z) :
  0 <= k -> Zpos (digits2_pos (shl q k)) = Zpos (digits2_pos q) + k.
Proof.
  destruct k as [|d|d]; simpl; intros H; [lia| |lia].
  rewrite digits_iter_xO. lia.
Qed.

Lemma shl_shl (q : positive) (a b : Z) :
  0 <= a -> 0 <= b -> shl (shl q a) b = shl q (a + b).
Proof.
  destruct a as [|a|a], b as [|b|b]; simpl; intros Ha Hb; try lia; try reflexivity.
  rewrite Pos.add_comm, Pos.iter_add. reflexivity.
Qed.

Lemma shl_add (a b : positive) (k : Z) :
  (shl a k + shl b k = shl (a + b) k)%positive.
Proof. destruct k; simpl; auto using iter_xO_add. Qed.

Lemma iter_pos_eq {A} (f : A -> A) (n : positive) (x : A) :
  iter_pos f n x = Pos.iter f x n.
Proof.
  revert x. induction n as [n IH|n IH|]; intros x; simpl.
  - rewrite !IH, <- !Pos.iter_swap. reflexivity.
  - rewrite !IH. reflexivity.
  - reflexivity.
Qed.

Lemma shr_exact (q n : positive) :
  iter_pos shr_1 n (exact (Pos.iter xO q n)) = exact q.
Proof.
  rewrite iter_pos_eq.
  induction n as [|n IH] using Pos.peano_ind.
  - reflexivity.
  - rewrite Pos.iter_succ_r with (f := shr_1), Pos.iter_succ with (f := xO).
    exact IH.
Qed.

Lemma fexp_53 (e : Z) : -1074 <= e -> fexp prec emax (53 + e) = e.
Proof. unfold fexp, SpecFloat.emin, prec, emax. lia. Qed.

Lemma fexp_small (d : Z) : 1 <= d <= 53 -> fexp prec emax d = d - 53.
Proof. unfold fexp, SpecFloat.emin, prec, emax. lia. Qed.

Lemma shr_fexp_53 (m : positive) (e : Z) :
  Zpos (digits2_pos m) = 53 -> -1074 <= e ->
  shr_fexp prec emax (Zpos m) e loc_Exact = (exact m, e).
Proof.
  intros Hd He. unfold shr_fexp.
  change (Zdigits2 (Zpos m)) with (Zpos (digits2_pos m)).
  rewrite Hd, fexp_53, Z.sub_diag by exact He. reflexivity.
Qed.

(** A mantissa of 53 bits with an exponent in range is its own rounding. *)
Lemma round_aux_53 (m : positive) (e : Z) :
  Zpos (digits2_pos m) = 53 -> -1074 <= e <= 971 ->
  binary_round_aux prec emax false (Zpos m) e loc_Exact = S754_finite false m e.
Proof.
  intros Hd He. unfold binary_round_aux.
  rewrite shr_fexp_53 by (assumption || lia).
  cbn [exact shr_m shr_r shr_s loc_of_shr_record round_nearest_even].
  rewrite shr_fexp_53 by (assumption || lia).
  cbn [exact shr_m].
  destruct (Z.leb_spec e (emax - prec)) as [_|B]; [reflexivity|].
  unfold emax, prec in B. lia.
Qed.

(** Rounding [q * 2^k] at the exponent [-k] gives the representation of
    [q], whatever [k]. *)
Lemma round_shl (q : positive) (k : Z) :
  0 <= k -> Zpos (digits2_pos q) <= 53 ->
  binary_round prec emax false (shl q k) (- k) = canon q.
Proof.
  intros Hk Hq. set (d := Zpos (digits2_pos q)) in *.
  assert (Hd : 1 <= d) by (unfold d; lia).
  unfold binary_round. rewrite (digits_shl q k Hk). fold d.
  replace (d + k + - k) with d by lia. rewrite fexp_small by lia.
  unfold shl_align.
  assert (C : canon q = S754_finite false (shl q (53 - d)) (d - 53)) by reflexivity.
  assert (D : Zpos (digits2_pos (shl q (53 - d))) = 53)
    by (rewrite digits_shl by lia; fold d; lia).
  destruct (d - 53 - - k) as [|n|n] eqn:E.
  - replace k with (53 - d) by lia. replace (- (53 - d)) with (d - 53) by lia.
    rewrite round_aux_53 by (assumption || lia). exact (eq_sym C).
  - assert (S : shl q k = Pos.iter xO (shl q (53 - d)) n).
    { change (Pos.iter xO (shl q (53 - d)) n) with (shl (shl q (53 - d)) (Zpos n)).
      rewrite shl_shl by lia. f_equal. lia. }
    rewrite <- (round_aux_53 _ _ D) in C by lia. rewrite C.
    unfold binary_round_aux at 1. unfold shr_fexp at 1.
    change (Zdigits2 (Zpos (shl q k))) with (Zpos (digits2_pos (shl q k))).
    rewrite (digits_shl q k Hk). fold d.
    replace (d + k + - k) with d by lia. rewrite fexp_small by lia.
    replace (d - 53 - - k) with (Zpos n) by lia.
    unfold shr, shr_record_of_loc. rewrite S. fold (exact (Pos.iter xO (shl q (53 - d)) n)).
    rewrite shr_exact.
    replace (- k + Zpos n) with (d - 53) by lia.
    unfold binary_round_aux. rewrite shr_fexp_53 by (assumption || lia).
    reflexivity.
  - replace (Pos.iter xO (shl q k) n) with (shl q (53 - d)).
    2:{ change (Pos.iter xO (shl q k) n) with (shl (shl q k) (Zpos n)).
        rewrite shl_shl by lia. f_equal. lia. }
    rewrite round_aux_53 by (assumption || lia). exact (eq_sym C).
Qed.

Lemma digits_size (p : positive) : digits2_pos p = Pos.size p.
Proof. induction p as [p IH|p IH|]; simpl; rewrite ?IH; reflexivity. Qed.

Lemma digits_bound (p : positive) : Zpos p < 2 ^ 53 -> Zpos (digits2_pos p) <= 53.
Proof.
  intros H.
  pose proof (Pos.size_le p) as L. rewrite <- digits_size in L.
  apply Pos2Z.pos_le_pos in L. rewrite Pos2Z.inj_pow in L.
  destruct (Z.le_gt_cases (Zpos (digits2_pos p)) 53) as [|G]; [assumption|].
  exfalso.
  assert (2 ^ 54 <= 2 ^ Zpos (digits2_pos p)) by (apply Z.pow_le_mono_r; lia).
  change (Zpos p~0) with (2 * Zpos p) in L.
  change (2 ^ 54) with (2 * 2 ^ 53) in *. lia.
Qed.

Lemma ofZ_pos (q : positive) : Zpos q < 2 ^ 53 -> ofZ (Zpos q) = canon q.
Proof.
  intros H. apply (round_shl q 0); [lia|]. apply digits_bound. exact H.
Qed.

Lemma fst_shl_align (m : positive) (e e' : Z) :
  e' <= e -> fst (shl_align m e e') = shl m (e - e').
Proof.
  intros H. unfold shl_align.
  destruct (e' - e) as [|d|d] eqn:E; simpl.
  - replace (e - e') with 0 by lia. reflexivity.
  - lia.
  - replace (e - e') with (Zpos d) by lia. reflexivity.
Qed.

(** Two whole numbers whose sum stays below 2^53 add without rounding. *)
Lemma add_ofZ (a b : Z) :
  0 <= a -> 0 <= b -> a + b < 2 ^ 53 -> add (ofZ a) (ofZ b) = ofZ (a + b).
Proof.
  intros Ha Hb Hs.
  destruct a as [|a|a]; [|destruct b as [|b|b]|]; try lia.
  - destruct b as [|b|b]; try lia; [reflexivity|].
    rewrite Z.add_0_l, ofZ_pos by lia. reflexivity.
  - rewrite Z.add_0_r, ofZ_pos by lia. reflexivity.
  - change (Zpos a + Zpos b) with (Zpos (a + b)) in *.
    rewrite !ofZ_pos by lia.
    pose proof (digits_bound a ltac:(lia)) as Da.
    pose proof (digits_bound b ltac:(lia)) as Db.
    pose proof (digits_bound (a + b) ltac:(lia)) as Dab.
    unfold canon at 1 2. unfold add, SFadd, cond_Zopp.
    set (da := Zpos (digits2_pos a)) in *. set (db := Zpos (digits2_pos b)) in *.
    set (ez := Z.min (da - 53) (db - 53)).
    rewrite !fst_shl_align by lia.
    rewrite !shl_shl by lia.
    replace (53 - da + (da - 53 - ez)) with (- ez) by lia.
    replace (53 - db + (db - 53 - ez)) with (- ez) by lia.
    change (Zpos (shl a (- ez)) + Zpos (shl b (- ez)))
      with (Zpos (shl a (- ez) + shl b (- ez))).
    rewrite shl_add. unfold binary_normalize.
    replace ez with (- - ez) at 2 by lia.
    apply round_shl; lia.
Qed.

Lemma falsy_ofZ (m : Z) : 0 <= m < 2 ^ 53 -> JSNumber.falsy (ofZ m) = true -> ofZ m = zero.
Proof.
  intros H. destruct m as [|m|m]; [reflexivity| |lia].
  rewrite ofZ_pos by lia. discriminate.
Qed.

(** ** The two aggregates *)

Lemma getTotalsByCategory_fold (now tza : Z) (s : state) :
  getTotalsByCategory now tza s
  = fold_left tally (getFilteredExpenses now tza s) JSObject.empty.
Proof. reflexivity. Qed.

Lemma getTotalSpending_sum (now tza : Z) (s : state) :
  getTotalSpending now tza s
  = sum_from zero (map Expense.amount (getFilteredExpenses now tza s)).
Proof.
  unfold getTotalSpending, sum_from.
  generalize zero. induction (getFilteredExpenses now tza s) as [|e l IH];
    intros x; simpl; [reflexivity|apply IH].
Qed.

(** The filtered view is a selection of the list in memory. *)
Lemma getFilteredExpenses_filter (now tza : Z) (s : state) :
  exists f, getFilteredExpenses now tza s = List.filter f (expenses s).
Proof.
  unfold getFilteredExpenses.
  destruct (filter s =? "week")%string; [eexists; reflexivity|].
  destruct (filter s =? "month")%string; [eexists; reflexivity|].
  exists (fun _ => true). symmetry. apply filter_all. reflexivity.
Qed.

(** *** Keyed entries *)

Lemma entry_set {A} (o : list (string * A)) (c : string) (x : A) :
  entry (set_entry o c x) c = Some x.
Proof.
  unfold entry. induction o as [|p o IH]; simpl.
  - rewrite String.eqb_refl. reflexivity.
  - destruct (fst p =? c)%string eqn:E; simpl.
    + rewrite String.eqb_refl. reflexivity.
    + rewrite E. exact IH.
Qed.

Lemma entry_set_other {A} (o : list (string * A)) (c c' : string) (x : A) :
  c <> c' -> entry (set_entry o c x) c' = entry o c'.
Proof.
  intros H. unfold entry. induction o as [|p o IH]; simpl.
  - destruct (String.eqb_spec c c'); [contradiction|reflexivity].
  - destruct (String.eqb_spec (fst p) c) as [E|E]; simpl.
    + destruct (String.eqb_spec c c'); [contradiction|].
      destruct (String.eqb_spec (fst p) c'); [congruence|reflexivity].
    + destruct (fst p =? c')%string; [reflexivity|exact IH].
Qed.

Lemma set_entry_twice {A} (o : list (string * A)) (c : string) (x y : A) :
  set_entry (set_entry o c x) c y = set_entry o c y.
Proof.
  induction o as [|p o IH]; simpl.
  - rewrite String.eqb_refl. reflexivity.
  - destruct (fst p =? c)%string eqn:E; simpl.
    + rewrite String.eqb_refl. reflexivity.
    + rewrite E, IH. reflexivity.
Qed.

Lemma set_entry_Forall {A} (P : A -> Prop) (o : list (string * A)) (c : string) (x : A) :
  Forall (fun p => P (snd p)) o -> P x -> Forall (fun p => P (snd p)) (set_entry o c x).
Proof.
  induction 1 as [|p o Hp Ho IH]; simpl; intros Hx.
  - constructor; [exact Hx|constructor].
  - destruct (fst p =? c)%string; constructor; auto.
Qed.

Lemma entry_Forall {A} (P : A -> Prop) (o : list (string * A)) (c : string) (x : A) :
  Forall (fun p => P (snd p)) o -> entry o c = Some x -> P x.
Proof.
  unfold entry. induction 1 as [|p o Hp Ho IH]; simpl; [discriminate|].
  destruct (fst p =? c)%string; [intros [= <-]; exact Hp|exact IH].
Qed.

Lemma entry_map {A B} (f : A -> B) (o : list (string * A)) (c : string) :
  entry (map (fun p => (fst p, f (snd p))) o) c
  = match entry o c with Some x => Some (f x) | None => None end.
Proof.
  unfold entry. induction o as [|p o IH]; simpl; [reflexivity|].
  destruct (fst p =? c)%string; [reflexivity|exact IH].
Qed.

Lemma set_entry_map {A B} (f : A -> B) (o : list (string * A)) (c : string) (x : A) :
  set_entry (map (fun p => (fst p, f (snd p))) o) c (f x)
  = map (fun p => (fst p, f (snd p))) (set_entry o c x).
Proof.
  induction o as [|p o IH]; simpl; [reflexivity|].
  destruct (fst p =? c)%string; simpl; [reflexivity|]. rewrite IH. reflexivity.
Qed.

Lemma own_as_object (fo : list (string * num)) (c : string) :
  JSObject.own (as_object fo) c
  = match entry fo c with Some x => Some (JSObject.Num x) | None => None end.
Proof. apply (entry_map JSObject.Num). Qed.

Lemma put_as_object (fo : list (string * num)) (c : string) (x : num) :
  JSObject.put (as_object fo) c (JSObject.Num x) = as_object (set_entry fo c x).
Proof.
  unfold as_object. induction fo as [|p fo IH]; simpl; [reflexivity|].
  destruct (fst p =? c)%string; simpl; [reflexivity|]. rewrite IH. reflexivity.
Qed.

Lemma not_inherited (c : string) :
  ~ In c JSObject.inherited ->
  existsb (String.eqb c) JSObject.inherited = false /\ (c =? "__proto__")%string = false.
Proof.
  intros H. split.
  - destruct (existsb (String.eqb c) JSObject.inherited) eqn:E; [|reflexivity].
    apply existsb_exists in E. destruct E as (k & Hk & Ek).
    apply String.eqb_eq in Ek. subst k. contradiction.
  - apply String.eqb_neq. intros ->. apply H. simpl. tauto.
Qed.

(** One step of the tally on totals that are numbers, for a category that
    is not the name of an inherited property: the amount is added to the
    total of its category, which counts from 0 when it is absent or falsy. *)
Lemma tally_as_object (fo : list (string * num)) (e : Expense.t) :
  ~ In (Expense.category e) JSObject.inherited ->
  tally (as_object fo) e
  = as_object (set_entry fo (Expense.category e)
                 (add (start (entry fo (Expense.category e))) (Expense.amount e))).
Proof.
  intros Hc. unfold tally. set (c := Expense.category e).
  destruct (not_inherited c Hc) as [Hi Hp].
  unfold JSObject.get, JSObject.set. rewrite Hp, own_as_object.
  destruct (entry fo c) as [t|] eqn:G; cbn [start JSObject.not].
  - destruct (JSNumber.falsy t).
    + rewrite put_as_object, own_as_object, entry_set. cbn [JSObject.plus].
      rewrite put_as_object, set_entry_twice. reflexivity.
    + rewrite own_as_object, G. cbn [JSObject.plus]. apply put_as_object.
  - rewrite Hi. cbn [JSObject.not].
    rewrite put_as_object, own_as_object, entry_set. cbn [JSObject.plus].
    rewrite put_as_object, set_entry_twice. reflexivity.
Qed.


(** *** Positive numbers stay positive under addition *)

Lemma shr_1_m (r : shr_record) :
  0 <= shr_m r -> shr_m (shr_1 r) = Z.div2 (shr_m r).
Proof.
  destruct r as [m r s]. simpl. destruct m as [|[p|p|]|p]; simpl; intros H;
    reflexivity || lia.
Qed.

Lemma shr_iter_m (p : positive) (r : shr_record) :
  0 <= shr_m r -> shr_m (iter_pos shr_1 p r) = Z.shiftr (shr_m r) (Zpos p).
Proof.
  intros H. rewrite iter_pos_eq. unfold Z.shiftr, Z.shiftl. simpl Z.opp. cbv iota.
  induction p as [|p IH] using Pos.peano_ind.
  - simpl. apply shr_1_m, H.
  - rewrite !Pos.iter_succ, shr_1_m, IH; [reflexivity|].
    rewrite IH. clear IH.
    induction p as [|p IH] using Pos.peano_ind; simpl.
    + apply Z.div2_nonneg, H.
    + rewrite Pos.iter_succ. apply Z.div2_nonneg, IH.
Qed.

Lemma shiftr_pos (m p : positive) :
  Zpos p < Zpos (digits2_pos m) -> 0 < Z.shiftr (Zpos m) (Zpos p).
Proof.
  intros H. rewrite Z.shiftr_div_pow2 by lia.
  apply Z.div_str_pos. split; [apply Z.pow_pos_nonneg; lia|].
  pose proof (Pos.size_le m) as L. rewrite <- digits_size in L.
  apply Pos2Z.pos_le_pos in L. rewrite Pos2Z.inj_pow in L.
  change (Zpos m~0) with (2 * Zpos m) in L.
  assert (2 * 2 ^ Zpos p <= 2 ^ Zpos (digits2_pos m)).
  { rewrite <- Z.pow_succ_r by lia. apply Z.pow_le_mono_r; lia. }
  lia.
Qed.

(** The first step of rounding keeps a positive mantissa positive and an
    exponent at or above the smallest one where it is. *)
Lemma shr_fexp_pos (m : positive) (e : Z) (l : location) :
  -1074 <= e ->
  exists m' r s e',
    shr_fexp prec emax (Zpos m) e l = ({| shr_m := Zpos m'; shr_r := r; shr_s := s |}, e')
    /\ -1074 <= e'.
Proof.
  intros He. unfold shr_fexp, shr.
  change (Zdigits2 (Zpos m)) with (Zpos (digits2_pos m)).
  destruct (fexp prec emax (Zpos (digits2_pos m) + e) - e) as [|p|p] eqn:E.
  - destruct l as [|[| |]]; do 4 eexists; split; reflexivity || exact He.
  - assert (Hp : Zpos p < Zpos (digits2_pos m))
      by (unfold fexp, SpecFloat.emin, prec, emax in E; lia).
    pose proof (shiftr_pos m p Hp) as Hs.
    assert (Hm : shr_m (iter_pos shr_1 p (shr_record_of_loc (Zpos m) l))
                 = Z.shiftr (Zpos m) (Zpos p)).
    { rewrite shr_iter_m; destruct l as [|[| |]]; simpl; reflexivity || lia. }
    destruct (iter_pos shr_1 p (shr_record_of_loc (Zpos m) l)) as [m1 r s].
    simpl in Hm. subst m1.
    destruct (Z.shiftr (Zpos m) (Zpos p)) as [|m'|m'] eqn:S; try lia.
    exists m', r, s, (e + Zpos p). split; [reflexivity|lia].
  - destruct l as [|[| |]]; do 4 eexists; split; reflexivity || exact He.
Qed.

Lemma round_aux_pos (m : positive) (e : Z) (l : location) :
  -1074 <= e -> pos_ok (binary_round_aux prec emax false (Zpos m) e l).
Proof.
  intros He. unfold binary_round_aux.
  destruct (shr_fexp_pos m e l He) as (m1 & r1 & s1 & e1 & -> & He1).
  cbn [shr_m].
  assert (R : exists m2,
             round_nearest_even (Zpos m1)
               (loc_of_shr_record {| shr_m := Zpos m1; shr_r := r1; shr_s := s1 |})
             = Zpos m2).
  { destruct r1, s1; cbn [loc_of_shr_record round_nearest_even];
      try (eexists; reflexivity).
    destruct (Z.even (Zpos m1)); eexists; reflexivity. }
  destruct R as [m2 ->].
  destruct (shr_fexp_pos m2 e1 loc_Exact He1) as (m3 & r3 & s3 & e3 & -> & He3).
  cbn [shr_m]. destruct (e3 <=? emax - prec); simpl; [exact He3|exact I].
Qed.

Lemma round_pos (m : positive) (e : Z) :
  -1074 <= e -> pos_ok (binary_round prec emax false m e).
Proof.
  intros He. unfold binary_round, shl_align.
  destruct (fexp prec emax (Zpos (digits2_pos m) + e) - e) eqn:E;
    apply round_aux_pos; try exact He.
  unfold fexp, SpecFloat.emin, prec, emax. lia.
Qed.

Lemma add_pos (x y : num) :
  x = zero \/ pos_ok x -> pos_ok y -> pos_ok (add x y).
Proof.
  intros [->|Hx] Hy.
  - destruct y as [s|[|]| |[|] my ey]; simpl in *; tauto.
  - destruct x as [s|[|]| |[|] mx ex]; simpl in Hx; try contradiction;
      destruct y as [s|[|]| |[|] my ey]; simpl in Hy; try contradiction;
      try exact I.
    unfold add, SFadd, cond_Zopp.
    change (Zpos (fst (shl_align mx ex (Z.min ex ey)))
            + Zpos (fst (shl_align my ey (Z.min ex ey))))
      with (Zpos (fst (shl_align mx ex (Z.min ex ey))
                  + fst (shl_align my ey (Z.min ex ey)))).
    unfold binary_normalize. apply round_pos. lia.
Qed.

Lemma pos_ok_truthy (x : num) : pos_ok x -> JSNumber.falsy x = false.
Proof. destruct x as [s|[|]| |[|] m e]; simpl; tauto. Qed.

(** A binary64 value that is greater than zero is positive in that sense. *)
Lemma positive_double (x : num) :
  SpecFloat.valid_binary prec emax x = true -> JSNumber.ltb zero x = true ->
  pos_ok x.
Proof.
  destruct x as [s|[|]| |[|] m e]; simpl; try discriminate; try tauto.
  unfold SpecFloat.bounded, SpecFloat.canonical_mantissa. intros H _.
  apply andb_true_iff in H. destruct H as [H _]. apply Z.eqb_eq in H.
  unfold fexp, SpecFloat.emin, prec, emax in H. lia.
Qed.

(** *** Totals of positive amounts *)

Lemma tally_fold_pos (l : list Expense.t) (fo : list (string * num)) :
  (forall e, In e l ->
     pos_ok (Expense.amount e) /\ ~ In (Expense.category e) JSObject.inherited) ->
  Forall (fun p => pos_ok (snd p)) fo ->
  exists fo',
    fold_left tally l (as_object fo) = as_object fo'
    /\ Forall (fun p => pos_ok (snd p)) fo'
    /\ forall c,
         entry fo' c
         = match entry fo c with
           | Some t => Some (sum_from t (amounts_of c l))
           | None => if occurs c l then Some (sum_from zero (amounts_of c l)) else None
           end.
Proof.
  revert fo. induction l as [|e l IH]; intros fo Hl Hfo.
  - exists fo. split; [reflexivity|]. split; [exact Hfo|].
    intros c. simpl. destruct (entry fo c); reflexivity.
  - destruct (Hl e (or_introl eq_refl)) as [Ha Hc].
    simpl fold_left. rewrite (tally_as_object fo e Hc).
    set (ce := Expense.category e) in *.
    set (t0 := start (entry fo ce)).
    assert (H0 : t0 = zero \/ pos_ok t0).
    { unfold t0. destruct (entry fo ce) as [t|] eqn:G; [|left; reflexivity].
      right. pose proof (entry_Forall pos_ok fo ce t Hfo G) as Ht.
      simpl. rewrite (pos_ok_truthy t Ht). exact Ht. }
    destruct (IH (set_entry fo ce (add t0 (Expense.amount e)))) as (fo' & E & F & G).
    + intros e' He'. apply Hl. right. exact He'.
    + apply set_entry_Forall; [exact Hfo|]. apply add_pos; assumption.
    + exists fo'. split; [exact E|]. split; [exact F|].
      intros c. rewrite G. unfold amounts_of, occurs. simpl. fold ce.
      destruct (String.eqb_spec ce c) as [Ec|Ec].
      * rewrite <- Ec, entry_set. unfold t0. simpl.
        destruct (entry fo ce) as [t|] eqn:K; [|reflexivity].
        simpl. rewrite (pos_ok_truthy t (entry_Forall pos_ok fo ce t Hfo K)).
        reflexivity.
      * rewrite (entry_set_other _ _ _ _ Ec). reflexivity.
Qed.

(** X1. For every filtered view of records with positive amounts and with
    categories that are not names of inherited properties, the totals have
    exactly the categories of the view as their own properties, each with
    the sum of the amounts of its records, added in the order of the view. *)
Theorem totals_of_positive_amounts (now tza : Z) (s : state) (c : string) :
  (forall e, In e (expenses s) ->
     SpecFloat.valid_binary prec emax (Expense.amount e) = true
     /\ JSNumber.ltb zero (Expense.amount e) = true
     /\ ~ In (Expense.category e) JSObject.inherited) ->
  let view := getFilteredExpenses now tza s in
  JSObject.own (getTotalsByCategory now tza s) c
  = if occurs c view
    then Some (JSObject.Num (sum_from zero (amounts_of c view)))
    else None.
Proof.
  intros H view. rewrite getTotalsByCategory_fold. fold view.
  destruct (getFilteredExpenses_filter now tza s) as [f Hf]. fold view in Hf.
  destruct (tally_fold_pos view []) as (fo & E & _ & G).
  - intros e He. rewrite Hf in He. apply filter_In in He. destruct He as [He _].
    destruct (H e He) as (Hv & Hp & Hc). split; [|exact Hc].
    apply positive_double; assumption.
  - constructor.
  - change JSObject.empty with (as_object []). rewrite E, own_as_object, G.
    simpl. destruct (occurs c view); reflexivity.
Qed.

(** *** Whole amounts *)

Lemma ztotal_set_entry (zo : ztotals) (c : string) (x : Z) :
  ztotal (set_entry zo c x)
  = ztotal zo - (match entry zo c with Some m => m | None => 0 end) + x.
Proof.
  unfold ztotal, entry. induction zo as [|p zo IH]; simpl; [lia|].
  destruct (fst p =? c)%string; simpl; [lia|]. rewrite IH. lia.
Qed.

Lemma ztotal_nonneg (zo : ztotals) :
  Forall (fun p => 0 <= snd p) zo -> 0 <= ztotal zo.
Proof. unfold ztotal. induction 1; simpl; lia. Qed.

Lemma entry_bound (zo : ztotals) (c : string) (m : Z) :
  Forall (fun p => 0 <= snd p) zo -> entry zo c = Some m -> 0 <= m <= ztotal zo.
Proof.
  unfold entry. induction 1 as [|p zo Hp Hzo IH]; simpl; [discriminate|].
  pose proof (ztotal_nonneg zo Hzo). unfold ztotal in *. simpl.
  destruct (fst p =? c)%string.
  - intros [= <-]. lia.
  - intros Hm. specialize (IH Hm). lia.
Qed.

Lemma zsum_nonneg (n : Expense.t -> Z) (l : list Expense.t) :
  whole n l -> 0 <= zsum (map n l).
Proof.
  induction l as [|x l IH]; simpl; intros H; [lia|].
  assert (0 < n x) by (apply H; left; reflexivity).
  assert (0 <= zsum (map n l)) by (apply IH; intros y Hy; apply H; right; exact Hy).
  lia.
Qed.

(** One step of the tally, on whole numbers: the amount is added to the
    total of its category, which starts from 0. *)
Lemma tally_embed (zo : ztotals) (e : Expense.t) (n : Z) :
  Forall (fun p => 0 <= snd p) zo -> 0 <= n -> ztotal zo + n < 2 ^ 53 ->
  Expense.amount e = ofZ n -> ~ In (Expense.category e) JSObject.inherited ->
  tally (embed zo) e
  = embed (set_entry zo (Expense.category e)
             ((match entry zo (Expense.category e) with Some m => m | None => 0 end) + n)).
Proof.
  intros Hzo Hn Hb Ha Hc. unfold embed.
  pose proof (ztotal_nonneg zo Hzo) as H0.
  rewrite (tally_as_object _ e Hc), (entry_map ofZ), Ha.
  rewrite <- (set_entry_map ofZ). f_equal. f_equal.
  destruct (entry zo (Expense.category e)) as [m|] eqn:G; cbn [start].
  - destruct (entry_bound _ _ _ Hzo G) as [Hm0 Hm1].
    destruct (JSNumber.falsy (ofZ m)) eqn:F.
    + rewrite <- (falsy_ofZ m) by (assumption || lia). apply add_ofZ; lia.
    + apply add_ofZ; lia.
  - apply (add_ofZ 0 n); lia.
Qed.

Lemma tally_fold (n : Expense.t -> Z) (l : list Expense.t) (zo : ztotals) :
  whole n l -> Forall (fun p => 0 <= snd p) zo ->
  ztotal zo + zsum (map n l) < 2 ^ 53 ->
  exists zo',
    fold_left tally l (embed zo) = embed zo'
    /\ Forall (fun p => 0 <= snd p) zo'
    /\ ztotal zo' = ztotal zo + zsum (map n l).
Proof.
  revert zo. induction l as [|e l IH]; intros zo Hl Hzo Hb; simpl in *.
  - exists zo. repeat split; [exact Hzo|lia].
  - destruct (Hl e (or_introl eq_refl)) as (Hn & Ha & Hc).
    assert (Hl' : whole n l) by (intros e' He'; apply Hl; right; exact He').
    pose proof (zsum_nonneg n l Hl') as Hs.
    pose proof (ztotal_nonneg zo Hzo) as H0.
    rewrite (tally_embed zo e (n e)) by (assumption || lia).
    set (m := match entry zo (Expense.category e) with Some m => m | None => 0 end).
    assert (Hm : 0 <= m).
    { unfold m. destruct (entry zo (Expense.category e)) eqn:G; [|lia].
      apply (entry_bound _ _ _ Hzo G). }
    destruct (IH (set_entry zo (Expense.category e) (m + n e))) as (zo' & E & F & T).
    + exact Hl'.
    + apply (set_entry_Forall (fun x => 0 <= x)); [exact Hzo|lia].
    + rewrite ztotal_set_entry. fold m. lia.
    + exists zo'. split; [exact E|]. split; [exact F|].
      rewrite T, ztotal_set_entry. fold m. lia.
Qed.

Lemma spending_fold (n : Expense.t -> Z) (l : list Expense.t) (acc : Z) :
  whole n l -> 0 <= acc -> acc + zsum (map n l) < 2 ^ 53 ->
  fold_left (fun sum e => add sum (Expense.amount e)) l (ofZ acc)
  = ofZ (acc + zsum (map n l)).
Proof.
  revert acc. induction l as [|e l IH]; intros acc Hl Ha Hb; simpl in *.
  - rewrite Z.add_0_r. reflexivity.
  - destruct (Hl e (or_introl eq_refl)) as (Hn & He & _).
    assert (Hl' : whole n l) by (intros e' He'; apply Hl; right; exact He').
    pose proof (zsum_nonneg n l Hl') as Hs.
    rewrite He, add_ofZ by lia. rewrite IH by (assumption || lia).
    f_equal. lia.
Qed.

Lemma whole_filter (n : Expense.t -> Z) (f : Expense.t -> bool) (l : list Expense.t) :
  whole n l ->
  whole n (List.filter f l) /\ zsum (map n (List.filter f l)) <= zsum (map n l).
Proof.
  intros Hl. split.
  - intros e He. apply filter_In in He. apply Hl, He.
  - induction l as [|x l IH]; simpl; [lia|].
    assert (0 < n x) by (apply Hl; left; reflexivity).
    assert (zsum (map n (List.filter f l)) <= zsum (map n l))
      by (apply IH; intros y Hy; apply Hl; right; exact Hy).
    destruct (f x); simpl; lia.
Qed.

Lemma sum_values_whole (ms : list Z) (acc : Z) :
  Forall (fun m => 0 <= m) ms -> 0 <= acc -> acc + zsum ms < 2 ^ 53 ->
  fold_left JSObject.plus (map (fun m => JSObject.Num (ofZ m)) ms) (JSObject.Num (ofZ acc))
  = JSObject.Num (ofZ (acc + zsum ms)).
Proof.
  intros H. revert acc. induction H as [|m ms Hm Hms IH]; intros acc Ha Hb; simpl in *.
  - rewrite Z.add_0_r. reflexivity.
  - assert (0 <= zsum ms) by (clear -Hms; induction Hms; simpl; lia).
    rewrite add_ofZ by lia. rewrite IH by lia. do 2 f_equal. lia.
Qed.

Lemma zsum_perm (l l' : list Z) : Permutation l l' -> zsum l = zsum l'.
Proof. induction 1; simpl; lia. Qed.

(** C9, as stated, fails: with the amounts 0.1, 0.2 and 0.3, the first in
    one category and the other two in another, the total spending is
    (0.1 + 0.2) + 0.3 = 0.6000000000000001 while the category totals are 0.1
    and 0.2 + 0.3 = 0.5, whose sum is 0.6. *)
Lemma category_totals_differ_from_total :
  let s := showing "all"
             [ Expense.make 1 (parseFloat "0.1") "Food" None "2024-01-07";
               Expense.make 2 (parseFloat "0.2") "Books" None "2024-01-07";
               Expense.make 3 (parseFloat "0.3") "Books" None "2024-01-07" ] in
  getTotalSpending 0 0 s = parseFloat "0.6000000000000001"
  /\ getTotalsByCategory 0 0 s
     = [("Food", JSObject.Num (parseFloat "0.1"));
        ("Books", JSObject.Num (parseFloat "0.5"))]
  /\ sum_values (values (getTotalsByCategory 0 0 s)) = JSObject.Num (parseFloat "0.6")
  /\ sum_values (values (getTotalsByCategory 0 0 s))
     <> JSObject.Num (getTotalSpending 0 0 s).
Proof.
  intros s. split; [reflexivity|]. split; [reflexivity|]. split; [reflexivity|].
  vm_compute. discriminate.
Qed.

(** C9, amended. Take an expense list whose amounts are positive whole
    numbers with a total below 2^53 and whose categories are not names of
    inherited properties. Then, for every filter mode and every instant,
    the values of [getTotalsByCategory], summed from 0 in any order, give
    [getTotalSpending]. *)
Theorem category_totals_add_up (now tza : Z) (s : state) (n : Expense.t -> Z)
    (vs : list JSObject.value) :
  whole n (expenses s) ->
  zsum (map n (expenses s)) < 2 ^ 53 ->
  Permutation vs (values (getTotalsByCategory now tza s)) ->
  sum_values vs = JSObject.Num (getTotalSpending now tza s).
Proof.
  intros Hw Hb Hp.
  rewrite getTotalsByCategory_fold in Hp. unfold getTotalSpending.
  destruct (getFilteredExpenses_filter now tza s) as [f Hf]. rewrite Hf in *.
  destruct (whole_filter n f _ Hw) as [Hw' Hle].
  set (l := List.filter f (expenses s)) in *.
  destruct (tally_fold n l [] Hw' (Forall_nil _)) as (zo & E & F & T).
  { simpl. lia. }
  change (embed []) with JSObject.empty in E. rewrite E in Hp.
  unfold values, embed, as_object in Hp. rewrite !map_map in Hp. simpl in Hp.
  rewrite <- (map_map snd (fun m => JSObject.Num (ofZ m))) in Hp.
  apply Permutation_map_inv in Hp.
  destruct Hp as (ms & -> & Hms).
  assert (Fm : Forall (fun m => 0 <= m) ms).
  { apply (Permutation_Forall Hms). clear -F.
    induction F; simpl; constructor; auto. }
  unfold sum_values. change zero with (ofZ 0).
  rewrite sum_values_whole; [|exact Fm|lia|].
  - rewrite (spending_fold n l 0 Hw') by lia.
    do 2 f_equal. rewrite <- (zsum_perm _ _ Hms). exact T.
  - rewrite <- (zsum_perm _ _ Hms). unfold ztotal in T. simpl in T. lia.
Qed.

Lemma category_totals_add_up_witness :
  let s := showing "week" sample_rows in
  sum_values (values (getTotalsByCategory wednesday_3pm 0 s))
  = JSObject.Num (getTotalSpending wednesday_3pm 0 s).
Proof.
  intros s.
  apply (category_totals_add_up wednesday_3pm 0 s
           (fun e => if Expense.id e =? 1 then 10 else if Expense.id e =? 2 then 20 else 5)).
  - intros e He. simpl in He.
    repeat (destruct He as [<-|He];
            [split; [reflexivity|split; [reflexivity|]];
             simpl; intros K; repeat (destruct K as [K|K]; [discriminate|]); exact K|]).
    destruct He.
  - reflexivity.
  - apply Permutation_refl.
Defined.

(** The example of the specification: 10 and 5 spent on food and 20 on
    books give a total of 35, and the totals 15 for food and 20 for books. *)
Lemma totals_example :
  let s := showing "all"
             [ Expense.make 1 (ofZ 10) "Food" None "2024-01-07";
               Expense.make 2 (ofZ 5) "Food" None "2024-01-08";
               Expense.make 3 (ofZ 20) "Books" None "2024-01-09" ] in
  getTotalSpending 0 0 s = ofZ 35
  /\ getTotalsByCategory 0 0 s
     = [("Food", JSObject.Num (ofZ 15)); ("Books", JSObject.Num (ofZ 20))].
Proof. split; reflexivity. Qed.

(** C4. A category named like a property that every object inherits is not
    tallied: for "constructor" the total becomes a string (the inherited
    function, as text, followed by the amounts) and for "__proto__" there is
    no entry at all, while the total spending still counts both records. *)
Theorem inherited_category_breaks_totals :
  let s := showing "all"
             [ Expense.make 1 (ofZ 10) "constructor" None "2024-01-07";
               Expense.make 2 (ofZ 5) "__proto__" None "2024-01-08";
               Expense.make 3 (ofZ 20) "Books" None "2024-01-09" ] in
  getTotalSpending 0 0 s = ofZ 35
  /\ getTotalsByCategory 0 0 s
     = [("constructor", JSObject.Str); ("Books", JSObject.Num (ofZ 20))].
Proof. split; reflexivity. Qed.


(** * Further properties of the code *)

Import NumberPrototype.

(** ** Loading *)

Lemma insert_desc_perm (r : Expense.t) (l : list Expense.t) :
  Permutation (r :: l) (insert_desc r l).
Proof.
  induction l as [|x l IH]; simpl; [reflexivity|].
  destruct (Expense.id x <? Expense.id r); [reflexivity|].
  rewrite perm_swap. apply perm_skip, IH.
Qed.

Lemma order_by_id_desc_perm (l : list Expense.t) : Permutation l (order_by_id_desc l).
Proof.
  induction l as [|x l IH]; [reflexivity|].
  change (order_by_id_desc (x :: l)) with (insert_desc x (order_by_id_desc l)).
  rewrite <- insert_desc_perm. apply perm_skip, IH.
Qed.

Lemma insert_desc_sorted (r : Expense.t) (l : list Expense.t) :
  newest_first l -> newest_first (insert_desc r l).
Proof.
  unfold newest_first. induction 1 as [|x l Hl IH Hx]; simpl.
  - repeat constructor.
  - destruct (Z.ltb_spec (Expense.id x) (Expense.id r)) as [L|L].
    + constructor; [constructor; assumption|].
      constructor; [lia|].
      eapply Forall_impl; [|exact Hx]. simpl. intros; lia.
    + constructor; [exact IH|].
      apply (Permutation_Forall (insert_desc_perm r l)).
      constructor; assumption.
Qed.

Lemma order_by_id_desc_sorted (l : list Expense.t) : newest_first (order_by_id_desc l).
Proof.
  induction l as [|x l IH]; [constructor|].
  apply insert_desc_sorted, IH.
Qed.

(** X2. The first load of the screen, on a table that has the [id] column:
    the list in memory holds every stored row exactly once, and each record
    has an id at least as large as those listed after it. *)
Theorem first_load_lists_every_row_newest_first (s : state) (cols : list column) :
  table (db s) = Some cols -> has_column cols "id" = true ->
  let s' := snd (mount s) in
  Permutation (rows (db s)) (expenses s')
  /\ newest_first (expenses s')
  /\ db s' = db s.
Proof.
  intros Ht Hid s'.
  assert (E : expenses s' = order_by_id_desc (rows (db s)))
    by (apply reloaded_expenses, (select_all_ok _ _ Ht Hid)).
  rewrite E. split; [apply order_by_id_desc_perm|].
  split; [apply order_by_id_desc_sorted|]. apply reloaded_keeps.
Qed.

Lemma first_load_lists_every_row_newest_first_witness :
  map Expense.id (expenses (snd (mount (initial (ledger_with sample_rows))))) = [3; 2; 1]
  /\ newest_first (expenses (snd (mount (initial (ledger_with sample_rows))))).
Proof.
  split; [reflexivity|].
  apply (first_load_lists_every_row_newest_first
           (initial (ledger_with sample_rows)) ledger eq_refl eq_refl).
Defined.

(** ** Creating *)

Lemma order_by_id_desc_snoc (l : list Expense.t) (r : Expense.t) :
  (forall x, In x l -> Expense.id x < Expense.id r) ->
  order_by_id_desc (l ++ [r]) = r :: order_by_id_desc l.
Proof.
  induction l as [|x l IH]; intros H; [reflexivity|].
  change (order_by_id_desc ((x :: l) ++ [r]))
    with (insert_desc x (order_by_id_desc (l ++ [r]))).
  rewrite IH by (intros y Hy; apply H; right; exact Hy).
  simpl. destruct (Z.ltb_spec (Expense.id r) (Expense.id x)) as [L|L]; [|reflexivity].
  specialize (H x (or_introl eq_refl)). lia.
Qed.

Lemma run_keeps_table (q : statement) (d d' : database) (cols : list column) :
  table d = Some cols -> run q d = inr d' -> table d' = Some cols.
Proof.
  intros Ht. unfold run. rewrite Ht.
  destruct q; cbv iota beta;
    repeat match goal with
           | |- context [match ?x with Some _ => _ | None => _ end] => destruct x
           end;
    intros [= <-]; try discriminate; assumption || reflexivity.
Qed.

(** X3. A create that passes validation and is accepted, on a table that has
    the [id] column: the list in memory afterwards is the new record followed
    by the rows stored before, newest first; the new record holds the parsed
    amount, the trimmed category, the trimmed note or null, and the date
    [getToday] gave, under an id above every id stored before. *)
Theorem created_record_heads_the_list (now : Z) (s s' : state) (cols : list column) :
  table (db s) = Some cols -> has_column cols "id" = true ->
  editingId s = None -> valid s = true ->
  saveExpense now s = (Returned tt, s') ->
  exists id,
    expenses s'
    = Expense.make id (parseFloat (amount s)) (trim (category s))
        (if JSString.falsy (trim (note s)) then None else Some (trim (note s)))
        (getToday now)
      :: order_by_id_desc (rows (db s))
    /\ forall r, In r (rows (db s)) -> Expense.id r < id.
Proof.
  intros Ht Hid He Hv Hs.
  destruct (run (submitted now s) (db s)) as [e|d] eqn:Hr.
  { rewrite (saveExpense_rejected _ _ _ Hv Hr) in Hs. discriminate. }
  rewrite (saveExpense_accepted _ _ _ Hv Hr) in Hs. injection Hs as <-.
  set (s1 := cleared (called (RunAsync (submitted now s)) d s)).
  assert (D1 : db s1 = d) by reflexivity.
  pose proof (run_keeps_table _ _ _ _ Ht Hr) as Ht'.
  unfold submitted in Hr. rewrite He in Hr.
  destruct (run_insert_inv _ _ _ _ _ _ Hr) as (id & Hrows & Hid').
  exists id. split; [|exact Hid'].
  rewrite (reloaded_expenses s1 (order_by_id_desc (rows d))).
  - rewrite Hrows. apply order_by_id_desc_snoc. exact Hid'.
  - rewrite D1. apply (select_all_ok _ _ Ht' Hid).
Qed.

Lemma created_record_heads_the_list_witness :
  let s := typed "7.25" " Snacks " "" (initial (ledger_with sample_rows)) in
  exists id,
    expenses (snd (saveExpense sunday_3pm s))
    = Expense.make id (parseFloat "7.25") "Snacks" None "2024-01-07"
      :: order_by_id_desc sample_rows
    /\ forall r, In r sample_rows -> Expense.id r < id.
Proof.
  intros s.
  exact (created_record_heads_the_list sunday_3pm s (snd (saveExpense sunday_3pm s))
           ledger eq_refl eq_refl eq_refl eq_refl eq_refl).
Defined.

(** ** Ids *)

Lemma ids_set_fields a c n i (l : list Expense.t) :
  ids (map (set_fields a c n i) l) = ids l.
Proof.
  unfold ids. rewrite map_map. apply map_ext. intros r. apply set_fields_id.
Qed.

Lemma NoDup_ids_filter (f : Expense.t -> bool) (l : list Expense.t) :
  NoDup (ids l) -> NoDup (ids (List.filter f l)).
Proof.
  unfold ids. induction l as [|x l IH]; simpl; intros H; [constructor|].
  inversion H as [|? ? Hx Hl]; subst.
  destruct (f x); simpl; [|auto].
  constructor; [|auto].
  intros K. apply Hx. apply in_map_iff in K. destruct K as (y & Ey & Hy).
  apply filter_In in Hy. apply in_map_iff. exists y. tauto.
Qed.

Lemma max_id_bound (l : list Expense.t) (r : Expense.t) :
  In r l -> Expense.id r <= max_id l.
Proof.
  induction l as [|x l IH]; simpl; [contradiction|].
  intros [->|H]; [lia|]. specialize (IH H). lia.
Qed.

(** What an accepted statement does to the rows and to the counter. *)
Lemma run_cases (q : statement) (d d' : database) :
  run q d = inr d' ->
  (rows d' = rows d /\ sequence d' = sequence d)
  \/ (exists a c n t,
        rows d' = rows d ++ [Expense.make (sequence d') a c n t]
        /\ sequence d' = Z.max (sequence d) (max_id (rows d)) + 1)
  \/ (exists a c n i,
        rows d' = map (set_fields a c n i) (rows d) /\ sequence d' = sequence d)
  \/ (exists i,
        rows d' = List.filter (fun r => negb (Expense.id r =? i)) (rows d)
        /\ sequence d' = sequence d).
Proof.
  unfold run. destruct q as [cols'|a c n t|a c n i|i]; destruct (table d) as [cols|];
    try discriminate.
  - intros [= <-]. left. split; reflexivity.
  - intros [= <-]. left. split; reflexivity.
  - destruct (missing cols _); [discriminate|].
    match goal with |- context [match ?x with Some _ => _ | None => _ end] =>
      destruct x; [discriminate|] end.
    intros [= <-]. right. left. exists a, c, n, t. split; reflexivity.
  - destruct (missing cols _); [discriminate|].
    match goal with |- context [match ?x with Some _ => _ | None => _ end] =>
      destruct x; [discriminate|] end.
    intros [= <-]. right. right. left. exists a, c, n, i. split; reflexivity.
  - destruct (missing cols _); [discriminate|].
    intros [= <-]. right. right. right. exists i. split; reflexivity.
Qed.

Lemma run_keyed (q : statement) (d d' : database) :
  keyed d -> run q d = inr d' -> keyed d'.
Proof.
  intros [Hn Hs] Hr. unfold keyed.
  destruct (run_cases q d d' Hr)
    as [[-> ->]|[(a & c & n & t & -> & Hq)|[(a & c & n & i & -> & ->)|(i & -> & ->)]]].
  - split; assumption.
  - split.
    + unfold ids. rewrite map_app. simpl.
      apply (Permutation_NoDup (l := sequence d' :: map Expense.id (rows d))).
      { apply Permutation_cons_append. }
      constructor; [|exact Hn].
      intros K. apply in_map_iff in K. destruct K as (r & Er & Hin).
      specialize (Hs r Hin). lia.
    + intros r H. apply in_app_iff in H. destruct H as [H|[<-|[]]].
      * specialize (Hs r H). lia.
      * simpl. lia.
  - rewrite ids_set_fields. split; [exact Hn|].
    intros r H. apply in_map_iff in H. destruct H as (r0 & <- & H0).
    rewrite set_fields_id. apply Hs, H0.
  - split; [apply NoDup_ids_filter, Hn|].
    intros r H. apply filter_In in H. apply Hs, H.
Qed.

(** X4. Whatever statement the store accepts, ids stay distinct and at or
    below the counter, the counter never goes down, and every row afterwards
    carries an id that a row had before or an id above the old counter: the
    id of a deleted row is never handed out again. *)
Theorem ids_stay_distinct_and_are_never_reused (q : statement) (d d' : database) :
  keyed d -> run q d = inr d' ->
  keyed d'
  /\ sequence d <= sequence d'
  /\ forall r, In r (rows d') ->
       In (Expense.id r) (ids (rows d)) \/ sequence d < Expense.id r.
Proof.
  intros Hk Hr. split; [exact (run_keyed q d d' Hk Hr)|].
  destruct (run_cases q d d' Hr)
    as [[-> ->]|[(a & c & n & t & -> & Hq)|[(a & c & n & i & -> & ->)|(i & -> & ->)]]].
  - split; [lia|]. intros r H. left. apply in_map, H.
  - split; [lia|]. intros r H. apply in_app_iff in H. destruct H as [H|[<-|[]]].
    + left. apply in_map, H.
    + right. simpl. lia.
  - split; [lia|]. intros r H. left. apply in_map_iff in H.
    destruct H as (r0 & <- & H0). rewrite set_fields_id. apply in_map, H0.
  - split; [lia|]. intros r H. left. apply filter_In in H. apply in_map, H.
Qed.

Lemma ids_stay_distinct_and_are_never_reused_witness :
  let d := {| table := Some ledger;
              rows := [Expense.make 1 (ofZ 10) "Food" None "2024-01-07"];
              sequence := 3 |} in
  exists d',
    run (Insert (ofZ 5) "Books" None "2024-01-08") d = inr d'
    /\ keyed d'
    /\ forall r, In r (rows d') -> In (Expense.id r) [1] \/ 3 < Expense.id r.
Proof.
  intros d. eexists. split; [reflexivity|].
  refine ((fun H => conj (proj1 H) (proj2 (proj2 H)))
            (ids_stay_distinct_and_are_never_reused
               (Insert (ofZ 5) "Books" None "2024-01-08") d _ _ eq_refl)).
  split.
  - repeat constructor. simpl. tauto.
  - intros r [<-|[]]. simpl. lia.
Defined.

(** ** Submitting twice, and submits the store rejects *)

Lemma reloaded_form (s : state) : same_form s (reloaded s).
Proof.
  unfold same_form, reloaded, loadExpenses, bind, getAllAsync.
  destruct (select_all (db s)); repeat split.
Qed.

Lemma empty_form_invalid (s : state) : amount s = "" -> valid s = false.
Proof. unfold valid, parses_positive. intros ->. reflexivity. Qed.

(** X5. After a submit that passed validation and was accepted the form is
    empty and out of edit mode, and a second submit straight after it returns
    without a call: the record is not stored twice. *)
Theorem accepted_submit_clears_the_form (now now' : Z) (s s' : state) :
  valid s = true -> saveExpense now s = (Returned tt, s') ->
  amount s' = "" /\ category s' = "" /\ note s' = "" /\ editingId s' = None
  /\ saveExpense now' s' = (Returned tt, s').
Proof.
  intros Hv Hs.
  destruct (run (submitted now s) (db s)) as [e|d] eqn:Hr.
  { rewrite (saveExpense_rejected _ _ _ Hv Hr) in Hs. discriminate. }
  rewrite (saveExpense_accepted _ _ _ Hv Hr) in Hs. injection Hs as <-.
  destruct (reloaded_form (cleared (called (RunAsync (submitted now s)) d s)))
    as (Ha & Hc & Hn & He).
  rewrite He, Hn, Hc. repeat (split; [assumption || reflexivity|]).
  apply saveExpense_invalid, empty_form_invalid. exact Ha.
Qed.

Lemma accepted_submit_clears_the_form_witness :
  let s := typed "12.5" "Food" "lunch" (initial (ledger_with [])) in
  let s' := snd (saveExpense sunday_3pm s) in
  amount s' = "" /\ category s' = "" /\ note s' = "" /\ editingId s' = None
  /\ saveExpense wednesday_3pm s' = (Returned tt, s').
Proof.
  intros s s'.
  exact (accepted_submit_clears_the_form sunday_3pm wednesday_3pm s s' eq_refl eq_refl).
Defined.

(** X6. A submit the store rejects leaves everything but the log of calls as
    it was: the form keeps its content and its target id, the list in memory
    and the filter mode are unchanged, and the rejected statement is the only
    call made (no reload is started). *)
Theorem rejected_submit_keeps_form_and_list (now : Z) (s s' : state) (e : error) :
  saveExpense now s = (Rejected e, s') ->
  same_form s s'
  /\ expenses s' = expenses s /\ filter s' = filter s /\ db s' = db s
  /\ calls s' = calls s ++ [RunAsync (submitted now s)].
Proof.
  intros Hs. destruct (valid s) eqn:Hv.
  - destruct (run (submitted now s) (db s)) as [e'|d] eqn:Hr.
    + rewrite (saveExpense_rejected _ _ _ Hv Hr) in Hs. injection Hs as _ <-.
      repeat split.
    + rewrite (saveExpense_accepted _ _ _ Hv Hr) in Hs. discriminate.
  - rewrite (saveExpense_invalid _ _ Hv) in Hs. discriminate.
Qed.

Lemma rejected_submit_keeps_form_and_list_witness :
  let s := typed "12.5" "Food" "lunch" (initial fresh) in
  let s' := snd (saveExpense sunday_3pm s) in
  same_form s s' /\ expenses s' = [] /\ filter s' = "all" /\ db s' = fresh
  /\ calls s' = [RunAsync (Insert (parseFloat "12.5") "Food" (Some "lunch") "2024-01-07")].
Proof.
  intros s s'.
  exact (rejected_submit_keeps_form_and_list sunday_3pm s s' NoSuchTable eq_refl).
Defined.

(** ** The table of [App.js] *)

(** X7. On the table [onInit] creates, every submit that passes validation
    is rejected for the missing column [category], whatever the form holds
    and whether or not a target id is set; a submit, a delete and the first
    load all leave the store as [onInit] made it, without a row, and the list
    in memory empty. *)
Theorem shipped_table_never_holds_a_record (now id : Z) (s : state) :
  App.onInit fresh = inr (db s) ->
  (valid s = true -> fst (saveExpense now s) = Rejected (NoSuchColumn "category"))
  /\ db (snd (saveExpense now s)) = db s
  /\ db (snd (deleteExpense id s)) = db s
  /\ rows (db s) = []
  /\ expenses (snd (mount s)) = [].
Proof.
  intros H. injection H as H.
  assert (Hr : run (submitted now s) (db s) = inl (NoSuchColumn "category")).
  { rewrite <- H. unfold submitted. destruct (editingId s); reflexivity. }
  assert (Hd : run (Delete id) (db s) = inr (db s)) by (rewrite <- H; reflexivity).
  split; [|split; [|split; [|split]]].
  - intros Hv. rewrite (saveExpense_rejected _ _ _ Hv Hr). reflexivity.
  - destruct (valid s) eqn:Hv.
    + rewrite (saveExpense_rejected _ _ _ Hv Hr). reflexivity.
    + rewrite (saveExpense_invalid _ _ Hv). reflexivity.
  - rewrite (deleteExpense_accepted _ _ _ Hd). cbn [snd].
    rewrite (proj1 (reloaded_keeps _)). reflexivity.
  - rewrite <- H. reflexivity.
  - apply reloaded_expenses. rewrite <- H. reflexivity.
Qed.

Lemma shipped_table_never_holds_a_record_witness :
  let s := editing 3 "7.25" "Snacks" "" (initial {| table := Some App.schema; rows := []; sequence := 0 |}) in
  fst (saveExpense sunday_3pm s) = Rejected (NoSuchColumn "category")
  /\ db (snd (deleteExpense 3 s)) = db s.
Proof.
  intros s.
  destruct (shipped_table_never_holds_a_record sunday_3pm 3 s eq_refl)
    as (H1 & _ & H3 & _).
  split; [exact (H1 eq_refl)|exact H3].
Defined.

(** ** Edits whose record is gone *)

Lemma map_id_in {A} (f : A -> A) (l : list A) :
  (forall x, In x l -> f x = x) -> map f l = l.
Proof.
  induction l as [|x l IH]; simpl; intros H; [reflexivity|].
  rewrite (H x (or_introl eq_refl)), IH; auto.
Qed.

Lemma existsb_id_absent (i : Z) (l : list Expense.t) :
  (forall r, In r l -> Expense.id r <> i) ->
  existsb (fun r => Expense.id r =? i) l = false.
Proof.
  intros H. destruct (existsb _ l) eqn:E; [|reflexivity].
  apply existsb_exists in E. destruct E as (r & Hr & Er).
  apply Z.eqb_eq in Er. destruct (H r Hr Er).
Qed.

Lemma run_update_absent a c n i (d : database) (cols : list column) :
  table d = Some cols -> missing cols ["amount"; "category"; "note"; "id"] = None ->
  (forall r, In r (rows d) -> Expense.id r <> i) ->
  run (Update a c n i) d
  = inr {| table := Some cols; rows := rows d; sequence := sequence d |}.
Proof.
  intros Ht Hm Hi. unfold run. rewrite Ht. cbv iota beta. rewrite Hm.
  rewrite (existsb_id_absent _ _ Hi). do 2 f_equal.
  apply map_id_in. intros r Hr. unfold set_fields.
  destruct (Z.eqb_spec (Expense.id r) i) as [E|_]; [destruct (Hi r Hr E)|reflexivity].
Qed.

(** X8. A submit in edit mode whose target id no row carries is accepted by
    the store all the same: no row changes and none is added, the form is
    cleared and the list reloaded, and nothing tells the two cases apart. *)
Theorem edit_of_a_missing_record_changes_no_row (now i : Z) (s : state)
    (cols : list column) :
  table (db s) = Some cols ->
  missing cols ["amount"; "category"; "note"; "id"] = None ->
  editingId s = Some i -> valid s = true ->
  (forall r, In r (rows (db s)) -> Expense.id r <> i) ->
  let s' := snd (saveExpense now s) in
  fst (saveExpense now s) = Returned tt
  /\ rows (db s') = rows (db s)
  /\ expenses s' = order_by_id_desc (rows (db s))
  /\ editingId s' = None.
Proof.
  intros Ht Hm He Hv Hi s'.
  assert (Hq : submitted now s
               = Update (parseFloat (amount s)) (trim (category s))
                   (if JSString.falsy (trim (note s)) then None else Some (trim (note s))) i)
    by (unfold submitted; rewrite He; reflexivity).
  pose proof (run_update_absent (parseFloat (amount s)) (trim (category s))
                (if JSString.falsy (trim (note s)) then None else Some (trim (note s)))
                i (db s) cols Ht Hm Hi) as Hr.
  rewrite <- Hq in Hr. unfold s'. rewrite (saveExpense_accepted _ _ _ Hv Hr).
  cbn [fst snd].
  match goal with |- context [reloaded ?x] => set (s1 := x) end.
  destruct (reloaded_keeps s1) as (Hd & _).
  destruct (reloaded_form s1) as (_ & _ & _ & Hed).
  rewrite Hd, Hed.
  split; [reflexivity|]. split; [reflexivity|]. split; [|reflexivity].
  apply reloaded_expenses.
  change (rows (db s)) with (rows (db s1)).
  apply (select_all_ok _ cols); [reflexivity|].
  apply (missing_has _ _ _ Hm). simpl. tauto.
Qed.

Lemma edit_of_a_missing_record_changes_no_row_witness :
  let s := editing 7 "7.25" "Snacks" "" (initial (ledger_with sample_rows)) in
  fst (saveExpense sunday_3pm s) = Returned tt
  /\ rows (db (snd (saveExpense sunday_3pm s))) = sample_rows.
Proof.
  intros s.
  refine ((fun H => conj (proj1 H) (proj1 (proj2 H)))
            (edit_of_a_missing_record_changes_no_row sunday_3pm 7 s ledger
               eq_refl eq_refl eq_refl eq_refl _)).
  intros r Hr. repeat (destruct Hr as [<-|Hr]; [simpl; lia|]). destruct Hr.
Defined.

(** X9. Deleting the record that is being edited does not leave edit mode:
    the form keeps its content and its target id. The submit that follows is
    accepted, changes no row (the record stays deleted and nothing is stored
    in its place) and only then clears the form. *)
Theorem delete_while_editing_keeps_the_edit (now i : Z) (s : state)
    (cols : list column) :
  table (db s) = Some cols ->
  missing cols ["amount"; "category"; "note"; "id"] = None ->
  editingId s = Some i -> valid s = true ->
  let s1 := snd (deleteExpense i s) in
  let s2 := snd (saveExpense now s1) in
  same_form s s1
  /\ fst (saveExpense now s1) = Returned tt
  /\ rows (db s2) = rows (db s1)
  /\ (forall r, In r (rows (db s2)) -> Expense.id r <> i)
  /\ editingId s2 = None.
Proof.
  intros Ht Hm He Hv s1 s2.
  assert (Hid : has_column cols "id" = true)
    by (apply (missing_has _ _ _ Hm); simpl; tauto).
  pose proof (run_delete i (db s) cols Ht Hid) as Hr.
  assert (E1 : s1 = reloaded (called (RunAsync (Delete i)) _ s))
    by (unfold s1; rewrite (deleteExpense_accepted _ _ _ Hr); reflexivity).
  assert (F1 : same_form s s1)
    by (rewrite E1; exact (reloaded_form (called (RunAsync (Delete i)) _ s))).
  assert (D1 : db s1 = {| table := Some cols;
                          rows := List.filter (fun r => negb (Expense.id r =? i)) (rows (db s));
                          sequence := sequence (db s) |})
    by (rewrite E1; exact (proj1 (reloaded_keeps (called (RunAsync (Delete i)) _ s)))).
  assert (Hi : forall r, In r (rows (db s1)) -> Expense.id r <> i).
  { rewrite D1. simpl. intros r Hin. apply filter_In in Hin.
    destruct Hin as [_ Hin]. apply negb_true_iff, Z.eqb_neq in Hin. exact Hin. }
  destruct F1 as (Ha & Hc & Hn & Hed).
  assert (Hv1 : valid s1 = true) by (unfold valid in *; rewrite Ha, Hc; exact Hv).
  assert (Ht1 : table (db s1) = Some cols) by (rewrite D1; reflexivity).
  assert (Hq : submitted now s1
               = Update (parseFloat (amount s1)) (trim (category s1))
                   (if JSString.falsy (trim (note s1)) then None else Some (trim (note s1))) i)
    by (unfold submitted; rewrite Hed, He; reflexivity).
  pose proof (run_update_absent (parseFloat (amount s1)) (trim (category s1))
                (if JSString.falsy (trim (note s1)) then None else Some (trim (note s1)))
                i (db s1) cols Ht1 Hm Hi) as Hu.
  rewrite <- Hq in Hu. unfold s2. rewrite (saveExpense_accepted _ _ _ Hv1 Hu).
  cbn [fst snd].
  match goal with |- context [reloaded ?x] => set (s3 := x) end.
  rewrite (proj1 (reloaded_keeps s3)).
  destruct (reloaded_form s3) as (_ & _ & _ & ->).
  split; [repeat split; assumption|].
  split; [reflexivity|]. split; [reflexivity|]. split; [exact Hi|reflexivity].
Qed.

Lemma delete_while_editing_keeps_the_edit_witness :
  let s := editing 2 "7.25" "Snacks" "" (initial (ledger_with sample_rows)) in
  let s1 := snd (deleteExpense 2 s) in
  let s2 := snd (saveExpense sunday_3pm s1) in
  editingId s1 = Some 2 /\ map Expense.id (rows (db s2)) = [1; 3] /\ editingId s2 = None.
Proof.
  intros s s1 s2.
  destruct (delete_while_editing_keeps_the_edit sunday_3pm 2 s ledger
              eq_refl eq_refl eq_refl eq_refl) as ((_ & _ & _ & H1) & _ & _ & _ & H5).
  split; [exact H1|]. split; [reflexivity|exact H5].
Defined.

(** ** The date [getToday] writes *)

Lemma isoDate_Day (a b : Z) : Day a = Day b -> isoDate a = isoDate b.
Proof.
  intros H.
  unfold isoDate, DateFromTime, MonthFromTime, InLeapYear, DayWithinYear, YearFromTime.
  rewrite H. reflexivity.
Qed.

(** X10. The date [getToday] writes at an instant within the range of [Date]
    is read back by [new Date] as midnight UTC of the same day: the instant
    itself less its time of day. That is never later than the instant, so a
    record dated by [getToday] passes the upper bound of the week and month
    filters of a render at the same instant, on any host. *)
Theorem today_reads_back_as_utc_midnight (now : Z) (e : Expense.t) :
  Z.abs now <= 8640000000000000 ->
  Expense.date e = getToday now ->
  parse (Expense.date e) = Some (now - TimeWithinDay now)
  /\ 0 <= TimeWithinDay now < msPerDay
  /\ JSDate.leb (parse (Expense.date e)) (today now) = true.
Proof.
  intros Hn ->. unfold getToday. rewrite parse_isoDate by exact Hn.
  pose proof (Day_decompose now) as D. pose proof (TimeWithinDay_range now) as R.
  replace (Day now * msPerDay) with (now - TimeWithinDay now) by lia.
  split; [reflexivity|]. split; [exact R|].
  unfold JSDate.leb, today. apply Z.leb_le. lia.
Qed.

Lemma today_reads_back_as_utc_midnight_witness :
  parse "2024-01-07" = Some (sunday_3pm - 54000000)
  /\ JSDate.leb (parse "2024-01-07") (today sunday_3pm) = true.
Proof.
  refine ((fun H => conj (proj1 H) (proj2 (proj2 H)))
            (today_reads_back_as_utc_midnight sunday_3pm
               (Expense.make 1 (ofZ 10) "Food" None "2024-01-07") _ eq_refl)).
  vm_compute. discriminate.
Defined.

(** X11. The date [getToday] writes is the local calendar date exactly when
    the UTC day and the local day coincide, that is when the local time of
    day less the offset of the zone stays within the day. On a host behind
    UTC the date written during the last hours of the local day is the next
    day's; ahead of UTC, during the first hours, the previous day's. *)
Theorem stored_date_is_the_local_date_iff (now tza : Z) :
  Z.abs now <= 8640000000000000 ->
  Z.abs (LocalTime tza now) <= 8640000000000000 ->
  getToday now = localDate tza now
  <-> 0 <= TimeWithinDay (LocalTime tza now) - tza < msPerDay.
Proof.
  intros Hn Hl. unfold getToday, localDate.
  pose proof (Day_decompose (LocalTime tza now)) as D.
  pose proof (TimeWithinDay_range (LocalTime tza now)) as R.
  pose proof (Day_decompose now) as D'.
  pose proof (TimeWithinDay_range now) as R'.
  assert (L : LocalTime tza now = now + tza) by reflexivity.
  split.
  - intros H. apply (f_equal parse) in H.
    rewrite !parse_isoDate in H by assumption.
    injection H as H. unfold msPerDay in *. lia.
  - intros H. apply isoDate_Day. unfold msPerDay in *. nia.
Qed.

Lemma stored_date_is_the_local_date_iff_witness :
  getToday 1704675600000 <> localDate (-18000000) 1704675600000
  /\ getToday sunday_3pm = localDate (-18000000) sunday_3pm.
Proof.
  split.
  - intros H.
    apply (proj1 (stored_date_is_the_local_date_iff 1704675600000 (-18000000)
                    ltac:(vm_compute; discriminate) ltac:(vm_compute; discriminate))) in H.
    vm_compute in H. destruct H as [_ H]. discriminate H.
  - apply (proj2 (stored_date_is_the_local_date_iff sunday_3pm (-18000000)
                    ltac:(vm_compute; discriminate) ltac:(vm_compute; discriminate))).
    vm_compute. split; [discriminate|reflexivity].
Defined.

(** ** The week and month filters, exactly *)









(** ** More on the two aggregates *)

Lemma keys_put (o : JSObject.t) (k : string) (v : JSObject.value) (c : string) :
  In c (keys (JSObject.put o k v)) <-> In c (keys o) \/ c = k.
Proof.
  unfold keys. induction o as [|p o IH]; simpl.
  - intuition.
  - destruct (String.eqb_spec (fst p) k) as [E|E]; simpl.
    + subst k. intuition.
    + rewrite IH. intuition.
Qed.

Lemma keys_set (o : JSObject.t) (k : string) (v : JSObject.value) (c : string) :
  In c (keys (JSObject.set o k v)) <-> In c (keys o) \/ (c = k /\ k <> "__proto__").
Proof.
  unfold JSObject.set. destruct (String.eqb_spec k "__proto__") as [E|E].
  - intuition.
  - rewrite keys_put. intuition.
Qed.

Lemma keys_tally (o : JSObject.t) (e : Expense.t) (c : string) :
  In c (keys (tally o e))
  <-> In c (keys o) \/ (c = Expense.category e /\ c <> "__proto__").
Proof.
  unfold tally. rewrite keys_set.
  destruct (JSObject.not (JSObject.get o (Expense.category e)));
    rewrite ?keys_set; intuition (subst; auto).
Qed.

Lemma keys_fold_tally (l : list Expense.t) (o : JSObject.t) (c : string) :
  In c (keys (fold_left tally l o))
  <-> In c (keys o) \/ (occurs c l = true /\ c <> "__proto__").
Proof.
  revert o. induction l as [|e l IH]; intros o; simpl.
  - unfold occurs. simpl. intuition discriminate.
  - rewrite IH, keys_tally. unfold occurs. simpl.
    rewrite orb_true_iff. fold (occurs c l).
    destruct (String.eqb_spec (Expense.category e) c) as [E|E].
    + subst c. intuition.
    + intuition; try discriminate; try (subst c; contradiction).
Qed.

Lemma totals_of_positive_amounts_witness :
  JSObject.own (getTotalsByCategory 0 0 (showing "all" sample_rows)) "Food"
  = Some (JSObject.Num (ofZ 15))
  /\ JSObject.own (getTotalsByCategory 0 0 (showing "all" sample_rows)) "Rent" = None.
Proof.
  assert (H : forall e, In e (expenses (showing "all" sample_rows)) ->
              SpecFloat.valid_binary prec emax (Expense.amount e) = true
              /\ JSNumber.ltb zero (Expense.amount e) = true
              /\ ~ In (Expense.category e) JSObject.inherited).
  { intros e He. vm_compute in He.
    repeat (destruct He as [<-|He];
            [split; [reflexivity|split; [reflexivity|]];
             simpl; intros K; repeat (destruct K as [K|K]; [discriminate|]); exact K|]).
    destruct He. }
  split.
  - exact (totals_of_positive_amounts 0 0 (showing "all" sample_rows) "Food" H).
  - exact (totals_of_positive_amounts 0 0 (showing "all" sample_rows) "Rent" H).
Defined.

(** X14. Whatever the amounts and categories of the records, the categories
    under which [getTotalsByCategory] holds a total are exactly the
    categories of the records of the filtered view, except ["__proto__"],
    which never gets a total. *)
Theorem totals_list_the_categories_of_the_view (now tza : Z) (s : state) (c : string) :
  In c (keys (getTotalsByCategory now tza s))
  <-> occurs c (getFilteredExpenses now tza s) = true /\ c <> "__proto__".
Proof.
  rewrite getTotalsByCategory_fold, keys_fold_tally. simpl. intuition.
Qed.

Lemma spending_whole (n : Expense.t -> Z) (l : list Expense.t) (acc : Z) :
  whole_amounts n l -> 0 <= acc -> acc + zsum (map n l) < 2 ^ 53 ->
  fold_left (fun sum e => add sum (Expense.amount e)) l (ofZ acc)
  = ofZ (acc + zsum (map n l)).
Proof.
  revert acc. induction l as [|e l IH]; intros acc Hl Ha Hb; simpl in *.
  - rewrite Z.add_0_r. reflexivity.
  - destruct (Hl e (or_introl eq_refl)) as (Hn & He).
    assert (Hl' : whole_amounts n l) by (intros e' He'; apply Hl; right; exact He').
    assert (Hs : 0 <= zsum (map n l)).
    { clear -Hl'. induction l as [|x l IH]; simpl; [lia|].
      assert (0 <= n x) by (apply Hl'; left; reflexivity).
      assert (0 <= zsum (map n l)) by (apply IH; intros y Hy; apply Hl'; right; exact Hy).
      lia. }
    rewrite He, add_ofZ by lia. rewrite IH by (assumption || lia).
    f_equal. lia.
Qed.

(** X15. When the amounts of the filtered view are whole numbers, none
    negative, that add up to less than 2^53, [getTotalSpending] is their sum
    exactly: no rounding takes place, in any filter mode. *)
Theorem total_of_whole_amounts_is_exact (now tza : Z) (s : state) (n : Expense.t -> Z) :
  let view := getFilteredExpenses now tza s in
  whole_amounts n view -> zsum (map n view) < 2 ^ 53 ->
  getTotalSpending now tza s = ofZ (zsum (map n view)).
Proof.
  intros view Hw Hb. unfold getTotalSpending. fold view.
  change zero with (ofZ 0). rewrite (spending_whole n view 0 Hw); [reflexivity|lia|lia].
Qed.

Lemma total_of_whole_amounts_is_exact_witness :
  getTotalSpending wednesday_3pm 0 (showing "week" sample_rows) = ofZ 25.
Proof.
  apply (total_of_whole_amounts_is_exact wednesday_3pm 0 (showing "week" sample_rows)
           (fun e => if Expense.id e =? 2 then 20 else 5)).
  - intros e He. vm_compute in He.
    repeat (destruct He as [<-|He]; [split; [simpl; lia|reflexivity]|]). destruct He.
  - reflexivity.
Defined.

(** ** [trim] *)

Lemma append_assoc (a b c : string) : ((a ++ b) ++ c = a ++ (b ++ c))%string.
Proof. induction a as [|x a IH]; simpl; [reflexivity|]. rewrite IH. reflexivity. Qed.

Lemma rev_onto_app (s acc : string) : rev_onto s acc = (JSString.rev s ++ acc)%string.
Proof.
  unfold JSString.rev. revert acc. induction s as [|c s IH]; intros acc; simpl.
  - reflexivity.
  - rewrite IH, (IH (String c "")), append_assoc. reflexivity.
Qed.

Lemma rev_cons (c : ascii) (s : string) :
  JSString.rev (String c s) = (JSString.rev s ++ String c "")%string.
Proof. unfold JSString.rev at 1. simpl. apply rev_onto_app. Qed.

Lemma rev_snoc (s : string) (c : ascii) :
  JSString.rev (s ++ String c "") = String c (JSString.rev s).
Proof.
  induction s as [|x s IH]; [reflexivity|].
  simpl append. rewrite !rev_cons, IH. reflexivity.
Qed.

Lemma rev_rev (s : string) : JSString.rev (JSString.rev s) = s.
Proof.
  induction s as [|c s IH]; [reflexivity|].
  rewrite rev_cons, rev_snoc, IH. reflexivity.
Qed.

Lemma trimStart_idem (s : string) : trimStart (trimStart s) = trimStart s.
Proof.
  induction s as [|c s IH]; simpl; [reflexivity|].
  destruct (is_space c) eqn:E; [exact IH|]. simpl. rewrite E. reflexivity.
Qed.

Lemma trimStart_app (x y : string) (c : ascii) :
  is_space c = false ->
  trimStart (x ++ String c y) = (trimStart x ++ String c y)%string.
Proof.
  intros H. induction x as [|a x IH]; simpl.
  - rewrite H. reflexivity.
  - destruct (is_space a); [exact IH|reflexivity].
Qed.

Lemma trimEnd_idem (s : string) : trimEnd (trimEnd s) = trimEnd s.
Proof. unfold trimEnd. rewrite rev_rev, trimStart_idem. reflexivity. Qed.

Lemma trimEnd_cons (c : ascii) (t : string) :
  is_space c = false -> trimEnd (String c t) = String c (trimEnd t).
Proof.
  intros Hc. unfold trimEnd. rewrite rev_cons, trimStart_app by exact Hc.
  apply rev_snoc.
Qed.

(** [trim] by its first character: nothing is left of a blank string, and
    otherwise the first character that is not white space stays, followed by
    the rest without its white space at the end. *)
Lemma trim_cases (s : string) :
  trim s = ""
  \/ exists c r, is_space c = false /\ trim s = String c (trimEnd r).
Proof.
  unfold trim. induction s as [|c s IH]; simpl; [left; reflexivity|].
  destruct (is_space c) eqn:E; [exact IH|].
  right. exists c, s. split; [exact E|]. apply trimEnd_cons, E.
Qed.

Lemma trim_idem (s : string) : trim (trim s) = trim s.
Proof.
  destruct (trim_cases s) as [->|(c & r & Hc & ->)]; [reflexivity|].
  unfold trim. simpl trimStart. rewrite Hc, trimEnd_cons, trimEnd_idem by exact Hc.
  reflexivity.
Qed.

Lemma truthy_trimmed (s : string) : JSString.falsy (trim s) = false -> trimmed (trim s).
Proof.
  intros H. split; [|apply trim_idem].
  intros E. rewrite E in H. discriminate.
Qed.

(** ** What the screen stores *)

Lemma submitted_tidy (now : Z) (s : state) (i : Z) :
  valid s = true -> Z.abs now <= 8640000000000000 ->
  tidy (Expense.make i (parseFloat (amount s)) (trim (category s))
          (if JSString.falsy (trim (note s)) then None else Some (trim (note s)))
          (getToday now)).
Proof.
  unfold valid, parses_positive. intros Hv Hn.
  apply andb_true_iff in Hv. destruct Hv as [Ha Hc]. apply negb_true_iff in Hc.
  split; [exact Ha|]. split; [apply truthy_trimmed, Hc|]. split.
  - simpl. destruct (JSString.falsy (trim (note s))) eqn:E; [exact I|].
    apply truthy_trimmed, E.
  - exists now. split; [exact Hn|reflexivity].
Qed.

Lemma set_fields_tidy (now : Z) (s : state) (i : Z) (r : Expense.t) :
  valid s = true -> tidy r ->
  tidy (set_fields (parseFloat (amount s)) (trim (category s))
          (if JSString.falsy (trim (note s)) then None else Some (trim (note s))) i r).
Proof.
  intros Hv Hr. unfold set_fields. destruct (Expense.id r =? i); [|exact Hr].
  destruct (submitted_tidy 0 s (Expense.id r) Hv ltac:(simpl; lia)) as (A & B & C & _).
  destruct Hr as (_ & _ & _ & D).
  split; [exact A|]. split; [exact B|]. split; [exact C|exact D].
Qed.

Lemma run_submitted_tidy (now : Z) (s : state) (d : database) :
  valid s = true -> Z.abs now <= 8640000000000000 ->
  Forall tidy (rows (db s)) ->
  run (submitted now s) (db s) = inr d -> Forall tidy (rows d).
Proof.
  intros Hv Hn Ht Hr. unfold submitted in Hr.
  destruct (editingId s) as [i|].
  - apply run_update_inv in Hr. destruct Hr as [-> _].
    apply Forall_forall. intros r Hin. apply in_map_iff in Hin.
    destruct Hin as (r0 & <- & Hin). apply (set_fields_tidy now), (proj1 (Forall_forall _ _) Ht), Hin.
    exact Hv.
  - apply run_insert_inv in Hr. destruct Hr as (i & -> & _).
    apply Forall_app. split; [exact Ht|].
    constructor; [|constructor]. apply submitted_tidy; assumption.
Qed.

Lemma saveExpense_tidy (now : Z) (s : state) :
  Z.abs now <= 8640000000000000 ->
  Forall tidy (rows (db s)) -> Forall tidy (rows (db (snd (saveExpense now s)))).
Proof.
  intros Hn Ht. destruct (valid s) eqn:Hv.
  - destruct (run (submitted now s) (db s)) as [e|d] eqn:Hr.
    + rewrite (saveExpense_rejected _ _ _ Hv Hr). exact Ht.
    + rewrite (saveExpense_accepted _ _ _ Hv Hr). cbn [snd].
      rewrite (proj1 (reloaded_keeps _)).
      apply (run_submitted_tidy now s d Hv Hn Ht Hr).
  - rewrite (saveExpense_invalid _ _ Hv). exact Ht.
Qed.

Lemma deleteExpense_tidy (id : Z) (s : state) :
  Forall tidy (rows (db s)) -> Forall tidy (rows (db (snd (deleteExpense id s)))).
Proof.
  intros Ht. unfold deleteExpense, bind, runAsync.
  destruct (run (Delete id) (db s)) as [e|d] eqn:Hr; [exact Ht|].
  change (Forall tidy (rows (db (reloaded (called (RunAsync (Delete id)) d s))))).
  rewrite (proj1 (reloaded_keeps _)). cbn [db called].
  unfold run in Hr. destruct (table (db s)) as [cols|]; [|discriminate].
  destruct (missing cols ["id"]); [discriminate|]. injection Hr as <-. simpl.
  apply Forall_forall. intros r Hin. apply filter_In in Hin.
  apply (proj1 (Forall_forall _ _) Ht), Hin.
Qed.

(** X16. The screen keeps the store tidy. When every stored row has an amount
    above zero, a category that is not empty and has no white space around
    it, a note that is absent or likewise trimmed, and a date that [new Date]
    reads, then so has every row after a submit or a delete, whatever the
    form holds and whatever the outcome. *)
Theorem store_stays_tidy (now id : Z) (s : state) :
  Z.abs now <= 8640000000000000 ->
  Forall tidy (rows (db s)) ->
  Forall tidy (rows (db (snd (saveExpense now s))))
  /\ Forall tidy (rows (db (snd (deleteExpense id s)))).
Proof.
  intros Hn Ht. split.
  - apply saveExpense_tidy; assumption.
  - apply deleteExpense_tidy, Ht.
Qed.

Lemma store_stays_tidy_witness :
  Forall tidy
    (rows (db (snd (saveExpense sunday_3pm
                      (typed " 7.25 euros" "  Snacks " "   " (initial (ledger_with [])))))))
  /\ rows (db (snd (saveExpense sunday_3pm
                      (typed " 7.25 euros" "  Snacks " "   " (initial (ledger_with []))))))
     = [Expense.make 1 (parseFloat "7.25") "Snacks" None "2024-01-07"].
Proof.
  split; [|reflexivity].
  apply (store_stays_tidy sunday_3pm 0
           (typed " 7.25 euros" "  Snacks " "   " (initial (ledger_with [])))).
  - vm_compute. discriminate.
  - constructor.
Defined.

(** ** Digits *)

Lemma pad_acc (w : nat) (n : Z) (acc : string) :
  pad w n acc = (pad w n "" ++ acc)%string.
Proof.
  revert n acc. induction w as [|w IH]; intros n acc; simpl; [reflexivity|].
  rewrite IH, (IH _ (String _ "")), append_assoc. reflexivity.
Qed.

Lemma pad_head (w : nat) (n : Z) (acc : string) :
  exists c r, pad (S w) n acc = String c r /\ is_digit c = true.
Proof.
  revert n acc. induction w as [|w IH]; intros n acc.
  - simpl. eexists _, _. split; [reflexivity|apply digit_char_digit].
  - change (pad (S (S w)) n acc) with (pad (S w) (n / 10) (String (digit_char n) acc)).
    apply IH.
Qed.

Lemma mod_pow10_succ (n : Z) (w : nat) :
  n mod 10 ^ Z.of_nat (S w) = 10 * ((n / 10) mod 10 ^ Z.of_nat w) + n mod 10.
Proof.
  rewrite Nat2Z.inj_succ, Z.pow_succ_r by lia.
  rewrite Z.rem_mul_r by (try apply Z.pow_pos_nonneg; lia). lia.
Qed.

Lemma digits_pad (w : nat) (n : Z) (r : string) (acc c : Z) :
  digits (pad w n "" ++ r) acc c
  = digits r (acc * 10 ^ Z.of_nat w + n mod 10 ^ Z.of_nat w) (c + Z.of_nat w).
Proof.
  revert n r. induction w as [|w IH]; intros n r.
  - simpl. rewrite Z.mod_1_r. f_equal; lia.
  - change (pad (S w) n "") with (pad w (n / 10) (String (digit_char n) "")).
    rewrite pad_acc, append_assoc. simpl append. rewrite IH.
    cbn [digits]. destruct (digit_char_digit n) as [-> ->].
    rewrite mod_pow10_succ, Nat2Z.inj_succ, Z.pow_succ_r by lia.
    f_equal; lia.
Qed.

Lemma count_digits_spec (fuel : nat) (n : Z) :
  0 <= n < 10 * 2 ^ Z.of_nat fuel ->
  1 <= count_digits fuel n /\ n < 10 ^ count_digits fuel n.
Proof.
  revert n. induction fuel as [|fuel IH]; intros n Hn.
  - simpl in *. lia.
  - cbn [count_digits]. destruct (Z.ltb_spec n 10) as [L|L]; [simpl; lia|].
    rewrite Nat2Z.inj_succ, Z.pow_succ_r in Hn by lia.
    destruct (IH (n / 10)) as [H1 H2].
    { split; [apply Z.div_pos; lia|]. apply Z.div_lt_upper_bound; lia. }
    split; [lia|].
    replace (1 + count_digits fuel (n / 10)) with (Z.succ (count_digits fuel (n / 10)))
      by lia.
    rewrite Z.pow_succ_r by lia.
    pose proof (Z.div_mod n 10 ltac:(lia)). pose proof (Z.mod_pos_bound n 10 ltac:(lia)).
    lia.
Qed.

Lemma ndigits_spec (n : Z) : 0 <= n -> 1 <= ndigits n /\ n < 10 ^ ndigits n.
Proof.
  intros Hn. apply count_digits_spec. rewrite Z2Nat.id by apply Z.log2_nonneg.
  split; [exact Hn|].
  destruct (Z.eq_dec n 0) as [->|N]; [simpl; lia|].
  pose proof (Z.log2_spec n ltac:(lia)) as [_ H].
  rewrite Z.pow_succ_r in H by apply Z.log2_nonneg. lia.
Qed.

Lemma decimal_pad (n : Z) :
  0 <= n -> exists w, decimal n = pad (S w) n "" /\ n < 10 ^ Z.of_nat (S w)
                      /\ Z.of_nat (S w) = ndigits n.
Proof.
  intros Hn. destruct (ndigits_spec n Hn) as [H1 H2].
  unfold decimal. destruct (Z.to_nat (ndigits n)) as [|w] eqn:E; [lia|].
  exists w. rewrite <- E, Z2Nat.id by lia. auto.
Qed.

(** ** Reading back what [format] writes *)

Lemma digit_head (c : ascii) (r : string) :
  is_digit c = true ->
  trimStart (String c r) = String c r
  /\ sign (String c r) = (false, String c r)
  /\ prefix "Infinity" (String c r) = false.
Proof.
  destruct c as [[] [] [] [] [] [] [] []]; try discriminate; repeat split.
Qed.

Lemma parseFloat_digit (c : ascii) (r : string) :
  is_digit c = true ->
  parseFloat (String c r)
  = let '(ip, ni, r1) := digits (String c r) 0 0 in
    let '(m, nf, r2) :=
      match r1 with
      | String "." r' => digits r' ip 0
      | _ => (ip, 0, r1)
      end in
    if (ni =? 0) && (nf =? 0) then NaN else of_decimal false m (exponent r2 - nf).
Proof.
  intros H. unfold parseFloat. destruct (digit_head c r H) as (-> & -> & ->).
  reflexivity.
Qed.

Lemma parseFloat_pad (w : nat) (n : Z) (r : string) :
  parseFloat (pad (S w) n "" ++ r)
  = let '(ip, ni, r1) := digits (pad (S w) n "" ++ r) 0 0 in
    let '(m, nf, r2) :=
      match r1 with
      | String "." r' => digits r' ip 0
      | _ => (ip, 0, r1)
      end in
    if (ni =? 0) && (nf =? 0) then NaN else of_decimal false m (exponent r2 - nf).
Proof.
  destruct (pad_head w n "") as (c & r' & E & Hc). rewrite E. simpl append.
  apply parseFloat_digit, Hc.
Qed.

Lemma exponent_e (r : string) :
  exponent (String "e" r)
  = let '(neg, r') := sign r in
    let '(v, n, _) := digits r' 0 0 in
    if n =? 0 then 0 else if neg then - v else v.
Proof. reflexivity. Qed.

(** The exponent part that [format] writes is read as the exponent. *)
Lemma exponent_written (x : Z) :
  exponent ((if (x <? 0)%Z then "e-" else "e+") ++ decimal (Z.abs x))%string = x.
Proof.
  destruct (decimal_pad (Z.abs x) ltac:(lia)) as (w & -> & Hw & Hk).
  assert (D : digits (pad (S w) (Z.abs x) "") 0 0 = (Z.abs x, Z.of_nat (S w), "")).
  { rewrite <- (append_empty (pad (S w) (Z.abs x) "")), digits_pad.
    cbn [digits]. rewrite Z.mod_small by lia. repeat f_equal; lia. }
  destruct (Z.ltb_spec x 0) as [L|L]; cbn [append]; rewrite exponent_e; cbn [sign];
    rewrite D; destruct (Z.eqb_spec (Z.of_nat (S w)) 0); lia.
Qed.

Lemma of_decimal_int (s q : Z) :
  1 <= s -> 0 <= q -> of_decimal false (s * 10 ^ q) 0 = of_decimal false s q.
Proof.
  intros Hs Hq. unfold of_decimal.
  assert (P : 0 < 10 ^ q) by (apply Z.pow_pos_nonneg; lia).
  destruct s as [|s|s]; try lia.
  destruct (Z.pos s * 10 ^ q) as [|t|t] eqn:E; try nia.
  rewrite <- E. destruct (Z.leb_spec 0 q); [|lia].
  change (0 <=? 0) with true. cbv iota. rewrite Z.pow_0_r, Z.mul_1_r. reflexivity.
Qed.

Lemma digits_end (acc c : Z) : digits "" acc c = (acc, c, "").
Proof. reflexivity. Qed.

Lemma digits_point (r : string) (acc c : Z) :
  digits (String "." r) acc c = (acc, c, String "." r).
Proof. reflexivity. Qed.

Lemma digits_e (r : string) (acc c : Z) :
  digits (String "e" r) acc c = (acc, c, String "e" r).
Proof. reflexivity. Qed.

Lemma digits_zero_point (r : string) :
  digits (String "0" (String "." r)) 0 0 = (0, 1, String "." r).
Proof. reflexivity. Qed.

Lemma split_digits (s : Z) (j : Z) :
  0 <= s -> 0 <= j -> s / 10 ^ j * 10 ^ j + s mod 10 ^ j = s.
Proof.
  intros Hs Hj. pose proof (Z.div_mod s (10 ^ j)) as D.
  assert (0 < 10 ^ j) by (apply Z.pow_pos_nonneg; lia). lia.
Qed.

(** What [format] writes for the decimal [s * 10^p] is read back by
    [parseFloat] as that decimal. *)
Lemma parse_format (s p : Z) :
  1 <= s -> parseFloat (format s p) = of_decimal false s p.
Proof.
  intros Hs. unfold format.
  destruct (decimal_pad s ltac:(lia)) as (w & Ed & Hw & Hk).
  set (k := ndigits s) in *. set (n := p + k).
  assert (Hsm : s mod 10 ^ Z.of_nat (S w) = s) by (apply Z.mod_small; lia).
  set (x := ((if (n - 1 <? 0)%Z then "e-" else "e+") ++ decimal (Z.abs (n - 1)))%string).
  assert (Ex : exponent x = n - 1) by apply exponent_written.
  assert (Hx : exists r, x = String "e" r)
    by (unfold x; destruct (n - 1 <? 0); eexists; reflexivity).
  destruct ((k <=? n) && (n <=? 21)) eqn:C1.
  { apply andb_true_iff in C1. destruct C1 as [C1 _]. apply Z.leb_le in C1.
    rewrite Ed. unfold zeros. rewrite parseFloat_pad, digits_pad.
    rewrite <- (append_empty (pad (Z.to_nat (n - k)) 0 "")), digits_pad, digits_end.
    cbv beta iota zeta.
    rewrite Z2Nat.id, Hsm, Z.mod_0_l by (try apply Z.pow_nonzero; lia).
    destruct (Z.eqb_spec (0 + Z.of_nat (S w) + (n - k)) 0); [lia|].
    cbn [andb exponent].
    replace ((0 * 10 ^ Z.of_nat (S w) + s) * 10 ^ (n - k) + 0) with (s * 10 ^ (n - k))
      by lia.
    rewrite of_decimal_int by lia. f_equal. lia. }
  destruct ((0 <? n) && (n <=? 21)) eqn:C2.
  { apply andb_true_iff in C2. destruct C2 as [C2 C2'].
    apply Z.ltb_lt in C2. apply Z.leb_le in C2'.
    assert (C1' : n < k).
    { apply andb_false_iff in C1. destruct C1 as [C1|C1]; apply Z.leb_gt in C1; lia. }
    destruct (Z.to_nat n) as [|wn] eqn:En; [lia|].
    assert (Hn : Z.of_nat (S wn) = n) by lia.
    assert (Hj : Z.of_nat (Z.to_nat (k - n)) = k - n) by lia.
    pose proof (split_digits s (k - n) ltac:(lia) ltac:(lia)) as Sp.
    assert (Hhi : (s / 10 ^ (k - n)) mod 10 ^ n = s / 10 ^ (k - n)).
    { apply Z.mod_small. split; [apply Z.div_pos; [lia|apply Z.pow_pos_nonneg; lia]|].
      apply Z.div_lt_upper_bound; [apply Z.pow_pos_nonneg; lia|].
      rewrite <- Z.pow_add_r by lia. replace (k - n + n) with k by lia.
      rewrite <- Hk. exact Hw. }
    rewrite parseFloat_pad, digits_pad. cbn [append]. rewrite digits_point.
    cbv beta iota zeta.
    rewrite <- (append_empty (pad (Z.to_nat (k - n)) s "")), digits_pad, digits_end.
    cbv beta iota zeta. rewrite Hn, Hj, Hhi.
    destruct (Z.eqb_spec (0 + n) 0); [lia|]. cbn [andb exponent].
    f_equal; lia. }
  destruct ((-6 <? n) && (n <=? 0)) eqn:C3.
  { apply andb_true_iff in C3. destruct C3 as [_ C3]. apply Z.leb_le in C3.
    cbn [append]. rewrite parseFloat_digit by reflexivity.
    rewrite digits_zero_point. cbv beta iota zeta.
    rewrite Ed. unfold zeros. rewrite digits_pad.
    rewrite <- (append_empty (pad (S w) s "")), digits_pad, digits_end.
    cbv beta iota zeta. rewrite Hsm, Z.mod_0_l by (apply Z.pow_nonzero; lia).
    change (1 =? 0) with false.
    cbn [andb exponent]. f_equal; lia. }
  destruct Hx as [rx Hx].
  destruct (Z.eqb_spec k 1) as [K|K].
  { rewrite Ed, parseFloat_pad, digits_pad, Hx, digits_e.
    cbv beta iota zeta. rewrite <- Hx, Ex, Hsm.
    destruct (Z.eqb_spec (0 + Z.of_nat (S w)) 0); [lia|]. cbn [andb].
    f_equal; lia. }
  { assert (Hj : Z.of_nat (Z.to_nat (k - 1)) = k - 1) by lia.
    pose proof (split_digits s (k - 1) ltac:(lia) ltac:(lia)) as Sp.
    assert (Hhi : (s / 10 ^ (k - 1)) mod 10 ^ Z.of_nat 1 = s / 10 ^ (k - 1)).
    { apply Z.mod_small. split; [apply Z.div_pos; [lia|apply Z.pow_pos_nonneg; lia]|].
      apply Z.div_lt_upper_bound; [apply Z.pow_pos_nonneg; lia|].
      change (10 ^ Z.of_nat 1) with (10 ^ 1).
      rewrite <- Z.pow_add_r by lia. replace (k - 1 + 1) with k by lia.
      rewrite <- Hk. exact Hw. }
    rewrite parseFloat_pad, digits_pad. cbn [append]. rewrite digits_point.
    cbv beta iota zeta.
    rewrite digits_pad, Hx, digits_e.
    cbv beta iota zeta. rewrite <- Hx, Ex, Hj, Hhi.
    change (0 + Z.of_nat 1 =? 0) with false. cbn [andb].
    f_equal; lia. }
Qed.

(** ** All the digits of a number are read as the number *)

Lemma Zpos_iter_xO (q d : positive) : Zpos (Pos.iter xO q d) = Zpos q * 2 ^ Zpos d.
Proof.
  induction d as [|d IH] using Pos.peano_ind.
  - simpl. lia.
  - rewrite Pos.iter_succ, Pos2Z.inj_succ, Z.pow_succ_r by lia.
    rewrite Pos2Z.inj_xO, IH. lia.
Qed.

Lemma Zpos_shl (q : positive) (k : Z) : 0 <= k -> Zpos (shl q k) = Zpos q * 2 ^ k.
Proof.
  destruct k as [|d|d]; intros H; [simpl; lia| |lia].
  apply Zpos_iter_xO.
Qed.

Lemma digits_bounds (z : positive) :
  2 ^ (Zpos (digits2_pos z) - 1) <= Zpos z < 2 ^ Zpos (digits2_pos z).
Proof.
  rewrite digits_size.
  pose proof (Pos.size_gt z) as G. pose proof (Pos.size_le z) as L.
  apply Pos2Z.pos_lt_pos in G. apply Pos2Z.pos_le_pos in L.
  rewrite Pos2Z.inj_pow in G, L. change (Zpos z~0) with (2 * Zpos z) in L.
  replace (Zpos (Pos.size z)) with (Z.succ (Zpos (Pos.size z) - 1)) in L at 1 by lia.
  rewrite Z.pow_succ_r in L by lia. change (Zpos 2) with 2 in *. lia.
Qed.

Lemma canonical_bounds (m : positive) (e : Z) :
  SpecFloat.bounded prec emax m e = true ->
  fexp prec emax (Zpos (digits2_pos m) + e) = e /\ -1074 <= e <= 971
  /\ Zpos (digits2_pos m) <= 53.
Proof.
  unfold SpecFloat.bounded, SpecFloat.canonical_mantissa. intros H.
  apply andb_true_iff in H. destruct H as [Hc He].
  apply Z.eqb_eq in Hc. apply Z.leb_le in He. split; [exact Hc|].
  unfold fexp, SpecFloat.emin, prec, emax in *. lia.
Qed.

(** A mantissa shifted left and its exponent lowered by as much round to
    the number itself. *)
Lemma round_exact (m : positive) (e k : Z) :
  SpecFloat.bounded prec emax m e = true -> 0 <= k ->
  binary_round_aux prec emax false (Zpos (shl m k)) (e - k) loc_Exact
  = S754_finite false m e.
Proof.
  intros Hb Hk. destruct (canonical_bounds m e Hb) as (Hc & He & _).
  unfold binary_round_aux.
  assert (S1 : shr_fexp prec emax (Zpos (shl m k)) (e - k) loc_Exact = (exact m, e)).
  { unfold shr_fexp. change (Zdigits2 (Zpos (shl m k))) with (Zpos (digits2_pos (shl m k))).
    rewrite digits_shl by lia.
    replace (Zpos (digits2_pos m) + k + (e - k)) with (Zpos (digits2_pos m) + e) by lia.
    rewrite Hc. replace (e - (e - k)) with k by lia.
    unfold shr, shr_record_of_loc. destruct k as [|d|d]; try lia.
    - simpl. f_equal. lia.
    - change (shl m (Zpos d)) with (Pos.iter xO m d).
      fold (exact (Pos.iter xO m d)). rewrite shr_exact. f_equal. lia. }
  rewrite S1. cbn [exact shr_m shr_r shr_s loc_of_shr_record round_nearest_even].
  assert (S2 : shr_fexp prec emax (Zpos m) e loc_Exact = (exact m, e)).
  { unfold shr_fexp. change (Zdigits2 (Zpos m)) with (Zpos (digits2_pos m)).
    rewrite Hc, Z.sub_diag. reflexivity. }
  rewrite S2. cbn [exact shr_m].
  destruct (Z.leb_spec e (emax - prec)) as [_|B]; [reflexivity|].
  unfold emax, prec in B. lia.
Qed.

Lemma div_eucl_exact (q t : Z) : 0 < t -> Z.div_eucl (q * t) t = (q, 0).
Proof.
  intros Ht. pose proof (Z.div_mul q t ltac:(lia)) as D.
  pose proof (Z.mod_mul q t ltac:(lia)) as M.
  unfold Z.div, Z.modulo in *. destruct (Z.div_eucl (q * t) t) as [a b].
  subst. reflexivity.
Qed.

Lemma expansion_reads_back (m : positive) (e : Z) :
  SpecFloat.bounded prec emax m e = true ->
  of_decimal false (expansion m e) (Z.min e 0) = S754_finite false m e.
Proof.
  intros Hb. destruct (canonical_bounds m e Hb) as (Hc & He & Hm).
  unfold expansion. destruct (Z.le_gt_cases 0 e) as [P|N].
  - (* a whole number *)
    rewrite Z.max_l, Z.max_r, Z.min_r by lia. change (5 ^ 0) with 1.
    rewrite Z.mul_1_r, <- Zpos_shl by lia.
    unfold of_decimal. change (0 <=? 0) with true. cbv iota.
    rewrite Z.pow_0_r, Z.mul_1_r. unfold binary_normalize, binary_round.
    rewrite digits_shl, Z.add_0_r, Hc by lia.
    unfold shl_align. destruct (e - 0) as [|d|d] eqn:E; try lia.
    + assert (e = 0) by lia. subst e. apply (round_exact m 0 0 Hb). lia.
    + pose proof (round_exact m e e Hb P) as R. rewrite Z.sub_diag in R. exact R.
  - (* a fraction *)
    rewrite Z.max_r, Z.max_l, Z.min_l by lia. change (2 ^ 0) with 1. rewrite Z.mul_1_r.
    set (j := - e). assert (Hj : 0 < j) by (unfold j; lia).
    assert (P5 : 0 < 5 ^ j) by (apply Z.pow_pos_nonneg; lia).
    assert (P2 : 0 < 2 ^ j) by (apply Z.pow_pos_nonneg; lia).
    assert (T10 : 10 ^ j = 2 ^ j * 5 ^ j) by (rewrite <- Z.pow_mul_l; reflexivity).
    destruct (Zpos m * 5 ^ j) as [|sp|sp] eqn:Es; try lia.
    destruct (10 ^ j) as [|tp|tp] eqn:Et; try lia.
    unfold of_decimal. destruct (Z.leb_spec 0 e) as [|_]; [lia|].
    replace (- e) with j by reflexivity. rewrite Et.
    unfold SFdiv_core_binary.
    change (Zdigits2 (Zpos sp)) with (Zpos (digits2_pos sp)).
    change (Zdigits2 (Zpos tp)) with (Zpos (digits2_pos tp)).
    rewrite !Z.add_0_r, Z.sub_diag, Z.sub_0_l.
    pose proof (digits_bounds sp) as Bs. pose proof (digits_bounds tp) as Bt.
    pose proof (digits_bounds m) as Bm.
    set (d1 := Zpos (digits2_pos sp)) in *. set (d2 := Zpos (digits2_pos tp)) in *.
    set (dm := Zpos (digits2_pos m)) in *.
    assert (Hd : d1 - d2 <= 53 + e).
    { assert (L1 : 2 ^ (d1 - 1) * 2 ^ j <= Zpos m * Zpos tp).
      { rewrite <- Es in Bs. rewrite T10. nia. }
      assert (L2 : Zpos m * Zpos tp < 2 ^ 53 * 2 ^ d2).
      { assert (Zpos m < 2 ^ 53).
        { eapply Z.lt_le_trans; [apply Bm|]. apply Z.pow_le_mono_r; lia. }
        assert (0 < 2 ^ d2) by (apply Z.pow_pos_nonneg; unfold d2; lia).
        nia. }
      rewrite <- !Z.pow_add_r in * by (unfold d1, d2; lia).
      assert (L3 : 2 ^ (d1 - 1 + j) < 2 ^ (53 + d2)) by lia.
      apply Z.pow_lt_mono_r_iff in L3; unfold d2 in *; lia. }
    set (e' := Z.min (fexp prec emax (d1 - d2)) 0).
    assert (He' : e' <= e /\ e' <= 0 /\ e' < 0).
    { unfold e', fexp, SpecFloat.emin, prec, emax. lia. }
    destruct (- e') as [|se|se] eqn:Ee; try lia.
    rewrite Z.shiftl_mul_pow2 by lia. rewrite <- Ee.
    replace (Zpos sp * 2 ^ (- e')) with (Zpos (shl m (e - e')) * Zpos tp).
    2:{ rewrite Zpos_shl by lia. rewrite <- Es, T10.
        replace (- e') with ((e - e') + j) by (unfold j; lia).
        rewrite Z.pow_add_r by lia. ring. }
    rewrite div_eucl_exact by lia.
    replace (new_location (Zpos tp) 0) with loc_Exact
      by (unfold new_location; destruct (Z.even (Zpos tp)); reflexivity).
    pose proof (round_exact m e (e - e') Hb ltac:(lia)) as R.
    replace (e - (e - e')) with e' in R by lia. exact R.
Qed.

(** ** [toString] is read back by [parseFloat] *)

Lemma reads_spec (m : positive) (e : Z) (s p : Z) :
  reads m e s p = true -> of_decimal false s p = S754_finite false m e /\ 1 <= s.
Proof.
  unfold reads. intros H. split.
  - destruct (of_decimal false s p) as [|?| |[|] m' e']; try discriminate.
    apply andb_true_iff in H. destruct H as [H1 H2].
    apply Z.eqb_eq in H1, H2. injection H1 as ->. subst. reflexivity.
  - destruct s as [|s|s]; [discriminate|lia|discriminate].
Qed.

Lemma candidate_reads (m : positive) (e k : Z) (c : Z * Z) :
  candidate m e k = Some c -> reads m e (fst c) (snd c) = true.
Proof.
  unfold candidate. destruct (scaled _ _ _) as [f g].
  set (lo := (f / g, magnitude (numerator m e) (denominator e) - k)).
  set (hi := if f / g + 1 =? 10 ^ k then _ else _).
  destruct (reads m e (fst lo) (snd lo)) eqn:L, (reads m e (fst hi) (snd hi)) eqn:H;
    intros [= <-]; try assumption.
  destruct (_ || _); assumption.
Qed.

Lemma search_reads (fuel : nat) (m : positive) (e k : Z) (c : Z * Z) :
  search fuel m e k = Some c -> reads m e (fst c) (snd c) = true.
Proof.
  revert k. induction fuel as [|fuel IH]; intros k; simpl; [discriminate|].
  destruct (candidate m e k) as [c'|] eqn:E; [|apply IH].
  intros [= <-]. apply (candidate_reads _ _ _ _ E).
Qed.

Lemma shortest_reads_back (m : positive) (e : Z) :
  SpecFloat.bounded prec emax m e = true ->
  of_decimal false (fst (shortest m e)) (snd (shortest m e)) = S754_finite false m e
  /\ 1 <= fst (shortest m e).
Proof.
  intros Hb. unfold shortest.
  destruct (search _ m e 1) as [c|] eqn:E.
  - apply reads_spec, (search_reads _ _ _ _ _ E).
  - cbn [fst snd]. split; [apply expansion_reads_back, Hb|].
    unfold expansion.
    assert (0 < 2 ^ Z.max e 0) by (apply Z.pow_pos_nonneg; lia).
    assert (0 < 5 ^ Z.max (- e) 0) by (apply Z.pow_pos_nonneg; lia).
    nia.
Qed.

Lemma parseFloat_toString (x : num) :
  SpecFloat.valid_binary prec emax x = true -> JSNumber.ltb zero x = true ->
  parseFloat (toString x) = x.
Proof.
  destruct x as [s|[|]| |[|] m e]; try discriminate; intros Hv _; [reflexivity|].
  destruct (shortest_reads_back m e Hv) as [H1 H2].
  cbn [toString append]. rewrite parse_format by exact H2. exact H1.
Qed.

(** X17. The text [toString] gives for a number above zero is read back by
    [parseFloat] as that very number: no amount changes by being written out
    and read in again, and the text passes the amount check of the form. *)
Theorem toString_reads_back (x : num) :
  SpecFloat.valid_binary prec emax x = true -> JSNumber.ltb zero x = true ->
  parseFloat (toString x) = x /\ parses_positive (toString x) = true.
Proof.
  intros Hv Hp. unfold parses_positive.
  rewrite (parseFloat_toString x Hv Hp). split; [reflexivity|exact Hp].
Qed.

Lemma toString_reads_back_witness :
  toString (parseFloat "12.50") = "12.5"
  /\ parseFloat (toString (parseFloat "12.50")) = parseFloat "12.50".
Proof.
  split; [vm_compute; reflexivity|].
  apply (proj1 (toString_reads_back (parseFloat "12.50") eq_refl eq_refl)).
Defined.

(** ** Editing without a change *)

Lemma NoDup_ids_eq (l : list Expense.t) (a b : Expense.t) :
  NoDup (ids l) -> In a l -> In b l -> Expense.id a = Expense.id b -> a = b.
Proof.
  unfold ids. induction l as [|x l IH]; simpl; [contradiction|].
  intros N Ha Hb E. inversion N as [|? ? Hx Hl]; subst.
  destruct Ha as [->|Ha], Hb as [->|Hb]; auto.
  - exfalso. apply Hx. rewrite E. apply in_map, Hb.
  - exfalso. apply Hx. rewrite <- E. apply in_map, Ha.
Qed.

Lemma startEditing_form (item : Expense.t) (s : state) :
  Expense.note item = None \/ (exists t, Expense.note item = Some t /\ trimmed t) ->
  trimmed (Expense.category item) ->
  let s1 := snd (startEditing item s) in
  trim (category s1) = Expense.category item
  /\ JSString.falsy (trim (category s1)) = false
  /\ (if JSString.falsy (trim (note s1)) then None else Some (trim (note s1)))
     = Expense.note item.
Proof.
  intros Hn [Hc1 Hc2] s1.
  change (category s1) with (Expense.category item).
  change (note s1) with (match Expense.note item with
                         | Some t => if JSString.falsy t then "" else t
                         | None => ""
                         end).
  rewrite Hc2. split; [reflexivity|]. split.
  - destruct (Expense.category item); [contradiction|reflexivity].
  - destruct Hn as [->|(t & -> & Ht1 & Ht2)]; [reflexivity|].
    destruct t as [|c t]; [contradiction|]. cbn [JSString.falsy]. rewrite Ht2. reflexivity.
Qed.

Lemma tidy_note (r : Expense.t) :
  tidy r -> Expense.note r = None \/ (exists t, Expense.note r = Some t /\ trimmed t).
Proof.
  intros (_ & _ & H & _). destruct (Expense.note r) as [t|]; [right|left; reflexivity].
  exists t. auto.
Qed.

(** X18. Pressing "Edit" on a stored row and submitting the form as it was
    filled leaves the store as it was. For a row with a valid amount above
    zero, a trimmed category and a note that is absent or trimmed, whose id
    no other row carries, the form then passes validation and the statement
    sent sets the row's amount, category and note to the values they have. *)
Theorem edit_without_change_keeps_the_store (now : Z) (s : state) (item : Expense.t) :
  In item (rows (db s)) -> NoDup (ids (rows (db s))) ->
  tidy item -> SpecFloat.valid_binary prec emax (Expense.amount item) = true ->
  let s1 := snd (startEditing item s) in
  valid s1 = true
  /\ submitted now s1
     = Update (Expense.amount item) (Expense.category item) (Expense.note item)
         (Expense.id item)
  /\ rows (db (snd (saveExpense now s1))) = rows (db s).
Proof.
  intros Hin Hnd Ht Hv s1.
  destruct (startEditing_form item s (tidy_note _ Ht) (proj1 (proj2 Ht)))
    as (Hc & Hcf & Hn).
  fold s1 in Hc, Hcf, Hn.
  assert (Ha : parseFloat (amount s1) = Expense.amount item)
    by (apply parseFloat_toString; [exact Hv|apply Ht]).
  assert (V : valid s1 = true).
  { unfold valid, parses_positive. rewrite Ha, Hcf, (proj1 Ht). reflexivity. }
  assert (Q : submitted now s1
              = Update (Expense.amount item) (Expense.category item) (Expense.note item)
                  (Expense.id item)).
  { unfold submitted. change (editingId s1) with (Some (Expense.id item)).
    rewrite Ha, Hc, Hn. reflexivity. }
  split; [exact V|]. split; [exact Q|].
  destruct (run (submitted now s1) (db s1)) as [e|d] eqn:Hr.
  - rewrite (saveExpense_rejected _ _ _ V Hr). reflexivity.
  - rewrite (saveExpense_accepted _ _ _ V Hr). cbn [snd].
    rewrite (proj1 (reloaded_keeps _)). cbn [db cleared called].
    change (rows (db (cleared (called (RunAsync (submitted now s1)) d s1)))) with (rows d).
    rewrite Q in Hr. apply run_update_inv in Hr. destruct Hr as [-> _].
    change (db s1) with (db s).
    apply map_id_in. intros r Hr'. unfold set_fields.
    destruct (Z.eqb_spec (Expense.id r) (Expense.id item)) as [E|E]; [|reflexivity].
    rewrite (NoDup_ids_eq _ r item Hnd Hr' Hin E). destruct item; reflexivity.
Qed.

Lemma edit_without_change_keeps_the_store_witness :
  let item := Expense.make 2 (ofZ 20) "Books" (Some "term two") "2024-01-08" in
  let s1 := snd (startEditing item (initial (ledger_with sample_rows))) in
  amount s1 = "20"
  /\ rows (db (snd (saveExpense sunday_3pm s1))) = sample_rows.
Proof.
  intros item s1. split; [vm_compute; reflexivity|].
  refine (proj2 (proj2 (edit_without_change_keeps_the_store sunday_3pm
                          (initial (ledger_with sample_rows)) item _ _ _ _))).
  - right. left. reflexivity.
  - repeat constructor; simpl; intuition discriminate.
  - split; [reflexivity|]. split; [split; [discriminate|reflexivity]|].
    split; [split; [discriminate|reflexivity]|].
    exists 1704672000000. split; [vm_compute; discriminate|reflexivity].
  - reflexivity.
Defined.

(** ** Sessions *)

Lemma saveExpense_synced (cols : list column) (now : Z) (s : state) :
  has_column cols "id" = true -> synced cols s -> synced cols (snd (saveExpense now s)).
Proof.
  intros Hid [Ht Hs]. destruct (valid s) eqn:Hv.
  - destruct (run (submitted now s) (db s)) as [e|d] eqn:Hr.
    + rewrite (saveExpense_rejected _ _ _ Hv Hr). split; assumption.
    + rewrite (saveExpense_accepted _ _ _ Hv Hr). cbn [snd].
      pose proof (run_keeps_table _ _ _ _ Ht Hr) as Ht'.
      set (s1 := cleared (called (RunAsync (submitted now s)) d s)).
      assert (D : db s1 = d) by reflexivity.
      split.
      * rewrite (proj1 (reloaded_keeps s1)), D. exact Ht'.
      * rewrite (proj1 (reloaded_keeps s1)), D.
        apply reloaded_expenses. rewrite D. apply (select_all_ok _ _ Ht' Hid).
  - rewrite (saveExpense_invalid _ _ Hv). split; assumption.
Qed.

Lemma deleteExpense_synced (cols : list column) (id : Z) (s : state) :
  has_column cols "id" = true -> synced cols s -> synced cols (snd (deleteExpense id s)).
Proof.
  intros Hid [Ht Hs]. pose proof (run_delete id (db s) cols Ht Hid) as Hr.
  rewrite (deleteExpense_accepted _ _ _ Hr). cbn [snd].
  match goal with |- synced _ (reloaded ?x) => set (s1 := x) end.
  split.
  - rewrite (proj1 (reloaded_keeps s1)). reflexivity.
  - rewrite (proj1 (reloaded_keeps s1)).
    apply reloaded_expenses. apply (select_all_ok _ cols); [reflexivity|exact Hid].
Qed.

Lemma saveExpense_db (now : Z) (s : state) :
  db (snd (saveExpense now s)) = db s
  \/ run (submitted now s) (db s) = inr (db (snd (saveExpense now s))).
Proof.
  destruct (valid s) eqn:Hv.
  - destruct (run (submitted now s) (db s)) as [e|d] eqn:Hr.
    + left. rewrite (saveExpense_rejected _ _ _ Hv Hr). reflexivity.
    + right. rewrite (saveExpense_accepted _ _ _ Hv Hr). cbn [snd].
      rewrite (proj1 (reloaded_keeps _)). reflexivity.
  - left. rewrite (saveExpense_invalid _ _ Hv). reflexivity.
Qed.

Lemma deleteExpense_db (id : Z) (s : state) :
  db (snd (deleteExpense id s)) = db s
  \/ run (Delete id) (db s) = inr (db (snd (deleteExpense id s))).
Proof.
  destruct (run (Delete id) (db s)) as [e|d] eqn:Hr.
  - left. unfold deleteExpense, bind, runAsync. rewrite Hr. reflexivity.
  - right. rewrite (deleteExpense_accepted _ _ _ Hr). cbn [snd].
    rewrite (proj1 (reloaded_keeps _)). reflexivity.
Qed.

(** X19. Throughout a session over a table that has the [id] column, whose
    rows start out with distinct ids and tidy, the list in memory is always
    what a load of the store gives (every stored row once, newest first), the
    ids stay distinct, every row stays tidy, the filter mode is one of
    ['all'], ['week'] and ['month'], and the label of the summary names the
    mode in force. *)
Theorem session_keeps_list_and_store_in_step (tza : Z) (d0 : database)
    (cols : list column) (s : state) :
  table d0 = Some cols -> has_column cols "id" = true ->
  keyed d0 -> Forall tidy (rows d0) ->
  reachable tza d0 s ->
  synced cols s
  /\ keyed (db s)
  /\ Forall tidy (rows (db s))
  /\ ((filter s = "all" /\ currentFilterLabel s = "All")
      \/ (filter s = "week" /\ currentFilterLabel s = "This Week")
      \/ (filter s = "month" /\ currentFilterLabel s = "This Month")).
Proof.
  intros Ht Hid Hk Hty R. induction R as [|s now ev R IH Hnow Hoff].
  - assert (E : snd (mount (initial d0)) = reloaded (initial d0)) by reflexivity.
    rewrite E. destruct (reloaded_keeps (initial d0)) as (Hd & _ & Hf).
    unfold synced, currentFilterLabel. rewrite Hd, Hf.
    split; [split; [exact Ht|]|].
    { apply reloaded_expenses, (select_all_ok _ _ Ht Hid). }
    split; [exact Hk|]. split; [exact Hty|]. left. split; reflexivity.
  - destruct IH as (Hs & Hkd & Htd & Hf).
    destruct ev; cbn [handler]; try (split; [exact Hs|split; [exact Hkd|split; [exact Htd|]]]).
    + exact Hf.
    + exact Hf.
    + exact Hf.
    + left. split; reflexivity.
    + right. left. split; reflexivity.
    + right. right. split; reflexivity.
    + split; [apply saveExpense_synced; assumption|].
      assert (F : filter (snd (saveExpense now s)) = filter s).
      { destruct (valid s) eqn:Hv.
        - destruct (run (submitted now s) (db s)) as [e|d] eqn:Hr.
          + rewrite (saveExpense_rejected _ _ _ Hv Hr). reflexivity.
          + rewrite (saveExpense_accepted _ _ _ Hv Hr). cbn [snd].
            rewrite (proj2 (proj2 (reloaded_keeps _))). reflexivity.
        - rewrite (saveExpense_invalid _ _ Hv). reflexivity. }
      split; [|split].
      * destruct (saveExpense_db now s) as [->|Hr]; [exact Hkd|].
        apply (run_keyed _ _ _ Hkd Hr).
      * apply (saveExpense_tidy now s Hnow Htd).
      * unfold currentFilterLabel. rewrite F. exact Hf.
    + exact Hf.
    + exact Hf.
    + split; [apply deleteExpense_synced; assumption|].
      assert (F : filter (snd (deleteExpense (Expense.id item) s)) = filter s).
      { destruct (run (Delete (Expense.id item)) (db s)) as [e|d] eqn:Hr.
        - unfold deleteExpense, bind, runAsync. rewrite Hr. reflexivity.
        - rewrite (deleteExpense_accepted _ _ _ Hr). cbn [snd].
          rewrite (proj2 (proj2 (reloaded_keeps _))). reflexivity. }
      split; [|split].
      * destruct (deleteExpense_db (Expense.id item) s) as [->|Hr]; [exact Hkd|].
        apply (run_keyed _ _ _ Hkd Hr).
      * apply (deleteExpense_tidy (Expense.id item) s Htd).
      * unfold currentFilterLabel. rewrite F. exact Hf.
Qed.

Lemma session_keeps_list_and_store_in_step_witness :
  let d0 := ledger_with sample_rows in
  let s1 := snd (handler sunday_3pm PressWeek (snd (mount (initial d0)))) in
  let s2 := snd (handler wednesday_3pm (PressDelete (Expense.make 2 (ofZ 20) "Books" (Some "term two") "2024-01-08")) s1) in
  map Expense.id (expenses s2) = [3; 1]
  /\ synced ledger s2
  /\ currentFilterLabel s2 = "This Week".
Proof.
  intros d0 s1 s2.
  assert (Hnow : Z.abs sunday_3pm <= 8640000000000000) by (vm_compute; discriminate).
  assert (R1 : reachable 0 d0 s1) by (apply reach_event; [apply reach_mount|exact Hnow|exact I]).
  assert (R2 : reachable 0 d0 s2).
  { apply reach_event; [exact R1|vm_compute; discriminate|].
    cbn [offered]. vm_compute. tauto. }
  assert (K : keyed d0).
  { split; [repeat constructor; simpl; intuition discriminate|].
    intros r Hr. repeat (destruct Hr as [<-|Hr]; [vm_compute; discriminate|]). destruct Hr. }
  assert (T : Forall tidy (rows d0)).
  { repeat constructor; try discriminate; try reflexivity;
      try (exists sunday_3pm; split; [vm_compute; discriminate|reflexivity]);
      try (exists 1704672000000; split; [vm_compute; discriminate|reflexivity]);
      try (exists 1704758400000; split; [vm_compute; discriminate|reflexivity]). }
  destruct (session_keeps_list_and_store_in_step 0 d0 ledger s2 eq_refl eq_refl K T R2)
    as (H1 & _ & _ & H4).
  split; [reflexivity|]. split; [exact H1|].
  destruct H4 as [[H _]|[[_ H]|[H _]]]; [discriminate H|exact H|discriminate H].
Defined.

(** ** The summary *)

Lemma categoryLines_none (l : list (string * JSObject.value)) :
  categoryLines l = None <-> exists p, In p l /\ toFixed2 (snd p) = None.
Proof.
  induction l as [|[c v] l IH]; simpl.
  - split; [discriminate|]. intros (p & [] & _).
  - destruct (toFixed2 v) as [t|] eqn:E.
    + destruct (categoryLines l) as [ls|].
      * split; [discriminate|]. intros (p & [<-|Hp] & Hn).
        -- simpl in Hn. congruence.
        -- assert (X : Some ls = None) by (apply IH; exists p; auto).
           discriminate X.
      * split; [|reflexivity]. intros _.
        destruct (proj1 IH eq_refl) as (p & Hp & Hn). exists p. auto.
    + split; [|reflexivity]. intros _. exists (c, v). auto.
Qed.

Lemma insert_index_in (p q : Z * (string * JSObject.value)) l :
  In q (JSObject.insert_index p l) <-> q = p \/ In q l.
Proof.
  induction l as [|x l IH]; simpl; [intuition|].
  destruct (fst p <? fst x); simpl; [intuition|]. rewrite IH. intuition.
Qed.

Lemma sorted_index_in (q : Z * (string * JSObject.value)) l :
  In q (fold_right JSObject.insert_index [] l) <-> In q l.
Proof.
  induction l as [|x l IH]; simpl; [reflexivity|].
  rewrite insert_index_in, IH. intuition.
Qed.

Lemma in_entries (o : JSObject.t) (p : string * JSObject.value) :
  In p (JSObject.entries o) <-> In p o.
Proof.
  unfold JSObject.entries, JSObject.indexed. rewrite in_app_iff, in_map_iff, filter_In. split.
  - intros [((i & q) & <- & H)|[H _]]; [|exact H].
    apply sorted_index_in, in_flat_map in H. destruct H as (x & Hx & Hi).
    destruct (JSObject.index (fst x)); [|destruct Hi].
    destruct Hi as [[= <- <-]|[]]. exact Hx.
  - intros H. destruct (JSObject.index (fst p)) as [i|] eqn:E; [left|right; auto].
    exists (i, p). split; [reflexivity|].
    apply sorted_index_in, in_flat_map. exists p. split; [exact H|].
    rewrite E. left. reflexivity.
Qed.

Lemma in_put (o : JSObject.t) (k : string) (w : JSObject.value) c v :
  In (c, v) (JSObject.put o k w) -> In (c, v) o \/ (c, v) = (k, w).
Proof.
  induction o as [|p o IH]; simpl.
  - intros [E|[]]. right. congruence.
  - destruct (fst p =? k)%string; simpl.
    + intros [E|H]; [right; congruence|left; right; exact H].
    + intros [E|H]; [left; left; exact E|]. destruct (IH H); auto.
Qed.

Lemma own_in (o : JSObject.t) (k : string) (v : JSObject.value) :
  JSObject.own o k = Some v -> In (k, v) o.
Proof.
  unfold JSObject.own. destruct (find _ o) as [p|] eqn:E; [|discriminate].
  intros [= <-]. apply find_some in E. destruct E as [H E].
  apply String.eqb_eq in E. subst k. destruct p. exact H.
Qed.

Lemma own_put (o : JSObject.t) (k : string) (w : JSObject.value) :
  JSObject.own (JSObject.put o k w) k = Some w.
Proof.
  unfold JSObject.own. induction o as [|p o IH]; simpl.
  - rewrite String.eqb_refl. reflexivity.
  - destruct (fst p =? k)%string eqn:E; simpl.
    + rewrite String.eqb_refl. reflexivity.
    + rewrite E. exact IH.
Qed.

Lemma typed_put (o : JSObject.t) (k : string) (w : JSObject.value) :
  typed_totals o ->
  (if existsb (String.eqb k) JSObject.inherited then w = JSObject.Str
   else exists x, w = JSObject.Num x) ->
  typed_totals (JSObject.put o k w).
Proof.
  intros Ho Hw c v H. apply in_put in H. destruct H as [H|[= -> ->]]; [|exact Hw].
  apply Ho, H.
Qed.

Lemma get_typed (o : JSObject.t) (c : string) :
  typed_totals o ->
  if existsb (String.eqb c) JSObject.inherited
  then JSObject.get o c = JSObject.Str \/ JSObject.get o c = JSObject.Obj
  else JSObject.get o c = JSObject.Undefined \/ exists x, JSObject.get o c = JSObject.Num x.
Proof.
  intros Ho. unfold JSObject.get.
  destruct (JSObject.own o c) as [v|] eqn:O.
  - apply own_in, Ho in O.
    destruct (existsb (String.eqb c) JSObject.inherited); [left; exact O|right; exact O].
  - destruct (existsb (String.eqb c) JSObject.inherited); [right|left]; reflexivity.
Qed.

Lemma get_put (o : JSObject.t) (k : string) (w : JSObject.value) :
  JSObject.get (JSObject.put o k w) k = w.
Proof. unfold JSObject.get. rewrite own_put. reflexivity. Qed.

Lemma tally_typed (o : JSObject.t) (e : Expense.t) :
  typed_totals o -> typed_totals (tally o e).
Proof.
  intros Ho. unfold tally. set (c := Expense.category e). set (a := Expense.amount e).
  unfold JSObject.set. destruct (c =? "__proto__")%string eqn:P.
  { destruct (JSObject.not _); exact Ho. }
  pose proof (get_typed o c Ho) as G.
  destruct (existsb (String.eqb c) JSObject.inherited) eqn:I.
  - assert (N : JSObject.not (JSObject.get o c) = false
                /\ JSObject.plus (JSObject.get o c) (JSObject.Num a) = JSObject.Str)
      by (destruct G as [-> | ->]; split; reflexivity).
    destruct N as [N1 N2]. rewrite N1, N2.
    apply typed_put; [exact Ho|]. rewrite I. reflexivity.
  - destruct (JSObject.not (JSObject.get o c)) eqn:N.
    + rewrite get_put. cbn [JSObject.plus].
      apply typed_put; [apply typed_put; [exact Ho|]|]; rewrite I; eexists; reflexivity.
    + destruct G as [G|[x G]]; rewrite G in *; [discriminate|]. cbn [JSObject.plus].
      apply typed_put; [exact Ho|]. rewrite I. eexists; reflexivity.
Qed.

Lemma totals_typed (now tza : Z) (s : state) :
  typed_totals (getTotalsByCategory now tza s).
Proof.
  rewrite getTotalsByCategory_fold.
  assert (H : typed_totals JSObject.empty) by (intros c v []).
  revert H. generalize JSObject.empty.
  induction (getFilteredExpenses now tza s) as [|e l IH]; intros o Ho; simpl; [exact Ho|].
  apply IH, tally_typed, Ho.
Qed.

(** X20. Building the summary fails, and with it the render of the screen,
    exactly when a record of the filtered view has a category that is the
    name of a property every object inherits, other than ["__proto__"]: the
    total under such a name is a string, on which [toFixed] is not defined. *)
Theorem summary_fails_exactly_on_inherited_names (now tza : Z) (s : state) :
  renderSummary now tza s = None
  <-> exists e, In e (getFilteredExpenses now tza s)
                /\ In (Expense.category e) JSObject.inherited
                /\ Expense.category e <> "__proto__".
Proof.
  unfold renderSummary.
  set (o := getTotalsByCategory now tza s).
  assert (Ho : typed_totals o) by apply totals_typed.
  assert (K : forall c, In c (keys o)
                        <-> occurs c (getFilteredExpenses now tza s) = true
                            /\ c <> "__proto__").
  { intros c. unfold o. rewrite getTotalsByCategory_fold, keys_fold_tally.
    simpl. intuition. }
  assert (L : categoryLines (JSObject.entries o) = None
              <-> exists c v, In (c, v) o /\ toFixed2 v = None).
  { rewrite categoryLines_none. split.
    - intros ([c v] & H & N). apply (proj1 (in_entries _ _)) in H. eauto.
    - intros (c & v & H & N). exists (c, v). split; [apply in_entries, H|exact N]. }
  split.
  - intros H.
    assert (N : categoryLines (JSObject.entries o) = None)
      by (destruct (categoryLines (JSObject.entries o)); [discriminate|reflexivity]).
    apply L in N. destruct N as (c & v & Hin & Hv).
    pose proof (Ho c v Hin) as T.
    destruct (existsb (String.eqb c) JSObject.inherited) eqn:I.
    + assert (Hk : In c (keys o)) by (apply in_map_iff; exists (c, v); auto).
      apply K in Hk. destruct Hk as [Hoc Hp].
      apply existsb_exists in Hoc. destruct Hoc as (e & He & Ee).
      apply String.eqb_eq in Ee. exists e. split; [exact He|]. rewrite Ee.
      split; [|exact Hp].
      apply existsb_exists in I. destruct I as (k & Hk & Ek).
      apply String.eqb_eq in Ek. subst k. exact Hk.
    + destruct T as [x ->]. discriminate.
  - intros (e & He & Hi & Hp).
    assert (Hk : In (Expense.category e) (keys o)).
    { apply K. split; [|exact Hp]. apply existsb_exists. exists e.
      split; [exact He|apply String.eqb_refl]. }
    apply in_map_iff in Hk. destruct Hk as ([c v] & Ec & Hin). simpl in Ec. subst c.
    pose proof (Ho _ v Hin) as T.
    replace (existsb (String.eqb (Expense.category e)) JSObject.inherited) with true in T.
    2:{ symmetry. apply existsb_exists. exists (Expense.category e).
        split; [exact Hi|apply String.eqb_refl]. }
    subst v.
    replace (categoryLines (JSObject.entries o)) with (@None (list (string * string)));
      [reflexivity|].
    symmetry. apply L. exists (Expense.category e), JSObject.Str. auto.
Qed.

(** ** Whole amounts on the screen *)

Lemma toFixed_whole (n : Z) :
  0 <= n < 2 ^ 53 -> toFixed (ofZ n) 2 = (decimal n ++ ".00")%string.
Proof.
  intros Hn. destruct n as [|q|q]; [reflexivity| |lia].
  rewrite ofZ_pos by lia. unfold canon.
  pose proof (digits_bound q ltac:(lia)) as Hd.
  set (d := Zpos (digits2_pos q)) in *.
  assert (Hd1 : 1 <= d) by (unfold d; lia).
  cbn [toFixed]. unfold numerator, denominator.
  rewrite Zpos_shl by lia.
  rewrite (Z.max_r (d - 53) 0), (Z.max_l (- (d - 53)) 0) by lia.
  change (2 ^ 0) with 1. rewrite Z.mul_1_r.
  replace (- (d - 53)) with (53 - d) by lia.
  set (b := 2 ^ (53 - d)).
  assert (Hb : 0 < b) by (apply Z.pow_pos_nonneg; lia).
  destruct (Z.leb_spec (10 ^ 21 * b) (Zpos q * b)) as [B|_].
  { exfalso. assert (Zpos q < 10 ^ 21) by (change (2 ^ 53) with 9007199254740992 in *;
      change (10 ^ 21) with 1000000000000000000000; lia). nia. }
  replace ((2 * (Zpos q * b) * 10 ^ 2 + b) / (2 * b)) with (100 * Zpos q).
  2:{ apply (Z.div_unique _ _ _ b); [lia|]. change (10 ^ 2) with 100. lia. }
  change (2 =? 0) with false. cbv iota. cbn [append].
  change (10 ^ 2) with 100.
  replace (100 * Zpos q / 100) with (Zpos q)
    by (symmetry; rewrite Z.mul_comm; apply Z.div_mul; lia).
  f_equal. change (Z.to_nat 2) with 2%nat. cbn [pad]. unfold digit_char.
  replace (100 * Zpos q / 10) with (10 * Zpos q * 1)
    by (apply Z.div_unique with (r := 0); lia).
  replace ((10 * Zpos q * 1) mod 10) with 0
    by (symmetry; rewrite Z.mul_1_r, Z.mul_comm; apply Z.mod_mul; lia).
  replace ((100 * Zpos q) mod 10) with 0
    by (symmetry; replace (100 * Zpos q) with (10 * Zpos q * 10) by lia;
        apply Z.mod_mul; lia).
  reflexivity.
Qed.

Lemma whole_amounts_bound (n : Expense.t -> Z) (l : list Expense.t) (e : Expense.t) :
  whole_amounts n l -> In e l -> 0 <= n e <= zsum (map n l) /\ 0 <= zsum (map n l).
Proof.
  induction l as [|x l IH]; simpl; [contradiction|]. intros H Hin.
  assert (0 <= n x) by (apply H; left; reflexivity).
  assert (Hl : whole_amounts n l) by (intros y Hy; apply H; right; exact Hy).
  assert (0 <= zsum (map n l)).
  { clear -Hl. induction l as [|y l IH]; simpl; [lia|].
    assert (0 <= n y) by (apply Hl; left; reflexivity).
    assert (0 <= zsum (map n l)) by (apply IH; intros z Hz; apply Hl; right; exact Hz).
    lia. }
  destruct Hin as [->|Hin]; [lia|]. specialize (IH Hl Hin). lia.
Qed.

(** X21. When the amounts of the filtered view are whole numbers, none
    negative, adding up to less than 2^53, every row shows its amount as a
    dollar sign, the digits of the whole number and [.00], and the summary,
    when it is built, shows their exact sum in the same form. *)
Theorem whole_amounts_are_shown_to_the_cent (now tza : Z) (s : state)
    (n : Expense.t -> Z) :
  let view := getFilteredExpenses now tza s in
  whole_amounts n view -> zsum (map n view) < 2 ^ 53 ->
  map row_amount (renderList now tza s)
  = map (fun e => "$" ++ decimal (n e) ++ ".00")%string view
  /\ forall sm, renderSummary now tza s = Some sm ->
       summary_total sm = ("$" ++ decimal (zsum (map n view)) ++ ".00")%string.
Proof.
  intros view Hw Hb. split.
  - unfold renderList. fold view. rewrite map_map. apply map_ext_in.
    intros e He. cbn [renderExpense row_amount]. f_equal.
    destruct (Hw e He) as [H0 ->].
    apply toFixed_whole. pose proof (whole_amounts_bound n view e Hw He). lia.
  - intros sm. unfold renderSummary.
    destruct (categoryLines _); [|discriminate]. intros [= <-].
    cbn [summary_total].
    assert (T : getTotalSpending now tza s = ofZ (zsum (map n view))).
    { unfold getTotalSpending. fold view. change zero with (ofZ 0).
      rewrite (spending_whole n view 0 Hw); [reflexivity|lia|lia]. }
    rewrite T. cbn [append]. f_equal. apply toFixed_whole.
    destruct view as [|e0 l0] eqn:E; [simpl; lia|].
    pose proof (whole_amounts_bound n (e0 :: l0) e0 Hw (or_introl eq_refl)). lia.
Qed.

Lemma whole_amounts_are_shown_to_the_cent_witness :
  map row_amount (renderList wednesday_3pm 0 (showing "week" sample_rows))
  = ["$20.00"; "$5.00"]
  /\ forall sm, renderSummary wednesday_3pm 0 (showing "week" sample_rows) = Some sm ->
       summary_total sm = "$25.00".
Proof.
  apply (whole_amounts_are_shown_to_the_cent wednesday_3pm 0 (showing "week" sample_rows)
           (fun e => if Expense.id e =? 2 then 20 else 5)).
  - intros e He. vm_compute in He.
    repeat (destruct He as [<-|He]; [split; [simpl; lia|reflexivity]|]). destruct He.
  - reflexivity.
Defined.

(** * Cross-checks of the model *)

(** [parseFloat] agrees with the kernel's own reading of binary64 literals. *)
Example parseFloat_12_5 : parseFloat "12.5" = Prim2SF 12.5%float.
Proof. reflexivity. Qed.

Example parseFloat_tenth : parseFloat "0.1" = Prim2SF 0x1.999999999999ap-4%float.
Proof. reflexivity. Qed.

Example parseFloat_prefix : parseFloat "  7.25 euros" = Prim2SF 7.25%float.
Proof. reflexivity. Qed.

Example parseFloat_not_a_number : parseFloat "twelve" = NaN.
Proof. reflexivity. Qed.

(** On a table that has the columns the screen names, the create of C1 does
    round-trip: one record, with the submitted fields and the date of the
    call. *)
Example create_round_trip_on_ledger :
  let s := typed "12.5" "Food" "lunch" (initial (ledger_with [])) in
  expenses (snd (saveExpense sunday_3pm s))
  = [Expense.make 1 (parseFloat "12.5") "Food" (Some "lunch") "2024-01-07"].
Proof. reflexivity. Qed.

(** [toString] and [toFixed] give the texts the language gives. *)
Example toString_examples :
  map (fun t => toString (parseFloat t))
    ["12.50"; "0.1"; "100"; "1e21"; "123456789012345680000"; "1e-7"; "0.000001";
     "5e-324"; "9007199254740993"; "1.7976931348623157e308"; "0"; "Infinity"]
  = ["12.5"; "0.1"; "100"; "1e+21"; "123456789012345680000"; "1e-7"; "0.000001";
     "5e-324"; "9007199254740992"; "1.7976931348623157e+308"; "0"; "Infinity"].
Proof. vm_compute. reflexivity. Qed.

Example toString_sum : toString (add (parseFloat "0.1") (parseFloat "0.2")) = "0.30000000000000004".
Proof. vm_compute. reflexivity. Qed.

Example toFixed_examples :
  map (fun t => toFixed (parseFloat t) 2)
    ["12.5"; "0.1"; "1.005"; "0.125"; "0.004"; "0.005"; "-0.001"; "-2.5"; "1e21"; "0"]
  = ["12.50"; "0.10"; "1.00"; "0.13"; "0.00"; "0.01"; "-0.00"; "-2.50"; "1e+21"; "0.00"].
Proof. vm_compute. reflexivity. Qed.

(** [Object.entries] lists the array indices first, in ascending order. *)
Example entries_order :
  map fst (JSObject.entries
             [("Food", JSObject.Num zero); ("10", JSObject.Num zero);
              ("2", JSObject.Num zero); ("02", JSObject.Num zero)])
  = ["2"; "10"; "Food"; "02"].
Proof. reflexivity. Qed.

(** The texts of a render of the three sample rows. *)
Example render_example :
  renderSummary 0 0 (showing "all" sample_rows)
  = Some {| summary_label := "All"; summary_total := "$35.00";
            summary_lines := [("Food", "$15.00"); ("Books", "$20.00")] |}
  /\ renderExpense (Expense.make 2 (ofZ 20) "Books" (Some "term two") "2024-01-08")
     = {| row_amount := "$20.00"; row_category := "Books";
          row_note := Some "term two"; row_date := "2024-01-08" |}.
Proof. split; vm_compute; reflexivity. Qed.
